(** * Modbus protocol stack (RTU / TCP, master and slave): model and properties

    A shallow embedding of the protocol engine of the repository: the
    transport reader [modbus_backend_read], the TCP frame codec
    ([modbus_tcp.c]), the master transactions ([modbus_master.c]) and the
    slave dispatch ([modbus_slave.c]).

    Conventions.
    - C integers are [Z]; conversions to a narrower type are written out
      ([u8], [u16], [int32]).
    - The outside of the engine (serial driver, socket, clock, user
      callbacks) is a state of an arbitrary type [W] that every external call
      takes and returns.
    - A [NULL] pointer is [None].
    - [MB_ASSERT] guards programmer errors only; a call is taken to satisfy
      the assertions of the function it enters. *)

From Stdlib Require Import ZArith List Bool Lia.
Import ListNotations.
Open Scope Z_scope.

(** ** Machine integers *)

Definition u8 (z : Z) : Z := z mod 256.
Definition u16 (z : Z) : Z := z mod 65536.

(** Conversion of a wider integer to [int] (two's complement, 32 bits). *)
Definition int32 (z : Z) : Z := (z + 2 ^ 31) mod 2 ^ 32 - 2 ^ 31.

Lemma int32_id : forall z, - 2 ^ 31 <= z < 2 ^ 31 -> int32 z = z.
Proof.
  intros z Hz. unfold int32.
  rewrite Z.mod_small by lia. lia.
Qed.

Lemma u16_range : forall z, 0 <= u16 z < 65536.
Proof. intro z. unfold u16. apply Z.mod_pos_bound. lia. Qed.

Lemma u8_range : forall z, 0 <= u8 z < 256.
Proof. intro z. unfold u8. apply Z.mod_pos_bound. lia. Qed.

Lemma u16_id : forall z, 0 <= z < 65536 -> u16 z = z.
Proof. intros z Hz. unfold u16. apply Z.mod_small. exact Hz. Qed.

Lemma u8_id : forall z, 0 <= z < 256 -> u8 z = z.
Proof. intros z Hz. unfold u8. apply Z.mod_small. exact Hz. Qed.

Lemma testbit_above_u16 :
  forall a n, 0 <= a < 65536 -> 16 <= n -> Z.testbit a n = false.
Proof.
  intros a n Ha Hn.
  destruct (Z.eq_dec a 0) as [->|Hnz]; [apply Z.bits_0|].
  apply Z.bits_above_log2; [lia|].
  assert (Z.log2 a < 16); [|lia].
  apply Z.log2_lt_pow2; lia.
Qed.

(** A value whose bits from 16 up are clear is a [uint16_t] value. *)
Lemma u16_of_low_bits :
  forall x, (forall n, 16 <= n -> Z.testbit x n = false) -> u16 x = x.
Proof.
  intros x Hx. unfold u16. change 65536 with (2 ^ 16).
  rewrite <- Z.land_ones by lia.
  apply Z.bits_inj'. intros n Hn. rewrite Z.land_spec.
  destruct (Z_lt_le_dec n 16) as [Hlt|Hge].
  - rewrite Z.ones_spec_low by lia. apply andb_true_r.
  - rewrite Z.ones_spec_high by lia. rewrite Hx by lia. reflexivity.
Qed.

(** The read-modify-write expression of the mask-write handler stays within
    16 bits. *)
Lemma mask_value_u16 :
  forall cur val_and val_or,
    0 <= cur < 65536 -> 0 <= val_or < 65536 ->
    u16 (Z.lor (Z.land cur val_and) (Z.land val_or (Z.lnot val_and)))
    = Z.lor (Z.land cur val_and) (Z.land val_or (Z.lnot val_and)).
Proof.
  intros cur val_and val_or Hc Ho. apply u16_of_low_bits. intros n Hn.
  rewrite Z.lor_spec, !Z.land_spec.
  rewrite (testbit_above_u16 cur n Hc Hn), (testbit_above_u16 val_or n Ho Hn).
  reflexivity.
Qed.

(** ** Transport backend: the two-timer reader *)

Module Backend.

(** Caller memory seen from the pointer [buf]: offset to byte.  Offsets
    outside [0, bufsize) are the memory around the buffer. *)
Definition memory := Z -> Z.

Definition store_bytes (m : memory) (off : Z) (data : list Z) : memory :=
  fun a =>
    if (off <=? a) && (a <? off + Z.of_nat (length data))
    then nth (Z.to_nat (a - off)) data 0
    else m a.

Section Reader.

Variable W : Type.

(** [modbus_port_get_ms] and [modbus_port_delay_ms] (weak symbols bound to
    the RTOS tick and thread delay). *)
Variable modbus_port_get_ms : W -> Z * W.
Variable modbus_port_delay_ms : Z -> W -> W.

(** A port [read(hinst, p, size)]: the value returned and the bytes the
    port stored from [p] on. *)
Definition port_read_t := Z -> Z -> W -> Z * list Z * W.

Record mb_backend_ops_t := {
  open  : option (W -> option Z * W);
  close : option (Z -> W -> Z * W);
  read  : option port_read_t;
  write : option (Z -> list Z -> Z -> W -> Z * W);
  flush : option (Z -> W -> Z * W)
}.

Record mb_backend_t := {
  ops : option mb_backend_ops_t;
  ack_tmo_ms : Z;
  byte_tmo_ms : Z;
  hinst : option Z
}.

(** Outcome of one pass through the body of the [while] loop.  The clock
    values are [long long] and are taken exact; their difference is converted
    to [int]; [pos + len] is exact for a port that honours the size it is
    given. *)
Inductive round_t :=
| Done (r : Z) (buf : memory) (w : W)
| Again (pos told_ms : Z) (buf : memory) (w : W).

Definition read_round (rd : port_read_t) (backend : mb_backend_t)
           (h bufsize pos told_ms : Z) (buf : memory) (w : W) : round_t :=
  let '(len, data, w1) := rd h (bufsize - pos) w in
  let buf1 := store_bytes buf pos data in
  if len <? 0 then Done (-1) buf1 w1
  else if 0 <? len then
    let (now, w2) := modbus_port_get_ms w1 in
    Again (pos + len) now buf1 w2
  else
    let (now, w2) := modbus_port_get_ms w1 in
    let tmo_ms := int32 (now - told_ms) in
    if negb (pos =? 0) then
      if byte_tmo_ms backend <? tmo_ms then Done pos buf1 w2
      else Again pos told_ms buf1 (modbus_port_delay_ms 2 w2)
    else
      if ack_tmo_ms backend <? tmo_ms then Done pos buf1 w2
      else Again pos told_ms buf1 (modbus_port_delay_ms 2 w2).

(** [while (pos < bufsize) { ... } return pos;] with a bound on the number
    of times the loop condition is evaluated. *)
Fixpoint read_loop (fuel : nat) (rd : port_read_t) (backend : mb_backend_t)
         (h bufsize pos told_ms : Z) (buf : memory) (w : W)
  : option (Z * memory * W) :=
  match fuel with
  | O => None
  | S fuel' =>
      if pos <? bufsize then
        match read_round rd backend h bufsize pos told_ms buf w with
        | Done r buf' w' => Some (r, buf', w')
        | Again pos' told' buf' w' =>
            read_loop fuel' rd backend h bufsize pos' told' buf' w'
        end
      else Some (pos, buf, w)
  end.

Definition modbus_backend_read (fuel : nat) (backend : option mb_backend_t)
           (buf : option memory) (bufsize : Z) (w : W)
  : option (Z * option memory * W) :=
  match backend, buf with
  | Some bk, Some m =>
      if bufsize <=? 0 then Some (-1, buf, w)
      else
        match hinst bk with
        | None => Some (-1, buf, w)
        | Some h =>
            match ops bk with
            | None => Some (-1, buf, w)
            | Some o =>
                match read o with
                | None => Some (-1, buf, w)
                | Some rd =>
                    let (told_ms, w1) := modbus_port_get_ms w in
                    match read_loop fuel rd bk h bufsize 0 told_ms m w1 with
                    | Some (r, m', w') => Some (r, Some m', w')
                    | None => None
                    end
                end
            end
        end
  | _, _ => Some (-1, buf, w)
  end.

(** *** What the caller can observe of the polling rounds *)

(** The length returned by the next port read and the clock value read
    right after it. *)
Definition observe (rd : port_read_t) (h bufsize pos : Z) (w : W) : Z * Z :=
  let '(len, _, w1) := rd h (bufsize - pos) w in
  (len, fst (modbus_port_get_ms w1)).

(** [n] rounds that all went back to the loop head: the observations made
    and the loop variables reached. *)
Fixpoint poll_rounds (n : nat) (rd : port_read_t) (backend : mb_backend_t)
         (h bufsize pos told_ms : Z) (buf : memory) (w : W)
  : option (list (Z * Z) * (Z * Z * memory * W)) :=
  match n with
  | O => Some ([], (pos, told_ms, buf, w))
  | S n' =>
      if pos <? bufsize then
        match read_round rd backend h bufsize pos told_ms buf w with
        | Done _ _ _ => None
        | Again pos' told' buf' w' =>
            match poll_rounds n' rd backend h bufsize pos' told' buf' w' with
            | Some (hist, st) => Some (observe rd h bufsize pos w :: hist, st)
            | None => None
            end
        end
      else None
  end.



(** *** Loop invariants *)





Lemma read_loop_after_rounds :
  forall n rd bk h bufsize pos told buf w hist pos' told' buf' w' fuel,
    poll_rounds n rd bk h bufsize pos told buf w
    = Some (hist, (pos', told', buf', w')) ->
    read_loop (n + fuel) rd bk h bufsize pos told buf w
    = read_loop fuel rd bk h bufsize pos' told' buf' w'.
Proof.
  induction n as [|n IH]; intros rd bk h bufsize pos told buf w hist
                                 pos' told' buf' w' fuel H; cbn in H.
  - inversion H; subst. reflexivity.
  - cbn [Nat.add read_loop].
    destruct (pos <? bufsize); [|discriminate].
    destruct (read_round rd bk h bufsize pos told buf w)
      as [r b e|p1 t1 b1 e1] eqn:Hr; [discriminate|].
    destruct (poll_rounds n rd bk h bufsize p1 t1 b1 e1)
      as [[hist1 st1]|] eqn:Hp; [|discriminate].
    inversion H; subst. eapply IH. exact Hp.
Qed.


(** *** Rounds that do not end the call *)







(** *** Timeouts *)


(** *** Buffer bounds *)


Lemma store_bytes_outside :
  forall m off data a,
    a < off \/ off + Z.of_nat (length data) <= a ->
    store_bytes m off data a = m a.
Proof.
  intros m off data a Ha. unfold store_bytes.
  destruct (off <=? a) eqn:H1;
    destruct (a <? off + Z.of_nat (length data)) eqn:H2;
    cbn; try reflexivity.
  apply Z.leb_le in H1. apply Z.ltb_lt in H2. lia.
Qed.



End Reader.

Arguments Build_mb_backend_ops_t {W}.
Arguments Build_mb_backend_t {W}.

(** *** A scripted environment

    The clock only moves when the reader sleeps; the driver hands out the
    chunks of [rx] at successive reads (an empty chunk: nothing arrived), never
    more than the size asked for. *)

Record script := { clock : Z; rx : list (list Z) }.

Definition script_get_ms (w : script) : Z * script := (clock w, w).

Definition script_delay_ms (d : Z) (w : script) : script :=
  {| clock := clock w + d; rx := rx w |}.

Definition script_read (h size : Z) (w : script) : Z * list Z * script :=
  match rx w with
  | [] => (0, [], w)
  | c :: tl =>
      let now := firstn (Z.to_nat size) c in
      let rest := skipn (Z.to_nat size) c in
      (Z.of_nat (length now), now,
       {| clock := clock w;
          rx := match rest with [] => tl | _ :: _ => rest :: tl end |})
  end.

Definition script_ops : mb_backend_ops_t script :=
  {| open := None; close := None; read := Some script_read;
     write := None; flush := None |}.

Definition script_backend (ack byte : Z) : mb_backend_t script :=
  {| ops := Some script_ops; ack_tmo_ms := ack; byte_tmo_ms := byte;
     hinst := Some 1 |}.




End Backend.

(** ** Byte codec

    Modelled from the spec: [modbus_cvt_u8_put], [modbus_cvt_u16_put],
    [modbus_cvt_u16_get], [modbus_cvt_u8_get], [modbus_bitmap_set] and
    [modbus_bitmap_get] (the byte codec is not among the sources).  Values go
    on the wire big-endian; bit [i] of a bitmap lives in byte [i/8] at
    position [i%8] counted from the least significant bit.  A [put] is the
    list of bytes it writes, a [get] reads at an offset of a byte list. *)

Definition byte_at (p : list Z) (off : nat) : Z := u8 (nth off p 0).

Definition modbus_cvt_u8_put (val : Z) : list Z := [u8 val].

Definition modbus_cvt_u16_put (val : Z) : list Z :=
  [u8 (u16 val / 256); u8 (u16 val)].

Definition modbus_cvt_u8_get (p : list Z) (off : nat) : Z := byte_at p off.

Definition modbus_cvt_u16_get (p : list Z) (off : nat) : Z :=
  byte_at p off * 256 + byte_at p (S off).

(** [store l off bytes]: the array [l] after writing [bytes] from index
    [off] on (an array too short for the write is extended). *)
Definition store (l : list Z) (off : nat) (bytes : list Z) : list Z :=
  firstn off (l ++ repeat 0 (off - length l)) ++ bytes
  ++ skipn (off + length bytes) l.

Definition modbus_bitmap_set (pbits : list Z) (idx : Z) (bit : Z) : list Z :=
  let k := Z.to_nat (idx / 8) in
  let old := byte_at pbits k in
  let msk := Z.shiftl 1 (idx mod 8) in
  store pbits k [if bit =? 0 then Z.land old (Z.lxor msk 255)
                 else Z.lor old msk].

Definition modbus_bitmap_get (pbits : list Z) (idx : Z) : Z :=
  if Z.testbit (byte_at pbits (Z.to_nat (idx / 8))) (idx mod 8) then 1 else 0.

(** ** Protocol data units

    Modelled from the spec: the function codes, the exception codes, the
    tagged union [mb_pdu_t] with its members, and the exception macros
    (their header is not among the sources).  Bytes, addresses, quantities and
    values have the widths the data model gives them. *)

Definition MODBUS_FC_READ_COILS : Z := 0x01.
Definition MODBUS_FC_READ_DISCRETE_INPUTS : Z := 0x02.
Definition MODBUS_FC_READ_HOLDING_REGISTERS : Z := 0x03.
Definition MODBUS_FC_READ_INPUT_REGISTERS : Z := 0x04.
Definition MODBUS_FC_WRITE_SINGLE_COIL : Z := 0x05.
Definition MODBUS_FC_WRITE_SINGLE_REGISTER : Z := 0x06.
Definition MODBUS_FC_READ_EXCEPTION_STATUS : Z := 0x07.
Definition MODBUS_FC_WRITE_MULTIPLE_COILS : Z := 0x0F.
Definition MODBUS_FC_WRITE_MULTIPLE_REGISTERS : Z := 0x10.
Definition MODBUS_FC_REPORT_SLAVE_ID : Z := 0x11.
Definition MODBUS_FC_MASK_WRITE_REGISTER : Z := 0x16.
Definition MODBUS_FC_WRITE_AND_READ_REGISTERS : Z := 0x17.

Definition MODBUS_EC_ILLEGAL_FUNCTION : Z := 0x01.
Definition MODBUS_EC_ILLEGAL_DATA_ADDRESS : Z := 0x02.
Definition MODBUS_EC_ILLEGAL_DATA_VALUE : Z := 0x03.
Definition MODBUS_EC_SLAVE_OR_SERVER_FAILURE : Z := 0x04.

Definition MODBUS_FC_EXCEPT_MAKE (fc : Z) : Z := Z.lor fc 0x80.
Definition MODBUS_FC_EXCEPT_CHK (fc : Z) : bool := Z.testbit fc 7.

(** Smallest PDU: a function code and one more byte. *)
Definition MB_PDU_SIZE_MIN : Z := 2.

Inductive mb_pdu_type_t := MB_PDU_TYPE_REQ | MB_PDU_TYPE_RSP.

Inductive mb_pdu_t :=
| pdu_exc (fc ec : Z)
| pdu_rd_req (fc addr nb : Z)
| pdu_rd_rsp (fc dlen : Z) (pdata : list Z)
| pdu_wr_single (fc addr val : Z)
| pdu_wr_req (fc addr nb dlen : Z) (pdata : list Z)
| pdu_wr_rsp (fc addr nb : Z)
| pdu_mask_wr (fc addr val_and val_or : Z)
| pdu_wr_rd_req (fc rd_addr rd_nb wr_addr wr_nb dlen : Z) (pdata : list Z).

(** The function code is the first field of every member. *)
Definition pdu_fc (p : mb_pdu_t) : Z :=
  match p with
  | pdu_exc fc _ | pdu_rd_req fc _ _ | pdu_rd_rsp fc _ _
  | pdu_wr_single fc _ _ | pdu_wr_req fc _ _ _ _ | pdu_wr_rsp fc _ _
  | pdu_mask_wr fc _ _ _ | pdu_wr_rd_req fc _ _ _ _ _ _ => fc
  end.

(** The scalar fields of the members, and the members with a data pointer. *)
Inductive pdu_field :=
| F_exc_ec
| F_rd_req_addr | F_rd_req_nb
| F_rd_rsp_dlen
| F_wr_single_addr | F_wr_single_val
| F_wr_req_addr | F_wr_req_nb
| F_wr_rsp_nb
| F_mask_wr_addr | F_mask_wr_val_and | F_mask_wr_val_or
| F_wr_rd_req_rd_addr | F_wr_rd_req_rd_nb
| F_wr_rd_req_wr_addr | F_wr_rd_req_wr_nb.

Inductive pdu_ptr := P_rd_rsp_pdata | P_wr_req_pdata | P_wr_rd_req_pdata.

Section Union.

(** Reading a field of a member other than the one last written depends on
    the layout of the union, which the sources do not give: such a read goes
    through these two functions. *)
Variable union_overlay : mb_pdu_t -> pdu_field -> Z.
Variable union_overlay_ptr : mb_pdu_t -> pdu_ptr -> list Z.

Definition pdu_get (p : mb_pdu_t) (f : pdu_field) : Z :=
  match f, p with
  | F_exc_ec, pdu_exc _ ec => ec
  | F_rd_req_addr, pdu_rd_req _ addr _ => addr
  | F_rd_req_nb, pdu_rd_req _ _ nb => nb
  | F_rd_rsp_dlen, pdu_rd_rsp _ dlen _ => dlen
  | F_wr_single_addr, pdu_wr_single _ addr _ => addr
  | F_wr_single_val, pdu_wr_single _ _ val => val
  | F_wr_req_addr, pdu_wr_req _ addr _ _ _ => addr
  | F_wr_req_nb, pdu_wr_req _ _ nb _ _ => nb
  | F_wr_rsp_nb, pdu_wr_rsp _ _ nb => nb
  | F_mask_wr_addr, pdu_mask_wr _ addr _ _ => addr
  | F_mask_wr_val_and, pdu_mask_wr _ _ val_and _ => val_and
  | F_mask_wr_val_or, pdu_mask_wr _ _ _ val_or => val_or
  | F_wr_rd_req_rd_addr, pdu_wr_rd_req _ rd_addr _ _ _ _ _ => rd_addr
  | F_wr_rd_req_rd_nb, pdu_wr_rd_req _ _ rd_nb _ _ _ _ => rd_nb
  | F_wr_rd_req_wr_addr, pdu_wr_rd_req _ _ _ wr_addr _ _ _ => wr_addr
  | F_wr_rd_req_wr_nb, pdu_wr_rd_req _ _ _ _ wr_nb _ _ => wr_nb
  | _, _ => union_overlay p f
  end.

Definition pdu_pdata (p : mb_pdu_t) (m : pdu_ptr) : list Z :=
  match m, p with
  | P_rd_rsp_pdata, pdu_rd_rsp _ _ pdata => pdata
  | P_wr_req_pdata, pdu_wr_req _ _ _ _ pdata => pdata
  | P_wr_rd_req_pdata, pdu_wr_rd_req _ _ _ _ _ _ pdata => pdata
  | _, _ => union_overlay_ptr p m
  end.

End Union.

(** [pdu->exc.ec = ec; pdu->exc.fc = MODBUS_FC_EXCEPT_MAKE(pdu->exc.fc);] *)
Definition pdu_set_exc (p : mb_pdu_t) (ec : Z) : mb_pdu_t :=
  pdu_exc (u8 (MODBUS_FC_EXCEPT_MAKE (pdu_fc p))) (u8 ec).

(** [pdu->rd_rsp.dlen = dlen; pdu->rd_rsp.pdata = pdata;] *)
Definition pdu_set_rd_rsp (p : mb_pdu_t) (dlen : Z) (pdata : list Z)
  : mb_pdu_t :=
  pdu_rd_rsp (pdu_fc p) (u8 dlen) pdata.

(** ** Frames and the instance *)

Inductive mb_prot_t := MB_PROT_RTU | MB_PROT_TCP.

(** [mb_rtu_frm_t]: slave address and PDU (fields as the sources use them). *)
Record mb_rtu_frm_t := { frm_saddr : Z; rtu_pdu : mb_pdu_t }.

Definition MB_TCP_MBAP_SIZE : Z := 7.
Definition MB_TCP_FRM_MIN : Z := MB_TCP_MBAP_SIZE + MB_PDU_SIZE_MIN.
Definition MB_TCP_MBAP_PID : Z := 0x0000.

Record mb_tcp_mbap_t := {
  mbap_tid : Z;
  mbap_pid : Z;
  mbap_dlen : Z;
  mbap_did : Z
}.

Record mb_tcp_frm_t := { mbap : mb_tcp_mbap_t; tcp_pdu : mb_pdu_t }.

Section Engine.

Variable W : Type.

(** The user callbacks of a slave: the [int] returned and, for the readers,
    the value stored through the pointer argument. *)
Record mb_cb_table_t := {
  read_disc  : option (Z -> W -> Z * Z * W);
  read_coil  : option (Z -> W -> Z * Z * W);
  write_coil : option (Z -> Z -> W -> Z * W);
  read_input : option (Z -> W -> Z * Z * W);
  read_hold  : option (Z -> W -> Z * Z * W);
  write_hold : option (Z -> Z -> W -> Z * W)
}.

(** Modelled from the spec: [mb_inst_t] (its declaration is not among the
    sources).  [tsid] is the transaction counter the TCP requests carry;
    [tid] is the field the MBAP check of the master reads. *)
Record mb_inst_t := {
  saddr : Z;
  prototype : mb_prot_t;
  tsid : Z;
  tid : Z;
  buf : list Z;
  datas : list Z;
  cb : option mb_cb_table_t
}.

Definition set_tsid (hinst : mb_inst_t) (v : Z) : mb_inst_t :=
  {| saddr := saddr hinst; prototype := prototype hinst; tsid := v;
     tid := tid hinst; buf := buf hinst; datas := datas hinst;
     cb := cb hinst |}.

Definition set_buf (hinst : mb_inst_t) (b : list Z) : mb_inst_t :=
  {| saddr := saddr hinst; prototype := prototype hinst; tsid := tsid hinst;
     tid := tid hinst; buf := b; datas := datas hinst; cb := cb hinst |}.

Definition set_datas (hinst : mb_inst_t) (d : list Z) : mb_inst_t :=
  {| saddr := saddr hinst; prototype := prototype hinst; tsid := tsid hinst;
     tid := tid hinst; buf := buf hinst; datas := d; cb := cb hinst |}.

(** [sizeof(hinst->buf)] *)
Definition sizeof_buf (hinst : mb_inst_t) : Z := Z.of_nat (length (buf hinst)).

(** Compile-time options. *)
Variable MB_USING_RTU_PROTOCOL : bool.
Variable MB_USING_TCP_PROTOCOL : bool.
Variable MB_USING_ADDR_CHK : bool.
Variable MB_USING_MBAP_CHK : bool.

Variable union_overlay : mb_pdu_t -> pdu_field -> Z.
Variable union_overlay_ptr : mb_pdu_t -> pdu_ptr -> list Z.

Definition field : mb_pdu_t -> pdu_field -> Z := pdu_get union_overlay.
Definition pointer : mb_pdu_t -> pdu_ptr -> list Z :=
  pdu_pdata union_overlay_ptr.

(** Functions of the repository that are not among the sources, taken as
    they are called.  [modbus_pdu_make] gives the length it returns and the
    bytes it writes; the parsers take the frame variable they are handed and
    give it back filled in; [modbus_send] is given the bytes of the buffer
    and the length to send; [modbus_recv] gives the length received and the
    new contents of [hinst->buf]. *)
Variable modbus_pdu_make : mb_pdu_t -> mb_pdu_type_t -> Z * list Z.
Variable modbus_pdu_parse :
  list Z -> Z -> mb_pdu_t -> mb_pdu_type_t -> Z * mb_pdu_t.
Variable modbus_rtu_frame_make :
  list Z -> mb_rtu_frm_t -> mb_pdu_type_t -> Z * list Z.
Variable modbus_rtu_frame_parse :
  list Z -> Z -> mb_rtu_frm_t -> mb_pdu_type_t -> Z * mb_rtu_frm_t.
Variable modbus_send : mb_inst_t -> list Z -> Z -> W -> Z * W.
Variable modbus_recv : mb_inst_t -> Z -> W -> Z * list Z * W.

(** Value of a [uint16_t] automatic variable read before it is written. *)
Variable indeterminate : Z.

(** *** TCP frame codec ([modbus_tcp.c]) *)

Definition modbus_tcp_frm_make (b : list Z) (frm : mb_tcp_frm_t)
           (type : mb_pdu_type_t) : Z * list Z :=
  let '(pdu_len, bytes) := modbus_pdu_make (tcp_pdu frm) type in
  let b1 := store b (Z.to_nat MB_TCP_MBAP_SIZE) bytes in
  let hdr := modbus_cvt_u16_put (mbap_tid (mbap frm))
             ++ modbus_cvt_u16_put (mbap_pid (mbap frm))
             ++ modbus_cvt_u16_put (pdu_len + 1)
             ++ modbus_cvt_u8_put (mbap_did (mbap frm)) in
  (2 + 2 + 2 + 1 + pdu_len, store b1 0 hdr).

Definition modbus_tcp_frm_parse (b : list Z) (len : Z) (frm : mb_tcp_frm_t)
           (type : mb_pdu_type_t) : Z * mb_tcp_frm_t :=
  if len <? MB_TCP_FRM_MIN then (0, frm)
  else
    let hdr := {| mbap_tid := modbus_cvt_u16_get b 0;
                  mbap_pid := modbus_cvt_u16_get b 2;
                  mbap_dlen := modbus_cvt_u16_get b 4;
                  mbap_did := modbus_cvt_u8_get b 6 |} in
    let remain := len - (2 + 2 + 2 + 1) in
    let '(pdu_len, p) :=
      modbus_pdu_parse (skipn 7 b) remain (tcp_pdu frm) type in
    let frm' := {| mbap := hdr; tcp_pdu := p |} in
    if pdu_len <=? 0 then (pdu_len, frm')
    else if remain <? pdu_len then (0, frm')
    else (pdu_len, frm').

(** *** Master transactions ([modbus_master.c]) *)

Definition modbus_read_req_rtu (hinst : mb_inst_t) (func addr nb : Z)
           (pdata : list Z) (w : W) : Z * list Z * mb_inst_t * W :=
  let frm := {| frm_saddr := saddr hinst;
                rtu_pdu := pdu_rd_req func addr (u16 nb) |} in
  let '(flen, b1) := modbus_rtu_frame_make (buf hinst) frm MB_PDU_TYPE_REQ in
  let hinst := set_buf hinst b1 in
  let '(slen, w) := modbus_send hinst (buf hinst) flen w in
  if negb (slen =? flen) then (0, pdata, hinst, w)
  else
    let '(rlen, b2, w) := modbus_recv hinst (sizeof_buf hinst) w in
    let hinst := set_buf hinst b2 in
    if rlen <=? 0 then (0, pdata, hinst, w)
    else
      let '(pdu_len, frm) :=
        modbus_rtu_frame_parse (buf hinst) rlen frm MB_PDU_TYPE_RSP in
      if pdu_len <=? 0 then (0, pdata, hinst, w)
      else if MB_USING_ADDR_CHK && negb (frm_saddr frm =? saddr hinst)
      then (0, pdata, hinst, w)
      else if MODBUS_FC_EXCEPT_CHK (pdu_fc (rtu_pdu frm))
      then (- field (rtu_pdu frm) F_exc_ec, pdata, hinst, w)
      else
        let dlen := field (rtu_pdu frm) F_rd_rsp_dlen in
        (dlen,
         store pdata 0
               (firstn (Z.to_nat dlen) (pointer (rtu_pdu frm) P_rd_rsp_pdata)),
         hinst, w).

Definition modbus_read_req_tcp (hinst : mb_inst_t) (func addr nb : Z)
           (pdata : list Z) (w : W) : Z * list Z * mb_inst_t * W :=
  let hinst := set_tsid hinst (u16 (tsid hinst + 1)) in
  let frm := {| mbap := {| mbap_tid := tsid hinst; mbap_pid := MB_TCP_MBAP_PID;
                           mbap_dlen := indeterminate;
                           mbap_did := saddr hinst |};
                tcp_pdu := pdu_rd_req func addr (u16 nb) |} in
  let '(flen, b1) := modbus_tcp_frm_make (buf hinst) frm MB_PDU_TYPE_REQ in
  let hinst := set_buf hinst b1 in
  let '(slen, w) := modbus_send hinst (buf hinst) flen w in
  if negb (slen =? flen) then (0, pdata, hinst, w)
  else
    let '(rlen, b2, w) := modbus_recv hinst (sizeof_buf hinst) w in
    let hinst := set_buf hinst b2 in
    if rlen <=? 0 then (0, pdata, hinst, w)
    else
      let '(pdu_len, frm) :=
        modbus_tcp_frm_parse (buf hinst) rlen frm MB_PDU_TYPE_RSP in
      if pdu_len <? 0 then (0, pdata, hinst, w)
      else if MB_USING_ADDR_CHK && negb (mbap_did (mbap frm) =? saddr hinst)
      then (0, pdata, hinst, w)
      else if MB_USING_MBAP_CHK
              && (negb (mbap_tid (mbap frm) =? tid hinst)
                  || negb (mbap_pid (mbap frm) =? MB_TCP_MBAP_PID)
                  || negb (mbap_dlen (mbap frm) =? pdu_len + 1))
      then (0, pdata, hinst, w)
      else if MODBUS_FC_EXCEPT_CHK (pdu_fc (tcp_pdu frm))
      then (- field (tcp_pdu frm) F_exc_ec, pdata, hinst, w)
      else
        let dlen := field (tcp_pdu frm) F_rd_rsp_dlen in
        (dlen,
         store pdata 0
               (firstn (Z.to_nat dlen) (pointer (tcp_pdu frm) P_rd_rsp_pdata)),
         hinst, w).

Definition modbus_read_req (hinst : mb_inst_t) (func addr nb : Z)
           (pdata : list Z) (w : W) : Z * list Z * mb_inst_t * W :=
  match prototype hinst with
  | MB_PROT_RTU =>
      if MB_USING_RTU_PROTOCOL
      then modbus_read_req_rtu hinst func addr nb pdata w
      else (0, pdata, hinst, w)
  | MB_PROT_TCP =>
      if MB_USING_TCP_PROTOCOL
      then modbus_read_req_tcp hinst func addr nb pdata w
      else (0, pdata, hinst, w)
  end.

Definition modbus_write_req_rtu (hinst : mb_inst_t) (func addr nb : Z)
           (pdata : list Z) (dlen : Z) (w : W) : Z * mb_inst_t * W :=
  let frm := {| frm_saddr := saddr hinst;
                rtu_pdu := pdu_wr_req func addr (u16 nb) (u8 dlen) pdata |} in
  let '(flen, b1) := modbus_rtu_frame_make (buf hinst) frm MB_PDU_TYPE_REQ in
  let hinst := set_buf hinst b1 in
  let '(slen, w) := modbus_send hinst (buf hinst) flen w in
  if negb (slen =? flen) then (0, hinst, w)
  else
    let '(rlen, b2, w) := modbus_recv hinst (sizeof_buf hinst) w in
    let hinst := set_buf hinst b2 in
    if rlen <=? 0 then (0, hinst, w)
    else
      let '(pdu_len, frm) :=
        modbus_rtu_frame_parse (buf hinst) rlen frm MB_PDU_TYPE_RSP in
      if pdu_len <=? 0 then (0, hinst, w)
      else if MB_USING_ADDR_CHK && negb (frm_saddr frm =? saddr hinst)
      then (0, hinst, w)
      else if MODBUS_FC_EXCEPT_CHK (pdu_fc (rtu_pdu frm))
      then (- field (rtu_pdu frm) F_exc_ec, hinst, w)
      else (field (rtu_pdu frm) F_wr_rsp_nb, hinst, w).

Definition modbus_write_req_tcp (hinst : mb_inst_t) (func addr nb : Z)
           (pdata : list Z) (dlen : Z) (w : W) : Z * mb_inst_t * W :=
  let hinst := set_tsid hinst (u16 (tsid hinst + 1)) in
  let frm := {| mbap := {| mbap_tid := tsid hinst; mbap_pid := MB_TCP_MBAP_PID;
                           mbap_dlen := indeterminate;
                           mbap_did := saddr hinst |};
                tcp_pdu := pdu_wr_req func addr (u16 nb) (u8 dlen) pdata |} in
  let '(flen, b1) := modbus_tcp_frm_make (buf hinst) frm MB_PDU_TYPE_REQ in
  let hinst := set_buf hinst b1 in
  let '(slen, w) := modbus_send hinst (buf hinst) flen w in
  if negb (slen =? flen) then (0, hinst, w)
  else
    let '(rlen, b2, w) := modbus_recv hinst (sizeof_buf hinst) w in
    let hinst := set_buf hinst b2 in
    if rlen <=? 0 then (0, hinst, w)
    else
      let '(pdu_len, frm) :=
        modbus_tcp_frm_parse (buf hinst) rlen frm MB_PDU_TYPE_RSP in
      if pdu_len <? 0 then (0, hinst, w)
      else if MB_USING_ADDR_CHK && negb (mbap_did (mbap frm) =? saddr hinst)
      then (0, hinst, w)
      else if MB_USING_MBAP_CHK
              && (negb (mbap_tid (mbap frm) =? tid hinst)
                  || negb (mbap_pid (mbap frm) =? MB_TCP_MBAP_PID)
                  || negb (mbap_dlen (mbap frm) =? pdu_len + 1))
      then (0, hinst, w)
      else if MODBUS_FC_EXCEPT_CHK (pdu_fc (tcp_pdu frm))
      then (- field (tcp_pdu frm) F_exc_ec, hinst, w)
      else (field (tcp_pdu frm) F_wr_rsp_nb, hinst, w).

Definition modbus_write_req (hinst : mb_inst_t) (func addr nb : Z)
           (pdata : list Z) (dlen : Z) (w : W) : Z * mb_inst_t * W :=
  match prototype hinst with
  | MB_PROT_RTU =>
      if MB_USING_RTU_PROTOCOL
      then modbus_write_req_rtu hinst func addr nb pdata dlen w
      else (0, hinst, w)
  | MB_PROT_TCP =>
      if MB_USING_TCP_PROTOCOL
      then modbus_write_req_tcp hinst func addr nb pdata dlen w
      else (0, hinst, w)
  end.

Definition modbus_read_bits (hinst : mb_inst_t) (addr nb : Z)
           (pbits : list Z) (w : W) : Z * list Z * mb_inst_t * W :=
  let '(dlen, pbits, hinst, w) :=
    modbus_read_req hinst MODBUS_FC_READ_COILS addr nb pbits w in
  ((if negb (dlen =? Z.quot (nb + 7) 8) then dlen else nb), pbits, hinst, w).

Definition modbus_read_input_bits (hinst : mb_inst_t) (addr nb : Z)
           (pbits : list Z) (w : W) : Z * list Z * mb_inst_t * W :=
  let '(dlen, pbits, hinst, w) :=
    modbus_read_req hinst MODBUS_FC_READ_DISCRETE_INPUTS addr nb pbits w in
  ((if negb (dlen =? Z.quot (nb + 7) 8) then dlen else nb), pbits, hinst, w).

(** [for (i = 0; i < nb; i++) p += modbus_cvt_u16_get(p, pregs + i);] *)
Definition regs_get (p : list Z) (nb : Z) (pregs : list Z) : list Z :=
  store pregs 0
        (map (fun i => modbus_cvt_u16_get p (2 * i)) (seq 0 (Z.to_nat nb))).

(** [for (i = 0; i < nb; i++) p += modbus_cvt_u16_put(p, pregs[i]);] *)
Definition regs_put (p : list Z) (nb : Z) (pregs : list Z) : list Z :=
  store p 0
        (flat_map (fun i => modbus_cvt_u16_put (nth i pregs 0))
                  (seq 0 (Z.to_nat nb))).

Definition modbus_read_regs (hinst : mb_inst_t) (addr nb : Z)
           (pregs : list Z) (w : W) : Z * list Z * mb_inst_t * W :=
  let '(dlen, d, hinst, w) :=
    modbus_read_req hinst MODBUS_FC_READ_HOLDING_REGISTERS addr nb
                    (datas hinst) w in
  let hinst := set_datas hinst d in
  if dlen <=? 0 then (dlen, pregs, hinst, w)
  else if negb (dlen =? nb * 2) then (0, pregs, hinst, w)
  else (nb, regs_get (datas hinst) nb pregs, hinst, w).

Definition modbus_read_input_regs (hinst : mb_inst_t) (addr nb : Z)
           (pregs : list Z) (w : W) : Z * list Z * mb_inst_t * W :=
  let '(dlen, d, hinst, w) :=
    modbus_read_req hinst MODBUS_FC_READ_INPUT_REGISTERS addr nb
                    (datas hinst) w in
  let hinst := set_datas hinst d in
  if dlen <=? 0 then (dlen, pregs, hinst, w)
  else if negb (dlen =? nb * 2) then (0, pregs, hinst, w)
  else (nb, regs_get (datas hinst) nb pregs, hinst, w).

Definition modbus_write_single_rtu (hinst : mb_inst_t) (func addr val : Z)
           (w : W) : Z * mb_inst_t * W :=
  let frm := {| frm_saddr := saddr hinst;
                rtu_pdu := pdu_wr_single func addr val |} in
  let '(flen, b1) := modbus_rtu_frame_make (buf hinst) frm MB_PDU_TYPE_REQ in
  let hinst := set_buf hinst b1 in
  let '(slen, w) := modbus_send hinst (buf hinst) flen w in
  if negb (slen =? flen) then (0, hinst, w)
  else
    let '(rlen, b2, w) := modbus_recv hinst (sizeof_buf hinst) w in
    let hinst := set_buf hinst b2 in
    if rlen <=? 0 then (0, hinst, w)
    else
      let '(pdu_len, frm) :=
        modbus_rtu_frame_parse (buf hinst) rlen frm MB_PDU_TYPE_RSP in
      if pdu_len <=? 0 then (0, hinst, w)
      else if MB_USING_ADDR_CHK && negb (frm_saddr frm =? saddr hinst)
      then (0, hinst, w)
      else if MODBUS_FC_EXCEPT_CHK (pdu_fc (rtu_pdu frm))
      then (- field (rtu_pdu frm) F_exc_ec, hinst, w)
      else (1, hinst, w).

Definition modbus_write_single_tcp (hinst : mb_inst_t) (func addr val : Z)
           (w : W) : Z * mb_inst_t * W :=
  let hinst := set_tsid hinst (u16 (tsid hinst + 1)) in
  let frm := {| mbap := {| mbap_tid := tsid hinst; mbap_pid := MB_TCP_MBAP_PID;
                           mbap_dlen := indeterminate;
                           mbap_did := saddr hinst |};
                tcp_pdu := pdu_wr_single func addr val |} in
  let '(flen, b1) := modbus_tcp_frm_make (buf hinst) frm MB_PDU_TYPE_REQ in
  let hinst := set_buf hinst b1 in
  let '(slen, w) := modbus_send hinst (buf hinst) flen w in
  if negb (slen =? flen) then (0, hinst, w)
  else
    let '(rlen, b2, w) := modbus_recv hinst (sizeof_buf hinst) w in
    let hinst := set_buf hinst b2 in
    if rlen <=? 0 then (0, hinst, w)
    else
      let '(pdu_len, frm) :=
        modbus_tcp_frm_parse (buf hinst) rlen frm MB_PDU_TYPE_RSP in
      if pdu_len <? 0 then (0, hinst, w)
      else if MB_USING_ADDR_CHK && negb (mbap_did (mbap frm) =? saddr hinst)
      then (0, hinst, w)
      else if MB_USING_MBAP_CHK
              && (negb (mbap_tid (mbap frm) =? tid hinst)
                  || negb (mbap_pid (mbap frm) =? MB_TCP_MBAP_PID)
                  || negb (mbap_dlen (mbap frm) =? pdu_len + 1))
      then (0, hinst, w)
      else if MODBUS_FC_EXCEPT_CHK (pdu_fc (tcp_pdu frm))
      then (- field (tcp_pdu frm) F_exc_ec, hinst, w)
      else (1, hinst, w).

Definition modbus_write_single (hinst : mb_inst_t) (func addr val : Z)
           (w : W) : Z * mb_inst_t * W :=
  match prototype hinst with
  | MB_PROT_RTU =>
      if MB_USING_RTU_PROTOCOL
      then modbus_write_single_rtu hinst func addr val w
      else (0, hinst, w)
  | MB_PROT_TCP =>
      if MB_USING_TCP_PROTOCOL
      then modbus_write_single_tcp hinst func addr val w
      else (0, hinst, w)
  end.

Definition modbus_write_bit (hinst : mb_inst_t) (addr bit : Z) (w : W)
  : Z * mb_inst_t * W :=
  let val := if negb (bit =? 0) then 0xFF00 else 0x0000 in
  modbus_write_single hinst MODBUS_FC_WRITE_SINGLE_COIL addr val w.

Definition modbus_write_reg (hinst : mb_inst_t) (addr val : Z) (w : W)
  : Z * mb_inst_t * W :=
  modbus_write_single hinst MODBUS_FC_WRITE_SINGLE_REGISTER addr val w.

Definition modbus_write_bits (hinst : mb_inst_t) (addr nb : Z)
           (pbits : list Z) (w : W) : Z * mb_inst_t * W :=
  let dlen := Z.quot (nb + 7) 8 in
  modbus_write_req hinst MODBUS_FC_WRITE_MULTIPLE_COILS addr nb pbits dlen w.

Definition modbus_write_regs (hinst : mb_inst_t) (addr nb : Z)
           (pregs : list Z) (w : W) : Z * mb_inst_t * W :=
  let hinst := set_datas hinst (regs_put (datas hinst) nb pregs) in
  let dlen := nb * 2 in
  modbus_write_req hinst MODBUS_FC_WRITE_MULTIPLE_REGISTERS addr nb
                   (datas hinst) dlen w.

Definition modbus_mask_write_rtu (hinst : mb_inst_t)
           (addr val_and val_or : Z) (w : W) : Z * mb_inst_t * W :=
  let frm := {| frm_saddr := saddr hinst;
                rtu_pdu := pdu_mask_wr MODBUS_FC_MASK_WRITE_REGISTER addr
                                       val_and val_or |} in
  let '(flen, b1) := modbus_rtu_frame_make (buf hinst) frm MB_PDU_TYPE_REQ in
  let hinst := set_buf hinst b1 in
  let '(slen, w) := modbus_send hinst (buf hinst) flen w in
  if negb (slen =? flen) then (0, hinst, w)
  else
    let '(rlen, b2, w) := modbus_recv hinst (sizeof_buf hinst) w in
    let hinst := set_buf hinst b2 in
    if rlen <=? 0 then (0, hinst, w)
    else
      let '(pdu_len, frm) :=
        modbus_rtu_frame_parse (buf hinst) rlen frm MB_PDU_TYPE_RSP in
      if pdu_len <=? 0 then (0, hinst, w)
      else if MB_USING_ADDR_CHK && negb (frm_saddr frm =? saddr hinst)
      then (0, hinst, w)
      else if MODBUS_FC_EXCEPT_CHK (pdu_fc (rtu_pdu frm))
      then (- field (rtu_pdu frm) F_exc_ec, hinst, w)
      else (1, hinst, w).

Definition modbus_mask_write_tcp (hinst : mb_inst_t)
           (addr val_and val_or : Z) (w : W) : Z * mb_inst_t * W :=
  let hinst := set_tsid hinst (u16 (tsid hinst + 1)) in
  let frm := {| mbap := {| mbap_tid := tsid hinst; mbap_pid := MB_TCP_MBAP_PID;
                           mbap_dlen := indeterminate;
                           mbap_did := saddr hinst |};
                tcp_pdu := pdu_mask_wr MODBUS_FC_MASK_WRITE_REGISTER addr
                                       val_and val_or |} in
  let '(flen, b1) := modbus_tcp_frm_make (buf hinst) frm MB_PDU_TYPE_REQ in
  let hinst := set_buf hinst b1 in
  let '(slen, w) := modbus_send hinst (buf hinst) flen w in
  if negb (slen =? flen) then (0, hinst, w)
  else
    let '(rlen, b2, w) := modbus_recv hinst (sizeof_buf hinst) w in
    let hinst := set_buf hinst b2 in
    if rlen <=? 0 then (0, hinst, w)
    else
      let '(pdu_len, frm) :=
        modbus_tcp_frm_parse (buf hinst) rlen frm MB_PDU_TYPE_RSP in
      if pdu_len <? 0 then (0, hinst, w)
      else if MB_USING_ADDR_CHK && negb (mbap_did (mbap frm) =? saddr hinst)
      then (0, hinst, w)
      else if MB_USING_MBAP_CHK
              && (negb (mbap_tid (mbap frm) =? tid hinst)
                  || negb (mbap_pid (mbap frm) =? MB_TCP_MBAP_PID)
                  || negb (mbap_dlen (mbap frm) =? pdu_len + 1))
      then (0, hinst, w)
      else if MODBUS_FC_EXCEPT_CHK (pdu_fc (tcp_pdu frm))
      then (- field (tcp_pdu frm) F_exc_ec, hinst, w)
      else (1, hinst, w).

Definition modbus_mask_write_reg (hinst : mb_inst_t)
           (addr mask_and mask_or : Z) (w : W) : Z * mb_inst_t * W :=
  match prototype hinst with
  | MB_PROT_RTU =>
      if MB_USING_RTU_PROTOCOL
      then modbus_mask_write_rtu hinst addr mask_and mask_or w
      else (0, hinst, w)
  | MB_PROT_TCP =>
      if MB_USING_TCP_PROTOCOL
      then modbus_mask_write_tcp hinst addr mask_and mask_or w
      else (0, hinst, w)
  end.

Definition modbus_write_and_read_regs_rtu (hinst : mb_inst_t)
           (wr_addr wr_nb : Z) (p_wr_regs : list Z) (rd_addr rd_nb : Z)
           (p_rd_regs : list Z) (w : W) : Z * list Z * mb_inst_t * W :=
  let hinst := set_datas hinst (regs_put (datas hinst) wr_nb p_wr_regs) in
  let frm := {| frm_saddr := saddr hinst;
                rtu_pdu := pdu_wr_rd_req MODBUS_FC_WRITE_AND_READ_REGISTERS
                                         rd_addr
                                         (u16 rd_nb) wr_addr (u16 wr_nb)
                                         (u8 (wr_nb * 2)) (datas hinst) |} in
  let '(flen, b1) := modbus_rtu_frame_make (buf hinst) frm MB_PDU_TYPE_REQ in
  let hinst := set_buf hinst b1 in
  let '(slen, w) := modbus_send hinst (buf hinst) flen w in
  if negb (slen =? flen) then (0, p_rd_regs, hinst, w)
  else
    let '(rlen, b2, w) := modbus_recv hinst (sizeof_buf hinst) w in
    let hinst := set_buf hinst b2 in
    if rlen <=? 0 then (0, p_rd_regs, hinst, w)
    else
      let '(pdu_len, frm) :=
        modbus_rtu_frame_parse (buf hinst) rlen frm MB_PDU_TYPE_RSP in
      if pdu_len <=? 0 then (0, p_rd_regs, hinst, w)
      else if MB_USING_ADDR_CHK && negb (frm_saddr frm =? saddr hinst)
      then (0, p_rd_regs, hinst, w)
      else if MODBUS_FC_EXCEPT_CHK (pdu_fc (rtu_pdu frm))
      then (- field (rtu_pdu frm) F_exc_ec, p_rd_regs, hinst, w)
      else
        let dlen := field (rtu_pdu frm) F_rd_rsp_dlen in
        if negb (dlen =? rd_nb * 2) then (0, p_rd_regs, hinst, w)
        else (rd_nb,
              regs_get (pointer (rtu_pdu frm) P_rd_rsp_pdata) rd_nb p_rd_regs,
              hinst, w).

Definition modbus_write_and_read_regs_tcp (hinst : mb_inst_t)
           (wr_addr wr_nb : Z) (p_wr_regs : list Z) (rd_addr rd_nb : Z)
           (p_rd_regs : list Z) (w : W) : Z * list Z * mb_inst_t * W :=
  let hinst := set_datas hinst (regs_put (datas hinst) wr_nb p_wr_regs) in
  let hinst := set_tsid hinst (u16 (tsid hinst + 1)) in
  let frm := {| mbap := {| mbap_tid := tsid hinst; mbap_pid := MB_TCP_MBAP_PID;
                           mbap_dlen := indeterminate;
                           mbap_did := saddr hinst |};
                tcp_pdu := pdu_wr_rd_req MODBUS_FC_WRITE_AND_READ_REGISTERS
                                         rd_addr
                                         (u16 rd_nb) wr_addr (u16 wr_nb)
                                         (u8 (wr_nb * 2)) (datas hinst) |} in
  let '(flen, b1) := modbus_tcp_frm_make (buf hinst) frm MB_PDU_TYPE_REQ in
  let hinst := set_buf hinst b1 in
  let '(slen, w) := modbus_send hinst (buf hinst) flen w in
  if negb (slen =? flen) then (0, p_rd_regs, hinst, w)
  else
    let '(rlen, b2, w) := modbus_recv hinst (sizeof_buf hinst) w in
    let hinst := set_buf hinst b2 in
    if rlen <=? 0 then (0, p_rd_regs, hinst, w)
    else
      let '(pdu_len, frm) :=
        modbus_tcp_frm_parse (buf hinst) rlen frm MB_PDU_TYPE_RSP in
      if pdu_len <? 0 then (0, p_rd_regs, hinst, w)
      else if MB_USING_ADDR_CHK && negb (mbap_did (mbap frm) =? saddr hinst)
      then (0, p_rd_regs, hinst, w)
      else if MB_USING_MBAP_CHK
              && (negb (mbap_tid (mbap frm) =? tid hinst)
                  || negb (mbap_pid (mbap frm) =? MB_TCP_MBAP_PID)
                  || negb (mbap_dlen (mbap frm) =? pdu_len + 1))
      then (0, p_rd_regs, hinst, w)
      else if MODBUS_FC_EXCEPT_CHK (pdu_fc (tcp_pdu frm))
      then (- field (tcp_pdu frm) F_exc_ec, p_rd_regs, hinst, w)
      else
        let dlen := field (tcp_pdu frm) F_rd_rsp_dlen in
        if negb (dlen =? rd_nb * 2) then (0, p_rd_regs, hinst, w)
        else (rd_nb,
              regs_get (pointer (tcp_pdu frm) P_rd_rsp_pdata) rd_nb p_rd_regs,
              hinst, w).

Definition mb_write_and_read_regs (hinst : mb_inst_t)
           (wr_addr wr_nb : Z) (p_wr_regs : list Z) (rd_addr rd_nb : Z)
           (p_rd_regs : list Z) (w : W) : Z * list Z * mb_inst_t * W :=
  match prototype hinst with
  | MB_PROT_RTU =>
      if MB_USING_RTU_PROTOCOL
      then modbus_write_and_read_regs_rtu hinst wr_addr wr_nb p_wr_regs
                                          rd_addr rd_nb p_rd_regs w
      else (0, p_rd_regs, hinst, w)
  | MB_PROT_TCP =>
      if MB_USING_TCP_PROTOCOL
      then modbus_write_and_read_regs_tcp hinst wr_addr wr_nb p_wr_regs
                                          rd_addr rd_nb p_rd_regs w
      else (0, p_rd_regs, hinst, w)
  end.

(** *** Slave dispatch ([modbus_slave.c])

    The [for] loops of the handlers: [n] iterations left, [i] the loop
    counter.  A loop gives [Some rst] when a callback returned [rst < 0] and
    the handler left through its exception branch, [None] when it ran to its
    end.  An address reaches a callback as [uint16_t]. *)

Fixpoint read_bits_loop (rd : Z -> W -> Z * Z * W) (addr : Z) (n : nat)
         (i : Z) (d : list Z) (w : W) : option Z * list Z * W :=
  match n with
  | O => (None, d, w)
  | S n' =>
      let '(rst, bit, w) := rd (u16 (addr + i)) w in
      if rst <? 0 then (Some rst, d, w)
      else read_bits_loop rd addr n' (i + 1)
                          (modbus_bitmap_set d i (u8 bit)) w
  end.

Fixpoint read_regs_loop (rd : Z -> W -> Z * Z * W) (addr : Z) (n : nat)
         (i : Z) (d : list Z) (w : W) : option Z * list Z * W :=
  match n with
  | O => (None, d, w)
  | S n' =>
      let '(rst, val, w) := rd (u16 (addr + i)) w in
      if rst <? 0 then (Some rst, d, w)
      else read_regs_loop rd addr n' (i + 1)
                          (store d (Z.to_nat (2 * i))
                                 (modbus_cvt_u16_put (u16 val))) w
  end.

Fixpoint write_bits_loop (wr : Z -> Z -> W -> Z * W) (addr : Z)
         (pbits : list Z) (n : nat) (i : Z) (w : W) : option Z * W :=
  match n with
  | O => (None, w)
  | S n' =>
      let bit := modbus_bitmap_get pbits i in
      let '(rst, w) := wr (u16 (addr + i)) bit w in
      if rst <? 0 then (Some rst, w)
      else write_bits_loop wr addr pbits n' (i + 1) w
  end.

Fixpoint write_regs_loop (wr : Z -> Z -> W -> Z * W) (addr : Z)
         (p : list Z) (n : nat) (i : Z) (w : W) : option Z * W :=
  match n with
  | O => (None, w)
  | S n' =>
      let val := modbus_cvt_u16_get p (Z.to_nat (2 * i)) in
      let '(rst, w) := wr (u16 (addr + i)) val w in
      if rst <? 0 then (Some rst, w)
      else write_regs_loop wr addr p n' (i + 1) w
  end.

Definition modbus_slave_pdu_deal_read_coils (hinst : mb_inst_t)
           (pdu : mb_pdu_t) (w : W) : mb_pdu_t * mb_inst_t * W :=
  match cb hinst with
  | None => (pdu_set_exc pdu MODBUS_EC_SLAVE_OR_SERVER_FAILURE, hinst, w)
  | Some t =>
      match read_coil t with
      | None => (pdu_set_exc pdu MODBUS_EC_SLAVE_OR_SERVER_FAILURE, hinst, w)
      | Some rd =>
          let addr := field pdu F_rd_req_addr in
          let nb := field pdu F_rd_req_nb in
          let d := repeat 0 (length (datas hinst)) in
          match read_bits_loop rd addr (Z.to_nat nb) 0 d w with
          | (Some rst, d, w) => (pdu_set_exc pdu (- rst), set_datas hinst d, w)
          | (None, d, w) =>
              (pdu_set_rd_rsp pdu (Z.quot (nb + 7) 8) d, set_datas hinst d, w)
          end
      end
  end.

Definition modbus_slave_pdu_deal_read_discs (hinst : mb_inst_t)
           (pdu : mb_pdu_t) (w : W) : mb_pdu_t * mb_inst_t * W :=
  match cb hinst with
  | None => (pdu_set_exc pdu MODBUS_EC_SLAVE_OR_SERVER_FAILURE, hinst, w)
  | Some t =>
      match read_disc t with
      | None => (pdu_set_exc pdu MODBUS_EC_SLAVE_OR_SERVER_FAILURE, hinst, w)
      | Some rd =>
          let addr := field pdu F_rd_req_addr in
          let nb := field pdu F_rd_req_nb in
          let d := repeat 0 (length (datas hinst)) in
          match read_bits_loop rd addr (Z.to_nat nb) 0 d w with
          | (Some rst, d, w) => (pdu_set_exc pdu (- rst), set_datas hinst d, w)
          | (None, d, w) =>
              (pdu_set_rd_rsp pdu (Z.quot (nb + 7) 8) d, set_datas hinst d, w)
          end
      end
  end.

Definition modbus_slave_pdu_deal_read_holds (hinst : mb_inst_t)
           (pdu : mb_pdu_t) (w : W) : mb_pdu_t * mb_inst_t * W :=
  match cb hinst with
  | None => (pdu_set_exc pdu MODBUS_EC_SLAVE_OR_SERVER_FAILURE, hinst, w)
  | Some t =>
      match read_hold t with
      | None => (pdu_set_exc pdu MODBUS_EC_SLAVE_OR_SERVER_FAILURE, hinst, w)
      | Some rd =>
          let addr := field pdu F_rd_req_addr in
          let nb := field pdu F_rd_req_nb in
          match read_regs_loop rd addr (Z.to_nat nb) 0 (datas hinst) w with
          | (Some rst, d, w) => (pdu_set_exc pdu (- rst), set_datas hinst d, w)
          | (None, d, w) =>
              (pdu_set_rd_rsp pdu (2 * nb) d, set_datas hinst d, w)
          end
      end
  end.

Definition modbus_slave_pdu_deal_read_inputs (hinst : mb_inst_t)
           (pdu : mb_pdu_t) (w : W) : mb_pdu_t * mb_inst_t * W :=
  match cb hinst with
  | None => (pdu_set_exc pdu MODBUS_EC_SLAVE_OR_SERVER_FAILURE, hinst, w)
  | Some t =>
      match read_input t with
      | None => (pdu_set_exc pdu MODBUS_EC_SLAVE_OR_SERVER_FAILURE, hinst, w)
      | Some rd =>
          let addr := field pdu F_rd_req_addr in
          let nb := field pdu F_rd_req_nb in
          match read_regs_loop rd addr (Z.to_nat nb) 0 (datas hinst) w with
          | (Some rst, d, w) => (pdu_set_exc pdu (- rst), set_datas hinst d, w)
          | (None, d, w) =>
              (pdu_set_rd_rsp pdu (2 * nb) d, set_datas hinst d, w)
          end
      end
  end.

Definition modbus_slave_pdu_deal_write_coil (hinst : mb_inst_t)
           (pdu : mb_pdu_t) (w : W) : mb_pdu_t * mb_inst_t * W :=
  match cb hinst with
  | None => (pdu_set_exc pdu MODBUS_EC_SLAVE_OR_SERVER_FAILURE, hinst, w)
  | Some t =>
      match write_coil t with
      | None => (pdu_set_exc pdu MODBUS_EC_SLAVE_OR_SERVER_FAILURE, hinst, w)
      | Some wr =>
          let addr := field pdu F_wr_single_addr in
          let val := field pdu F_wr_single_val in
          if negb (val =? 0xFF00) && negb (val =? 0x0000)
          then (pdu_set_exc pdu MODBUS_EC_ILLEGAL_DATA_VALUE, hinst, w)
          else
            let '(rst, w) := wr addr (if negb (val =? 0) then 1 else 0) w in
            if rst <? 0 then (pdu_set_exc pdu (- rst), hinst, w)
            else (pdu, hinst, w)
      end
  end.

Definition modbus_slave_pdu_deal_write_reg (hinst : mb_inst_t)
           (pdu : mb_pdu_t) (w : W) : mb_pdu_t * mb_inst_t * W :=
  match cb hinst with
  | None => (pdu_set_exc pdu MODBUS_EC_SLAVE_OR_SERVER_FAILURE, hinst, w)
  | Some t =>
      match write_hold t with
      | None => (pdu_set_exc pdu MODBUS_EC_SLAVE_OR_SERVER_FAILURE, hinst, w)
      | Some wr =>
          let addr := field pdu F_wr_single_addr in
          let val := field pdu F_wr_single_val in
          let '(rst, w) := wr addr val w in
          if rst <? 0 then (pdu_set_exc pdu (- rst), hinst, w)
          else (pdu, hinst, w)
      end
  end.

Definition modbus_slave_pdu_deal_write_coils (hinst : mb_inst_t)
           (pdu : mb_pdu_t) (w : W) : mb_pdu_t * mb_inst_t * W :=
  match cb hinst with
  | None => (pdu_set_exc pdu MODBUS_EC_SLAVE_OR_SERVER_FAILURE, hinst, w)
  | Some t =>
      match write_coil t with
      | None => (pdu_set_exc pdu MODBUS_EC_SLAVE_OR_SERVER_FAILURE, hinst, w)
      | Some wr =>
          let addr := field pdu F_wr_req_addr in
          let nb := field pdu F_wr_req_nb in
          let pbits := pointer pdu P_wr_req_pdata in
          match write_bits_loop wr addr pbits (Z.to_nat nb) 0 w with
          | (Some rst, w) => (pdu_set_exc pdu (- rst), hinst, w)
          | (None, w) => (pdu, hinst, w)
          end
      end
  end.

Definition modbus_slave_pdu_deal_write_regs (hinst : mb_inst_t)
           (pdu : mb_pdu_t) (w : W) : mb_pdu_t * mb_inst_t * W :=
  match cb hinst with
  | None => (pdu_set_exc pdu MODBUS_EC_SLAVE_OR_SERVER_FAILURE, hinst, w)
  | Some t =>
      match write_hold t with
      | None => (pdu_set_exc pdu MODBUS_EC_SLAVE_OR_SERVER_FAILURE, hinst, w)
      | Some wr =>
          let addr := field pdu F_wr_req_addr in
          let nb := field pdu F_wr_req_nb in
          let p := pointer pdu P_wr_req_pdata in
          match write_regs_loop wr addr p (Z.to_nat nb) 0 w with
          | (Some rst, w) => (pdu_set_exc pdu (- rst), hinst, w)
          | (None, w) => (pdu, hinst, w)
          end
      end
  end.

Definition modbus_slave_pdu_deal_mask_write_reg (hinst : mb_inst_t)
           (pdu : mb_pdu_t) (w : W) : mb_pdu_t * mb_inst_t * W :=
  match cb hinst with
  | None => (pdu_set_exc pdu MODBUS_EC_SLAVE_OR_SERVER_FAILURE, hinst, w)
  | Some t =>
      match read_hold t, write_hold t with
      | Some rd, Some wr =>
          let addr := field pdu F_mask_wr_addr in
          let val_and := field pdu F_mask_wr_val_and in
          let val_or := field pdu F_mask_wr_val_or in
          let '(rst, val, w) := rd addr w in
          if rst <? 0 then (pdu_set_exc pdu (- rst), hinst, w)
          else
            let val := u16 (Z.lor (Z.land (u16 val) val_and)
                                  (Z.land val_or (Z.lnot val_and))) in
            let '(rst, w) := wr addr val w in
            if rst <? 0 then (pdu_set_exc pdu (- rst), hinst, w)
            else (pdu, hinst, w)
      | _, _ => (pdu_set_exc pdu MODBUS_EC_SLAVE_OR_SERVER_FAILURE, hinst, w)
      end
  end.

Definition modbus_slave_pdu_deal_write_and_read_regs (hinst : mb_inst_t)
           (pdu : mb_pdu_t) (w : W) : mb_pdu_t * mb_inst_t * W :=
  match cb hinst with
  | None => (pdu_set_exc pdu MODBUS_EC_SLAVE_OR_SERVER_FAILURE, hinst, w)
  | Some t =>
      match read_hold t, write_hold t with
      | Some rd, Some wr =>
          let rd_addr := field pdu F_wr_rd_req_rd_addr in
          let rd_nb := field pdu F_wr_rd_req_rd_nb in
          let wr_addr := field pdu F_wr_rd_req_wr_addr in
          let wr_nb := field pdu F_wr_rd_req_wr_nb in
          let p := pointer pdu P_wr_rd_req_pdata in
          match write_regs_loop wr wr_addr p (Z.to_nat wr_nb) 0 w with
          | (Some rst, w) => (pdu_set_exc pdu (- rst), hinst, w)
          | (None, w) =>
              match read_regs_loop rd rd_addr (Z.to_nat rd_nb) 0
                                   (datas hinst) w with
              | (Some rst, d, w) =>
                  (pdu_set_exc pdu (- rst), set_datas hinst d, w)
              | (None, d, w) =>
                  (pdu_set_rd_rsp pdu (rd_nb * 2) d, set_datas hinst d, w)
              end
          end
      | _, _ => (pdu_set_exc pdu MODBUS_EC_SLAVE_OR_SERVER_FAILURE, hinst, w)
      end
  end.

Definition modbus_slave_pdu_deal (hinst : mb_inst_t) (pdu : mb_pdu_t)
           (w : W) : mb_pdu_t * mb_inst_t * W :=
  let fc := pdu_fc pdu in
  if fc =? MODBUS_FC_READ_COILS
  then modbus_slave_pdu_deal_read_coils hinst pdu w
  else if fc =? MODBUS_FC_READ_DISCRETE_INPUTS
  then modbus_slave_pdu_deal_read_discs hinst pdu w
  else if fc =? MODBUS_FC_READ_HOLDING_REGISTERS
  then modbus_slave_pdu_deal_read_holds hinst pdu w
  else if fc =? MODBUS_FC_READ_INPUT_REGISTERS
  then modbus_slave_pdu_deal_read_inputs hinst pdu w
  else if fc =? MODBUS_FC_WRITE_SINGLE_COIL
  then modbus_slave_pdu_deal_write_coil hinst pdu w
  else if fc =? MODBUS_FC_WRITE_SINGLE_REGISTER
  then modbus_slave_pdu_deal_write_reg hinst pdu w
  else if fc =? MODBUS_FC_READ_EXCEPTION_STATUS
  then (pdu, hinst, w)
  else if fc =? MODBUS_FC_WRITE_MULTIPLE_COILS
  then modbus_slave_pdu_deal_write_coils hinst pdu w
  else if fc =? MODBUS_FC_WRITE_MULTIPLE_REGISTERS
  then modbus_slave_pdu_deal_write_regs hinst pdu w
  else if fc =? MODBUS_FC_REPORT_SLAVE_ID
  then (pdu, hinst, w)
  else if fc =? MODBUS_FC_MASK_WRITE_REGISTER
  then modbus_slave_pdu_deal_mask_write_reg hinst pdu w
  else if fc =? MODBUS_FC_WRITE_AND_READ_REGISTERS
  then modbus_slave_pdu_deal_write_and_read_regs hinst pdu w
  else (pdu, hinst, w).

(** Contents of the automatic frame variables of the receive routines
    before the parser fills them. *)
Variable rtu_frm_indeterminate : mb_rtu_frm_t.
Variable tcp_frm_indeterminate : mb_tcp_frm_t.

Definition modbus_slave_recv_deal_rtu (hinst : mb_inst_t) (b : list Z)
           (len : Z) (w : W) : mb_inst_t * W :=
  let '(pdu_len, frm) :=
    modbus_rtu_frame_parse b len rtu_frm_indeterminate MB_PDU_TYPE_REQ in
  if pdu_len =? 0 then (hinst, w)
  else if MB_USING_ADDR_CHK && negb (frm_saddr frm =? saddr hinst)
  then (hinst, w)
  else
    let '(pdu, hinst, w) :=
      if pdu_len <? 0
      then (pdu_set_exc (rtu_pdu frm) MODBUS_EC_ILLEGAL_FUNCTION, hinst, w)
      else modbus_slave_pdu_deal hinst (rtu_pdu frm) w in
    let frm := {| frm_saddr := frm_saddr frm; rtu_pdu := pdu |} in
    let '(flen, b1) := modbus_rtu_frame_make (buf hinst) frm MB_PDU_TYPE_RSP in
    let hinst := set_buf hinst b1 in
    let '(_, w) := modbus_send hinst (buf hinst) flen w in
    (hinst, w).

Definition modbus_slave_recv_deal_tcp (hinst : mb_inst_t) (b : list Z)
           (len : Z) (w : W) : mb_inst_t * W :=
  let '(pdu_len, frm) :=
    modbus_tcp_frm_parse b len tcp_frm_indeterminate MB_PDU_TYPE_REQ in
  if pdu_len =? 0 then (hinst, w)
  else if MB_USING_ADDR_CHK
          && (negb (mbap_did (mbap frm) =? 0xFF)
              && negb (mbap_did (mbap frm) =? saddr hinst))
  then (hinst, w)
  else if MB_USING_MBAP_CHK && negb (mbap_pid (mbap frm) =? MB_TCP_MBAP_PID)
  then (hinst, w)
  else
    let '(pdu, hinst, w) :=
      if pdu_len <? 0
      then (pdu_set_exc (tcp_pdu frm) MODBUS_EC_ILLEGAL_FUNCTION, hinst, w)
      else modbus_slave_pdu_deal hinst (tcp_pdu frm) w in
    let frm := {| mbap := mbap frm; tcp_pdu := pdu |} in
    let '(flen, b1) := modbus_tcp_frm_make (buf hinst) frm MB_PDU_TYPE_RSP in
    let hinst := set_buf hinst b1 in
    let '(_, w) := modbus_send hinst (buf hinst) flen w in
    (hinst, w).

Definition modbus_slave_recv_deal (hinst : mb_inst_t) (b : list Z)
           (len : Z) (w : W) : mb_inst_t * W :=
  match prototype hinst with
  | MB_PROT_RTU =>
      if MB_USING_RTU_PROTOCOL then modbus_slave_recv_deal_rtu hinst b len w
      else (hinst, w)
  | MB_PROT_TCP =>
      if MB_USING_TCP_PROTOCOL then modbus_slave_recv_deal_tcp hinst b len w
      else (hinst, w)
  end.

(** The default callbacks ([MB_WEAK]) refuse every address; they store
    nothing through their pointer argument. *)
Definition modbus_port_read_disc (addr : Z) (w : W) : Z * Z * W :=
  (-2, indeterminate, w).
Definition modbus_port_read_coil (addr : Z) (w : W) : Z * Z * W :=
  (-2, indeterminate, w).
Definition modbus_port_write_coil (addr bit : Z) (w : W) : Z * W := (-2, w).
Definition modbus_port_read_input (addr : Z) (w : W) : Z * Z * W :=
  (-2, indeterminate, w).
Definition modbus_port_read_hold (addr : Z) (w : W) : Z * Z * W :=
  (-2, indeterminate, w).
Definition modbus_port_write_hold (addr reg : Z) (w : W) : Z * W := (-2, w).

Definition mb_cb_table : mb_cb_table_t :=
  {| read_disc := Some modbus_port_read_disc;
     read_coil := Some modbus_port_read_coil;
     write_coil := Some modbus_port_write_coil;
     read_input := Some modbus_port_read_input;
     read_hold := Some modbus_port_read_hold;
     write_hold := Some modbus_port_write_hold |}.

Definition modbus_set_cb_table (hinst : mb_inst_t) (t : mb_cb_table_t)
  : mb_inst_t :=
  {| saddr := saddr hinst; prototype := prototype hinst; tsid := tsid hinst;
     tid := tid hinst; buf := buf hinst; datas := datas hinst;
     cb := Some t |}.

End Engine.

Arguments Build_mb_cb_table_t {W}.
Arguments Build_mb_inst_t {W}.
Arguments read_disc {W}.
Arguments read_coil {W}.
Arguments write_coil {W}.
Arguments read_input {W}.
Arguments read_hold {W}.
Arguments write_hold {W}.
Arguments saddr {W}.
Arguments prototype {W}.
Arguments tsid {W}.
Arguments tid {W}.
Arguments buf {W}.
Arguments datas {W}.
Arguments cb {W}.
Arguments set_tsid {W}.
Arguments set_buf {W}.
Arguments set_datas {W}.
Arguments sizeof_buf {W}.

(** ** Properties of the slave handlers *)

(** A record of the callback invocations: the arguments passed and what came
    back. *)
Inductive cb_call :=
| Call_read_disc (addr rst bit : Z)
| Call_read_coil (addr rst bit : Z)
| Call_write_coil (addr bit rst : Z)
| Call_read_input (addr rst reg : Z)
| Call_read_hold (addr rst reg : Z)
| Call_write_hold (addr reg rst : Z).

Section Trace.

Variable W : Type.

(** A callback that also appends its invocation to a log kept next to the
    user state. *)
Definition traced_read (mk : Z -> Z -> Z -> cb_call) (f : Z -> W -> Z * Z * W)
  : Z -> W * list cb_call -> Z * Z * (W * list cb_call) :=
  fun addr s =>
    let '(rst, v, w) := f addr (fst s) in
    (rst, v, (w, snd s ++ [mk addr rst v])).

Definition traced_write (mk : Z -> Z -> Z -> cb_call) (f : Z -> Z -> W -> Z * W)
  : Z -> Z -> W * list cb_call -> Z * (W * list cb_call) :=
  fun addr v s =>
    let '(rst, w) := f addr v (fst s) in
    (rst, (w, snd s ++ [mk addr v rst])).

Definition traced (t : mb_cb_table_t W) : mb_cb_table_t (W * list cb_call) :=
  {| read_disc := option_map (traced_read Call_read_disc) (read_disc t);
     read_coil := option_map (traced_read Call_read_coil) (read_coil t);
     write_coil := option_map (traced_write Call_write_coil) (write_coil t);
     read_input := option_map (traced_read Call_read_input) (read_input t);
     read_hold := option_map (traced_read Call_read_hold) (read_hold t);
     write_hold := option_map (traced_write Call_write_hold) (write_hold t) |}.

End Trace.

Arguments traced {W}.
Arguments traced_read {W}.
Arguments traced_write {W}.

Section SlaveHandlers.

Variable W : Type.
Variable union_overlay : mb_pdu_t -> pdu_field -> Z.
Variable union_overlay_ptr : mb_pdu_t -> pdu_ptr -> list Z.

(** C8. With a [write_coil] callback registered, a write-single-coil request
    (0x05) whose value is neither 0x0000 nor 0xFF00 is answered by the
    exception PDU [0x85, 0x03] (function code with the high bit set, illegal
    data value).  The instance and the user state come back untouched,
    whatever the callback is: it is not invoked. *)
Theorem write_coil_illegal_value :
  forall (hinst : mb_inst_t W) (t : mb_cb_table_t W)
         (wr : Z -> Z -> W -> Z * W) (addr val : Z) (w : W),
    cb hinst = Some t ->
    write_coil t = Some wr ->
    val <> 0x0000 ->
    val <> 0xFF00 ->
    modbus_slave_pdu_deal W union_overlay union_overlay_ptr hinst
      (pdu_wr_single MODBUS_FC_WRITE_SINGLE_COIL addr val) w
    = (pdu_exc (Z.lor MODBUS_FC_WRITE_SINGLE_COIL 0x80)
               MODBUS_EC_ILLEGAL_DATA_VALUE, hinst, w).
Proof.
  intros hinst t wr addr val w Hcb Hwr H0 HFF.
  unfold modbus_slave_pdu_deal. cbn [pdu_fc].
  change (MODBUS_FC_WRITE_SINGLE_COIL =? MODBUS_FC_READ_COILS) with false.
  change (MODBUS_FC_WRITE_SINGLE_COIL =? MODBUS_FC_READ_DISCRETE_INPUTS)
    with false.
  change (MODBUS_FC_WRITE_SINGLE_COIL =? MODBUS_FC_READ_HOLDING_REGISTERS)
    with false.
  change (MODBUS_FC_WRITE_SINGLE_COIL =? MODBUS_FC_READ_INPUT_REGISTERS)
    with false.
  change (MODBUS_FC_WRITE_SINGLE_COIL =? MODBUS_FC_WRITE_SINGLE_COIL)
    with true.
  cbv iota. unfold modbus_slave_pdu_deal_write_coil.
  rewrite Hcb, Hwr. unfold field. cbn [pdu_get].
  apply Z.eqb_neq in H0, HFF. rewrite H0, HFF. reflexivity.
Qed.

(** C6. With [read_hold] and [write_hold] registered and the read
    succeeding, the mask-write handler (0x16) calls [read_hold] once and then
    [write_hold] once, at the request's address, with the value
    [(current AND and_mask) OR (or_mask AND NOT and_mask)], where [current]
    is the register value read.  Hence [and_mask = 0xFFFF], [or_mask = 0]
    writes back the value read, and [and_mask = 0] writes [or_mask]. *)
Theorem mask_write_read_modify_write :
  forall (hinst : mb_inst_t (W * list cb_call)) (t : mb_cb_table_t W)
         (rd : Z -> W -> Z * Z * W) (wr : Z -> Z -> W -> Z * W)
         (addr val_and val_or : Z) (w : W) (rst cur : Z) (w1 : W),
    cb hinst = Some (traced t) ->
    read_hold t = Some rd ->
    write_hold t = Some wr ->
    0 <= val_and < 65536 ->
    0 <= val_or < 65536 ->
    rd addr w = (rst, cur, w1) ->
    0 <= rst ->
    let current := u16 cur in
    let new := Z.lor (Z.land current val_and)
                     (Z.land val_or (Z.lnot val_and)) in
    snd (snd (modbus_slave_pdu_deal (W * list cb_call) union_overlay
                union_overlay_ptr hinst
                (pdu_mask_wr MODBUS_FC_MASK_WRITE_REGISTER addr val_and val_or)
                (w, [])))
    = [Call_read_hold addr rst cur;
       Call_write_hold addr new (fst (wr addr new w1))]
    /\ (val_and = 0xFFFF -> val_or = 0x0000 -> new = current)
    /\ (val_and = 0x0000 -> new = val_or).
Proof.
  intros hinst t rd wr addr val_and val_or w rst cur w1
         Hcb Hrd Hwr Hand Hor Hread Hrst current new.
  split; [|split].
  - unfold modbus_slave_pdu_deal. cbn [pdu_fc].
    change (MODBUS_FC_MASK_WRITE_REGISTER =? MODBUS_FC_MASK_WRITE_REGISTER)
      with true.
    cbv match.
    unfold modbus_slave_pdu_deal_mask_write_reg.
    rewrite Hcb. cbn [traced read_hold write_hold]. rewrite Hrd, Hwr.
    cbn [option_map]. unfold field. cbn [pdu_get].
    unfold traced_read at 1. cbn [fst snd]. rewrite Hread.
    apply Z.ltb_ge in Hrst. rewrite Hrst.
    rewrite (mask_value_u16 (u16 cur) val_and val_or (u16_range cur) Hor).
    fold current. fold new.
    unfold traced_write. cbn [fst snd].
    destruct (wr addr new w1) as [rst2 w2]. cbn [fst].
    destruct (rst2 <? 0); reflexivity.
  - intros -> ->. unfold new.
    rewrite Z.land_0_l, Z.lor_0_r.
    change 65535 with (Z.ones 16). rewrite Z.land_ones by lia.
    change (2 ^ 16) with 65536. apply Z.mod_small. apply u16_range.
  - intros ->. unfold new.
    rewrite Z.land_0_r, Z.lor_0_l.
    change (Z.lnot 0) with (-1). apply Z.land_m1_r.
Qed.

(** The calls the write loop and the read loop of a request make, from loop
    counter [i] on, given what the callbacks returned. *)
Fixpoint write_calls (addr : Z) (p : list Z) (i : Z) (rsts : list Z)
  : list cb_call :=
  match rsts with
  | [] => []
  | rst :: tl =>
      Call_write_hold (u16 (addr + i))
                      (modbus_cvt_u16_get p (Z.to_nat (2 * i))) rst
      :: write_calls addr p (i + 1) tl
  end.

Fixpoint read_calls (addr : Z) (i : Z) (res : list (Z * Z)) : list cb_call :=
  match res with
  | [] => []
  | (rst, reg) :: tl =>
      Call_read_hold (u16 (addr + i)) rst reg :: read_calls addr (i + 1) tl
  end.

Lemma store_at_end :
  forall pre rest bytes,
    store (pre ++ rest) (length pre) bytes
    = pre ++ bytes ++ skipn (length bytes) rest.
Proof.
  intros pre rest bytes. unfold store.
  rewrite length_app.
  replace (length pre - (length pre + length rest))%nat with 0%nat by lia.
  cbn [repeat]. rewrite app_nil_r.
  rewrite firstn_app, firstn_all, Nat.sub_diag. cbn [firstn].
  rewrite app_nil_r. f_equal. f_equal.
  rewrite skipn_app.
  rewrite (skipn_all2 pre) by lia. cbn [app]. f_equal. lia.
Qed.

Lemma cvt_u16_put_u16 :
  forall v, modbus_cvt_u16_put (u16 v) = modbus_cvt_u16_put v.
Proof.
  intro v. unfold modbus_cvt_u16_put.
  rewrite (u16_id (u16 v)) by apply u16_range. reflexivity.
Qed.

Lemma write_regs_loop_traced :
  forall (wr : Z -> Z -> W -> Z * W) addr p n i w log,
  exists res rsts w',
    write_regs_loop (W * list cb_call) (traced_write Call_write_hold wr)
                    addr p n i (w, log)
    = (res, (w', log ++ write_calls addr p i rsts))
    /\ match res with
       | None => length rsts = n /\ Forall (fun r => 0 <= r) rsts
       | Some rst =>
           rst < 0 /\ (length rsts <= n)%nat /\
           exists ok, rsts = ok ++ [rst] /\ Forall (fun r => 0 <= r) ok
       end.
Proof.
  intros wr addr p. induction n as [|n IH]; intros i w log.
  - exists None, [], w. cbn. rewrite app_nil_r. repeat split. constructor.
  - cbn [write_regs_loop]. unfold traced_write at 1. cbn [fst snd].
    destruct (wr (u16 (addr + i)) (modbus_cvt_u16_get p (Z.to_nat (2 * i))) w)
      as [rst w1] eqn:Hwr.
    destruct (rst <? 0) eqn:Hneg.
    + exists (Some rst), [rst], w1. cbn [write_calls]. split; [reflexivity|].
      apply Z.ltb_lt in Hneg. split; [exact Hneg|]. split; [cbn; lia|].
      exists []. split; [reflexivity|constructor].
    + apply Z.ltb_ge in Hneg.
      destruct (IH (i + 1) w1
                   (log ++ [Call_write_hold (u16 (addr + i))
                              (modbus_cvt_u16_get p (Z.to_nat (2 * i))) rst]))
        as (res & rsts & w' & Heq & Hres).
      exists res, (rst :: rsts), w'. rewrite Heq. cbn [write_calls].
      rewrite <- app_assoc. cbn [app]. split; [reflexivity|].
      destruct res as [r|].
      * destruct Hres as (Hr & Hlen & ok & Hok & Hall).
        split; [exact Hr|]. split; [cbn; lia|].
        exists (rst :: ok). subst rsts. split; [reflexivity|].
        constructor; assumption.
      * destruct Hres as (Hlen & Hall). split; [cbn; lia|].
        constructor; assumption.
Qed.

Lemma read_regs_loop_traced :
  forall (rd : Z -> W -> Z * Z * W) addr n i pre rest w log,
    0 <= i -> length pre = Z.to_nat (2 * i) ->
  exists res rds d' w',
    read_regs_loop (W * list cb_call) (traced_read Call_read_hold rd)
                   addr n i (pre ++ rest) (w, log)
    = (res, d', (w', log ++ read_calls addr i rds))
    /\ match res with
       | None =>
           length rds = n /\ Forall (fun r => 0 <= fst r) rds /\
           d' = pre ++ flat_map (fun r => modbus_cvt_u16_put (snd r)) rds
                    ++ skipn (2 * n) rest
       | Some rst =>
           rst < 0 /\ (length rds <= n)%nat /\
           exists ok reg, rds = ok ++ [(rst, reg)]
                          /\ Forall (fun r => 0 <= fst r) ok
       end.
Proof.
  intros rd addr. induction n as [|n IH]; intros i pre rest w log Hi Hpre.
  - exists None, [], (pre ++ rest), w. cbn. rewrite app_nil_r.
    repeat split. constructor.
  - cbn [read_regs_loop]. unfold traced_read at 1. cbn [fst snd].
    destruct (rd (u16 (addr + i)) w) as [[rst reg] w1] eqn:Hrd.
    destruct (rst <? 0) eqn:Hneg.
    + exists (Some rst), [(rst, reg)], (pre ++ rest), w1. cbn [read_calls].
      split; [reflexivity|].
      apply Z.ltb_lt in Hneg. split; [exact Hneg|]. split; [cbn; lia|].
      exists [], reg. split; [reflexivity|constructor].
    + apply Z.ltb_ge in Hneg.
      rewrite <- Hpre, store_at_end, cvt_u16_put_u16.
      rewrite app_assoc.
      destruct (IH (i + 1) (pre ++ modbus_cvt_u16_put reg)
                   (skipn (length (modbus_cvt_u16_put reg)) rest) w1
                   (log ++ [Call_read_hold (u16 (addr + i)) rst reg]))
        as (res & rds & d' & w' & Heq & Hres); [lia| |].
      { rewrite length_app, Hpre. cbn [modbus_cvt_u16_put length]. lia. }
      exists res, ((rst, reg) :: rds), d', w'. rewrite Heq. cbn [read_calls].
      rewrite <- app_assoc. cbn [app]. split; [reflexivity|].
      destruct res as [r|].
      * destruct Hres as (Hr & Hlen & ok & reg' & Hok & Hall).
        split; [exact Hr|]. split; [cbn; lia|].
        exists ((rst, reg) :: ok), reg'. subst rds. split; [reflexivity|].
        constructor; [exact Hneg|exact Hall].
      * destruct Hres as (Hlen & Hall & Hd). split; [cbn; lia|].
        split; [constructor; [exact Hneg|exact Hall]|].
        rewrite Hd. cbn [flat_map]. rewrite <- !app_assoc.
        rewrite skipn_skipn. cbn [modbus_cvt_u16_put length snd].
        replace (2 * n + 2)%nat with (2 * S n)%nat by lia. reflexivity.
Qed.


End SlaveHandlers.

(** ** Properties of the slave receive routine *)

Section SlaveReceive.

Variable W : Type.
Variable union_overlay : mb_pdu_t -> pdu_field -> Z.
Variable union_overlay_ptr : mb_pdu_t -> pdu_ptr -> list Z.
Variable modbus_rtu_frame_make :
  list Z -> mb_rtu_frm_t -> mb_pdu_type_t -> Z * list Z.
Variable modbus_rtu_frame_parse :
  list Z -> Z -> mb_rtu_frm_t -> mb_pdu_type_t -> Z * mb_rtu_frm_t.
Variable modbus_send : mb_inst_t W -> list Z -> Z -> W -> Z * W.
Variable rtu_frm_indeterminate : mb_rtu_frm_t.

(** C4, as the code has it.  With address checking compiled in, an RTU
    frame whose slave address differs from the address of the instance is
    dropped: the instance and the environment come back as they were, so no
    handler or callback ran and nothing was sent.  The address 0 is no
    exception: a frame sent to 0 is dropped like any other by an instance
    whose address is not 0. *)
Theorem slave_rtu_address_mismatch_dropped :
  forall (hinst : mb_inst_t W) (b : list Z) (len : Z) (w : W)
         (pdu_len : Z) (frm : mb_rtu_frm_t),
    modbus_rtu_frame_parse b len rtu_frm_indeterminate MB_PDU_TYPE_REQ
    = (pdu_len, frm) ->
    frm_saddr frm <> saddr hinst ->
    modbus_slave_recv_deal_rtu W true union_overlay union_overlay_ptr
      modbus_rtu_frame_make modbus_rtu_frame_parse modbus_send
      rtu_frm_indeterminate hinst b len w
    = (hinst, w).
Proof.
  intros hinst b len w pdu_len frm Hparse Hneq.
  unfold modbus_slave_recv_deal_rtu. rewrite Hparse.
  destruct (pdu_len =? 0); [reflexivity|].
  apply Z.eqb_neq in Hneq. rewrite Hneq. reflexivity.
Qed.

End SlaveReceive.

(** ** Properties of the master transactions *)

(** The five TCP transactions of [modbus_master.c]. *)
Inductive tcp_op :=
| Op_read_req (func addr nb : Z) (pdata : list Z)
| Op_write_req (func addr nb : Z) (pdata : list Z) (dlen : Z)
| Op_write_single (func addr val : Z)
| Op_mask_write (addr val_and val_or : Z)
| Op_write_and_read_regs (wr_addr wr_nb : Z) (p_wr_regs : list Z)
                         (rd_addr rd_nb : Z) (p_rd_regs : list Z).

Lemma cvt_u16_roundtrip :
  forall v rest, modbus_cvt_u16_get (modbus_cvt_u16_put v ++ rest) 0 = u16 v.
Proof.
  intros v rest. unfold modbus_cvt_u16_get, modbus_cvt_u16_put, byte_at.
  cbn [app nth]. pose proof (u16_range v) as Hv.
  rewrite !(u8_id (u8 _)) by apply u8_range.
  unfold u8. rewrite (Z.mod_small (u16 v / 256)).
  - rewrite Z.mul_comm. symmetry. apply Z.div_mod. lia.
  - split; [apply Z.div_pos; lia|apply Z.div_lt_upper_bound; lia].
Qed.

Lemma u16_succ : forall a k, u16 (u16 (a + k) + 1) = u16 (a + (k + 1)).
Proof.
  intros a k. unfold u16. rewrite Zplus_mod_idemp_l. f_equal. lia.
Qed.

Section MasterTcp.

Variable W : Type.
Variable MB_USING_ADDR_CHK : bool.
Variable MB_USING_MBAP_CHK : bool.
Variable union_overlay : mb_pdu_t -> pdu_field -> Z.
Variable union_overlay_ptr : mb_pdu_t -> pdu_ptr -> list Z.
Variable modbus_pdu_make : mb_pdu_t -> mb_pdu_type_t -> Z * list Z.
Variable modbus_pdu_parse :
  list Z -> Z -> mb_pdu_t -> mb_pdu_type_t -> Z * mb_pdu_t.
Variable indeterminate : Z.

(** The log of what was handed to [modbus_send]: buffer and length. *)
Definition sent := list (list Z * Z).

(** The transport of the instance, with every call of [modbus_send] logged
    next to the environment. *)
Variable send : mb_inst_t (W * sent) -> list Z -> Z -> W -> Z * W.
Variable recv : mb_inst_t (W * sent) -> Z -> W -> Z * list Z * W.

Definition logged_send (hinst : mb_inst_t (W * sent)) (b : list Z) (len : Z)
           (s : W * sent) : Z * (W * sent) :=
  let '(r, w) := send hinst b len (fst s) in (r, (w, snd s ++ [(b, len)])).

Definition plain_recv (hinst : mb_inst_t (W * sent)) (size : Z)
           (s : W * sent) : Z * list Z * (W * sent) :=
  let '(r, b, w) := recv hinst size (fst s) in (r, b, (w, snd s)).

Definition run_tcp_op (op : tcp_op) (hinst : mb_inst_t (W * sent))
           (s : W * sent) : mb_inst_t (W * sent) * (W * sent) :=
  match op with
  | Op_read_req func addr nb pdata =>
      let '(_, _, h, s) :=
        modbus_read_req_tcp (W * sent) MB_USING_ADDR_CHK MB_USING_MBAP_CHK
          union_overlay union_overlay_ptr modbus_pdu_make modbus_pdu_parse
          logged_send plain_recv indeterminate hinst func addr nb pdata s in
      (h, s)
  | Op_write_req func addr nb pdata dlen =>
      let '(_, h, s) :=
        modbus_write_req_tcp (W * sent) MB_USING_ADDR_CHK MB_USING_MBAP_CHK
          union_overlay modbus_pdu_make modbus_pdu_parse
          logged_send plain_recv indeterminate hinst func addr nb pdata dlen
          s in
      (h, s)
  | Op_write_single func addr val =>
      let '(_, h, s) :=
        modbus_write_single_tcp (W * sent) MB_USING_ADDR_CHK MB_USING_MBAP_CHK
          union_overlay modbus_pdu_make modbus_pdu_parse
          logged_send plain_recv indeterminate hinst func addr val s in
      (h, s)
  | Op_mask_write addr val_and val_or =>
      let '(_, h, s) :=
        modbus_mask_write_tcp (W * sent) MB_USING_ADDR_CHK MB_USING_MBAP_CHK
          union_overlay modbus_pdu_make modbus_pdu_parse
          logged_send plain_recv indeterminate hinst addr val_and val_or s in
      (h, s)
  | Op_write_and_read_regs wr_addr wr_nb p_wr_regs rd_addr rd_nb p_rd_regs =>
      let '(_, _, h, s) :=
        modbus_write_and_read_regs_tcp (W * sent) MB_USING_ADDR_CHK
          MB_USING_MBAP_CHK union_overlay union_overlay_ptr modbus_pdu_make
          modbus_pdu_parse logged_send plain_recv indeterminate hinst
          wr_addr wr_nb p_wr_regs rd_addr rd_nb p_rd_regs s in
      (h, s)
  end.

Fixpoint run_tcp_ops (ops : list tcp_op) (hinst : mb_inst_t (W * sent))
         (s : W * sent) : mb_inst_t (W * sent) * (W * sent) :=
  match ops with
  | [] => (hinst, s)
  | op :: tl => let '(h, s) := run_tcp_op op hinst s in run_tcp_ops tl h s
  end.

(** The transaction identifier in the MBAP header of a frame. *)
Definition frame_tid (e : list Z * Z) : Z := modbus_cvt_u16_get (fst e) 0.

Ltac step_tcp :=
  match goal with
  | |- context [if ?c then _ else _] => destruct c; cbv iota
  end.

Lemma run_tcp_op_spec :
  forall op hinst w log,
  exists h' w' b len,
    run_tcp_op op hinst (w, log) = (h', (w', log ++ [(b, len)]))
    /\ frame_tid (b, len) = u16 (tsid hinst + 1)
    /\ tsid h' = u16 (tsid hinst + 1)
    /\ tid h' = tid hinst.
Proof.
  intros op hinst w log.
  destruct op; unfold run_tcp_op;
    [unfold modbus_read_req_tcp|unfold modbus_write_req_tcp
     |unfold modbus_write_single_tcp|unfold modbus_mask_write_tcp
     |unfold modbus_write_and_read_regs_tcp];
    unfold modbus_tcp_frm_make; cbn [mbap mbap_tid tcp_pdu];
    destruct (modbus_pdu_make _ _) as [pdu_len bytes];
    cbn [buf set_buf set_tsid set_datas tsid tid];
    unfold logged_send at 1; cbn [fst snd];
    destruct (send _ _ _ _) as [slen w1];
    unfold plain_recv; cbn [fst snd];
    destruct (recv _ _ _) as [[rlen b2] w2];
    cbn [buf set_buf tsid tid];
    destruct (modbus_tcp_frm_parse _ _ _ _ _) as [pl fr];
    repeat step_tcp;
    do 4 eexists; (split; [reflexivity|]);
    (split; [unfold frame_tid; cbn [fst]; unfold store at 1;
             cbn [firstn app]; rewrite <- !app_assoc;
             rewrite cvt_u16_roundtrip; apply u16_id, u16_range
            |split; reflexivity]).
Qed.

(** C9. Whatever the transport and the peer do, a run of TCP transactions
    on one instance hands to [modbus_send] one frame per transaction, and
    the transaction identifiers in their MBAP headers are [tsid + 1],
    [tsid + 2], ... modulo 2^16, [tsid] being the counter before the run: each
    transaction advances the counter by one and sends the new value. *)
Theorem tcp_tid_sequence :
  forall (ops : list tcp_op) (hinst : mb_inst_t (W * sent)) (w : W),
    map frame_tid (snd (snd (run_tcp_ops ops hinst (w, []))))
    = map (fun k => u16 (tsid hinst + Z.of_nat k)) (seq 1 (length ops))
    /\ (forall op s, tsid (fst (run_tcp_op op hinst s))
                     = u16 (tsid hinst + 1)).
Proof.
  intros ops hinst w. split.
  - assert (Hgen : forall ops (h : mb_inst_t (W * sent)) w log k,
               u16 (tsid h) = u16 (tsid hinst + Z.of_nat k) ->
               map frame_tid (snd (snd (run_tcp_ops ops h (w, log))))
               = map frame_tid log
                 ++ map (fun j => u16 (tsid hinst + Z.of_nat j))
                        (seq (S k) (length ops))).
    { clear. induction ops as [|op tl IH]; intros h w log k Hh.
      - cbn. rewrite app_nil_r. reflexivity.
      - cbn [run_tcp_ops length seq map].
        destruct (run_tcp_op_spec op h w log)
          as (h' & w' & b & len & Hrun & Htid & Htsid & _).
        rewrite Hrun. cbv beta iota.
        assert (Hnext : u16 (tsid h + 1)
                        = u16 (tsid hinst + Z.of_nat (S k))).
        { unfold u16 in *. rewrite <- Zplus_mod_idemp_l, Hh.
          rewrite Zplus_mod_idemp_l. f_equal. lia. }
        etransitivity; [apply (IH h' w' (log ++ [(b, len)]) (S k))|].
        + rewrite Htsid, u16_id by apply u16_range. exact Hnext.
        + rewrite map_app. cbn [map]. rewrite <- app_assoc. cbn [app].
          rewrite Htid, Hnext. reflexivity. }
    etransitivity; [apply (Hgen ops hinst w [] 0%nat)|reflexivity].
    cbn. rewrite Z.add_0_r. reflexivity.
  - intros op [w0 log].
    destruct (run_tcp_op_spec op hinst w0 log)
      as (h' & w' & b & len & Hrun & _ & Htsid & _).
    rewrite Hrun. exact Htsid.
Qed.

End MasterTcp.

Section MasterRtu.

Variable W : Type.
Variable MB_USING_ADDR_CHK : bool.
Variable union_overlay : mb_pdu_t -> pdu_field -> Z.
Variable union_overlay_ptr : mb_pdu_t -> pdu_ptr -> list Z.
Variable modbus_rtu_frame_make :
  list Z -> mb_rtu_frm_t -> mb_pdu_type_t -> Z * list Z.
Variable modbus_rtu_frame_parse :
  list Z -> Z -> mb_rtu_frm_t -> mb_pdu_type_t -> Z * mb_rtu_frm_t.
Variable modbus_send : mb_inst_t W -> list Z -> Z -> W -> Z * W.
Variable modbus_recv : mb_inst_t W -> Z -> W -> Z * list Z * W.

(** The result of parsing what comes back for a request: the frame is made
    in [hinst->buf] and sent, the response is received into the same buffer
    and parsed into the frame variable that still holds the request. *)
Definition rtu_exchange (hinst : mb_inst_t W) (pdu : mb_pdu_t) (w : W)
  : Z * mb_rtu_frm_t :=
  let frm := {| frm_saddr := saddr hinst; rtu_pdu := pdu |} in
  let '(flen, b1) := modbus_rtu_frame_make (buf hinst) frm MB_PDU_TYPE_REQ in
  let hinst := set_buf hinst b1 in
  let '(_, w) := modbus_send hinst (buf hinst) flen w in
  let '(rlen, b2, _) := modbus_recv hinst (sizeof_buf hinst) w in
  modbus_rtu_frame_parse b2 rlen frm MB_PDU_TYPE_RSP.

Ltac step_rtu :=
  match goal with
  | |- context [if ?c then _ else _] => destruct c eqn:?; cbv iota
  end.

Ltac rtu_failure :=
  unfold rtu_exchange; cbn [buf set_buf set_datas saddr];
  destruct (modbus_rtu_frame_make _ _ _) as [flen b1];
  cbn [buf set_buf];
  destruct (modbus_send _ _ _ _) as [slen w1];
  destruct (modbus_recv _ _ _) as [[rlen b2] w2];
  cbn [buf set_buf];
  destruct (modbus_rtu_frame_parse _ _ _ _) as [pdu_len frm];
  cbn [fst]; intros Hparse; apply Z.leb_le in Hparse;
  repeat step_rtu; try reflexivity; congruence.

(** On the RTU path every transaction returns 0 when the parser rejects the
    response (0, malformed) or does not support it (-1). *)
Lemma rtu_parse_failure_returns_0 :
  forall (hinst : mb_inst_t W) (w : W),
    (forall func addr nb pdata,
        fst (rtu_exchange hinst (pdu_rd_req func addr (u16 nb)) w) <= 0 ->
        fst (fst (fst (modbus_read_req_rtu W MB_USING_ADDR_CHK union_overlay
                         union_overlay_ptr modbus_rtu_frame_make
                         modbus_rtu_frame_parse modbus_send modbus_recv
                         hinst func addr nb pdata w))) = 0)
    /\ (forall func addr nb pdata dlen,
           fst (rtu_exchange hinst
                  (pdu_wr_req func addr (u16 nb) (u8 dlen) pdata) w) <= 0 ->
           fst (fst (modbus_write_req_rtu W MB_USING_ADDR_CHK union_overlay
                       modbus_rtu_frame_make modbus_rtu_frame_parse
                       modbus_send modbus_recv
                       hinst func addr nb pdata dlen w)) = 0)
    /\ (forall func addr val,
           fst (rtu_exchange hinst (pdu_wr_single func addr val) w) <= 0 ->
           fst (fst (modbus_write_single_rtu W MB_USING_ADDR_CHK union_overlay
                       modbus_rtu_frame_make modbus_rtu_frame_parse
                       modbus_send modbus_recv hinst func addr val w)) = 0)
    /\ (forall addr val_and val_or,
           fst (rtu_exchange hinst
                  (pdu_mask_wr MODBUS_FC_MASK_WRITE_REGISTER addr val_and
                               val_or) w) <= 0 ->
           fst (fst (modbus_mask_write_rtu W MB_USING_ADDR_CHK union_overlay
                       modbus_rtu_frame_make modbus_rtu_frame_parse
                       modbus_send modbus_recv hinst addr val_and val_or w))
           = 0)
    /\ (forall wr_addr wr_nb p_wr_regs rd_addr rd_nb p_rd_regs,
           let hinst' :=
             set_datas hinst (regs_put (datas hinst) wr_nb p_wr_regs) in
           fst (rtu_exchange hinst'
                  (pdu_wr_rd_req MODBUS_FC_WRITE_AND_READ_REGISTERS rd_addr
                                 (u16 rd_nb) wr_addr (u16 wr_nb)
                                 (u8 (wr_nb * 2)) (datas hinst')) w) <= 0 ->
           fst (fst (fst (modbus_write_and_read_regs_rtu W MB_USING_ADDR_CHK
                            union_overlay union_overlay_ptr
                            modbus_rtu_frame_make modbus_rtu_frame_parse
                            modbus_send modbus_recv hinst wr_addr wr_nb
                            p_wr_regs rd_addr rd_nb p_rd_regs w))) = 0).
Proof.
  intros hinst w. repeat split.
  - intros func addr nb pdata. unfold modbus_read_req_rtu. rtu_failure.
  - intros func addr nb pdata dlen. unfold modbus_write_req_rtu. rtu_failure.
  - intros func addr val. unfold modbus_write_single_rtu. rtu_failure.
  - intros addr val_and val_or. unfold modbus_mask_write_rtu. rtu_failure.
  - intros wr_addr wr_nb p_wr_regs rd_addr rd_nb p_rd_regs hinst'.
    subst hinst'. unfold modbus_write_and_read_regs_rtu. rtu_failure.
Qed.

End MasterRtu.

(** ** A test bench: codecs, a link and a register bank

    The concrete instances below serve the examples: they stand in for the
    parts of the repository that are not among the sources. *)

Module Bench.

(** Modelled from the spec: [modbus_crc_cyc_cal] and [modbus_crc_cal]
    (CRC-16/Modbus: reflected polynomial 0xA001, initial value 0xFFFF, no
    final XOR); the CRC source is not among the sources. *)
Fixpoint crc_shift (n : nat) (crc : Z) : Z :=
  match n with
  | O => crc
  | S n' =>
      crc_shift n' (if Z.testbit crc 0
                    then Z.lxor (Z.shiftr crc 1) 0xA001
                    else Z.shiftr crc 1)
  end.

Definition modbus_crc_cyc_cal (init : Z) (pdata : list Z) : Z :=
  fold_left (fun crc b => crc_shift 8 (Z.lxor crc (u8 b))) pdata init.

Definition MB_CRC_INIT_VOL : Z := 0xFFFF.

Definition modbus_crc_cal (pdata : list Z) : Z :=
  modbus_crc_cyc_cal MB_CRC_INIT_VOL pdata.

(** The request of scenario 1 of the spec carries the CRC bytes [74 17]. *)
Example crc_scenario_1 :
  modbus_crc_cal [0x01; 0x03; 0x00; 0x6B; 0x00; 0x03] = 0x1774.
Proof. reflexivity. Qed.

(** Modelled from the spec: [modbus_pdu_make] (the PDU codec is not among
    the sources), one layout per variant and direction. *)
Definition modbus_pdu_make (pdu : mb_pdu_t) (type : mb_pdu_type_t)
  : Z * list Z :=
  let bytes :=
    match pdu with
    | pdu_exc fc ec => [u8 fc; u8 ec]
    | pdu_rd_req fc addr nb =>
        u8 fc :: modbus_cvt_u16_put addr ++ modbus_cvt_u16_put nb
    | pdu_rd_rsp fc dlen pdata =>
        u8 fc :: u8 dlen :: map u8 (firstn (Z.to_nat dlen) pdata)
    | pdu_wr_single fc addr val =>
        u8 fc :: modbus_cvt_u16_put addr ++ modbus_cvt_u16_put val
    | pdu_wr_req fc addr nb dlen pdata =>
        match type with
        | MB_PDU_TYPE_REQ =>
            u8 fc :: modbus_cvt_u16_put addr ++ modbus_cvt_u16_put nb
               ++ u8 dlen :: map u8 (firstn (Z.to_nat dlen) pdata)
        | MB_PDU_TYPE_RSP =>
            u8 fc :: modbus_cvt_u16_put addr ++ modbus_cvt_u16_put nb
        end
    | pdu_wr_rsp fc addr nb =>
        u8 fc :: modbus_cvt_u16_put addr ++ modbus_cvt_u16_put nb
    | pdu_mask_wr fc addr val_and val_or =>
        u8 fc :: modbus_cvt_u16_put addr ++ modbus_cvt_u16_put val_and
           ++ modbus_cvt_u16_put val_or
    | pdu_wr_rd_req fc rd_addr rd_nb wr_addr wr_nb dlen pdata =>
        u8 fc :: modbus_cvt_u16_put rd_addr ++ modbus_cvt_u16_put rd_nb
           ++ modbus_cvt_u16_put wr_addr ++ modbus_cvt_u16_put wr_nb
           ++ u8 dlen :: map u8 (firstn (Z.to_nat dlen) pdata)
    end in
  (Z.of_nat (length bytes), bytes).

(** The parser stores the function code before it looks further. *)
Definition pdu_with_fc (pdu : mb_pdu_t) (fc : Z) : mb_pdu_t :=
  match pdu with
  | pdu_exc _ ec => pdu_exc fc ec
  | pdu_rd_req _ a n => pdu_rd_req fc a n
  | pdu_rd_rsp _ d p => pdu_rd_rsp fc d p
  | pdu_wr_single _ a v => pdu_wr_single fc a v
  | pdu_wr_req _ a n d p => pdu_wr_req fc a n d p
  | pdu_wr_rsp _ a n => pdu_wr_rsp fc a n
  | pdu_mask_wr _ a x o => pdu_mask_wr fc a x o
  | pdu_wr_rd_req _ a n b m d p => pdu_wr_rd_req fc a n b m d p
  end.

Definition in_range (lo x hi : Z) : bool := (lo <=? x) && (x <=? hi).

(** Modelled from the spec: [modbus_pdu_parse], the layout rules of the PDU
    codec; 0 for a malformed PDU, -1 for a function code that is not
    supported. *)
Definition modbus_pdu_parse (p : list Z) (len : Z) (pdu : mb_pdu_t)
           (type : mb_pdu_type_t) : Z * mb_pdu_t :=
  if len <? MB_PDU_SIZE_MIN then (0, pdu)
  else
    let fc := byte_at p 0 in
    let pdu := pdu_with_fc pdu fc in
    let w1 := modbus_cvt_u16_get p 1 in
    let w2 := modbus_cvt_u16_get p 3 in
    match type with
    | MB_PDU_TYPE_REQ =>
        if in_range 0x01 fc 0x02 then
          if (5 <=? len) && in_range 1 w2 2000
          then (5, pdu_rd_req fc w1 w2) else (0, pdu)
        else if in_range 0x03 fc 0x04 then
          if (5 <=? len) && in_range 1 w2 125
          then (5, pdu_rd_req fc w1 w2) else (0, pdu)
        else if in_range 0x05 fc 0x06 then
          if 5 <=? len then (5, pdu_wr_single fc w1 w2) else (0, pdu)
        else if fc =? 0x0F then
          let bc := byte_at p 5 in
          if (6 <=? len) && (bc =? (w2 + 7) / 8) && (6 + bc <=? len)
          then (6 + bc, pdu_wr_req fc w1 w2 bc (skipn 6 p)) else (0, pdu)
        else if fc =? 0x10 then
          let bc := byte_at p 5 in
          if (6 <=? len) && (bc =? 2 * w2) && (6 + bc <=? len)
          then (6 + bc, pdu_wr_req fc w1 w2 bc (skipn 6 p)) else (0, pdu)
        else if fc =? 0x16 then
          if 7 <=? len
          then (7, pdu_mask_wr fc w1 w2 (modbus_cvt_u16_get p 5))
          else (0, pdu)
        else if fc =? 0x17 then
          let w3 := modbus_cvt_u16_get p 5 in
          let w4 := modbus_cvt_u16_get p 7 in
          let bc := byte_at p 9 in
          if (10 <=? len) && (bc =? 2 * w4) && (10 + bc <=? len)
          then (10 + bc, pdu_wr_rd_req fc w1 w2 w3 w4 bc (skipn 10 p))
          else (0, pdu)
        else (-1, pdu)
    | MB_PDU_TYPE_RSP =>
        if MODBUS_FC_EXCEPT_CHK fc then (2, pdu_exc fc (byte_at p 1))
        else if in_range 0x01 fc 0x02 then
          let bc := byte_at p 1 in
          if 2 + bc <=? len then (2 + bc, pdu_rd_rsp fc bc (skipn 2 p))
          else (0, pdu)
        else if in_range 0x03 fc 0x04 || (fc =? 0x17) then
          let bc := byte_at p 1 in
          if (2 + bc <=? len) && Z.even bc
          then (2 + bc, pdu_rd_rsp fc bc (skipn 2 p)) else (0, pdu)
        else if in_range 0x05 fc 0x06 then
          if 5 <=? len then (5, pdu_wr_single fc w1 w2) else (0, pdu)
        else if (fc =? 0x0F) || (fc =? 0x10) then
          if 5 <=? len then (5, pdu_wr_rsp fc w1 w2) else (0, pdu)
        else if fc =? 0x16 then
          if 7 <=? len
          then (7, pdu_mask_wr fc w1 w2 (modbus_cvt_u16_get p 5))
          else (0, pdu)
        else (-1, pdu)
    end.

(** Modelled from the spec: [modbus_rtu_frame_make] and
    [modbus_rtu_frame_parse] (the RTU frame codec is not among the sources):
    slave address, PDU, CRC low byte first; a frame shorter than 4 bytes or
    with a wrong CRC is malformed. *)
Definition modbus_rtu_frame_make (b : list Z) (frm : mb_rtu_frm_t)
           (type : mb_pdu_type_t) : Z * list Z :=
  let body := u8 (frm_saddr frm) :: snd (modbus_pdu_make (rtu_pdu frm) type) in
  let crc := modbus_crc_cal body in
  let frame := body ++ [u8 crc; u8 (crc / 256)] in
  (Z.of_nat (length frame), store b 0 frame).

Definition modbus_rtu_frame_parse (b : list Z) (len : Z) (frm : mb_rtu_frm_t)
           (type : mb_pdu_type_t) : Z * mb_rtu_frm_t :=
  if len <? 4 then (0, frm)
  else
    let n := Z.to_nat len in
    let crc := modbus_crc_cal (firstn (n - 2) b) in
    if negb (crc =? byte_at b (n - 2) + 256 * byte_at b (n - 1)) then (0, frm)
    else
      let '(pdu_len, pdu) :=
        modbus_pdu_parse (skipn 1 b) (len - 3) (rtu_pdu frm) type in
      (pdu_len, {| frm_saddr := byte_at b 0; rtu_pdu := pdu |}).

(** In the bench no field is read through a member other than the one
    written. *)
Definition overlay (p : mb_pdu_t) (f : pdu_field) : Z := 0.
Definition overlay_ptr (p : mb_pdu_t) (m : pdu_ptr) : list Z := [].

(** The line and the register bank: frames handed to the transport, frames
    waiting to be received, holding registers from address
    [MB_REG_ADDR_BEGIN] on. *)
Record link := {
  outbox : list (list Z);
  inbox : list (list Z);
  regs : list Z
}.

(** Modelled from the spec: [modbus_send] and [modbus_recv] (the instance
    source is not among the sources).  The bytes go out whole; a receive
    takes the next frame waiting on the line into the buffer, 0 if there is
    none. *)
Definition modbus_send (hinst : mb_inst_t link) (b : list Z) (len : Z)
           (w : link) : Z * link :=
  (len, {| outbox := outbox w ++ [firstn (Z.to_nat len) b];
           inbox := inbox w; regs := regs w |}).

Definition modbus_recv (hinst : mb_inst_t link) (size : Z) (w : link)
  : Z * list Z * link :=
  match inbox w with
  | [] => (0, buf hinst, w)
  | f :: tl =>
      let f := firstn (Z.to_nat size) f in
      (Z.of_nat (length f), store (buf hinst) 0 f,
       {| outbox := outbox w; inbox := tl; regs := regs w |})
  end.

(** Modelled from the README: the register bank of the slave example, 29
    holding registers from address 4000 on; other addresses are refused
    with -2. *)
Definition MB_REG_ADDR_BEGIN : Z := 4000.

Definition bank : list Z :=
  [2210; 2220; 2230; 111; 112; 113; 3000; 1111; 1112; 1113; 600;
   201; 202; 203; 4000; 8008; 9009; 2001; 2002; 2003; 2004; 101;
   102; 103; 104; 1111; 1112; 1113; 1114].

Definition bank_has (addr : Z) (w : link) : bool :=
  (MB_REG_ADDR_BEGIN <=? addr)
  && (addr <? MB_REG_ADDR_BEGIN + Z.of_nat (length (regs w))).

Definition bank_read_hold (addr : Z) (w : link) : Z * Z * link :=
  if bank_has addr w
  then (0, nth (Z.to_nat (addr - MB_REG_ADDR_BEGIN)) (regs w) 0, w)
  else (-2, 0, w).

Definition bank_write_hold (addr reg : Z) (w : link) : Z * link :=
  if bank_has addr w
  then (0, {| outbox := outbox w; inbox := inbox w;
              regs := store (regs w) (Z.to_nat (addr - MB_REG_ADDR_BEGIN))
                            [reg] |})
  else (-2, w).

Definition bank_cb : mb_cb_table_t link :=
  {| read_disc := None; read_coil := None; write_coil := None;
     read_input := None;
     read_hold := Some bank_read_hold;
     write_hold := Some bank_write_hold |}.

(** A fresh instance: counter at 0, scratch buffers zeroed. *)
Definition instance {W : Type} (prot : mb_prot_t) (addr : Z)
           (t : option (mb_cb_table_t W)) : mb_inst_t W :=
  {| saddr := addr; prototype := prot; tsid := 0; tid := 0;
     buf := repeat 0 260; datas := repeat 0 256; cb := t |}.

Definition line (frames : list (list Z)) : link :=
  {| outbox := []; inbox := frames; regs := bank |}.

End Bench.

(** ** The engine on the bench *)

Import Bench.

(** An instance whose field [tid] holds [v]. *)
Definition with_tid {W : Type} (hinst : mb_inst_t W) (v : Z) : mb_inst_t W :=
  {| saddr := saddr hinst; prototype := prototype hinst; tsid := tsid hinst;
     tid := v; buf := buf hinst; datas := datas hinst; cb := cb hinst |}.

(** Scenario 4 of the spec: read two holding registers of unit 0x11 over
    TCP; the response echoes the transaction identifier of the request. *)
Definition scenario_4_request : list Z :=
  [0x00; 0x01; 0x00; 0x00; 0x00; 0x06; 0x11; 0x03; 0x00; 0x00; 0x00; 0x02].
Definition scenario_4_response : list Z :=
  [0x00; 0x01; 0x00; 0x00; 0x00; 0x07; 0x11; 0x03; 0x04;
   0x12; 0x34; 0x56; 0x78].

Definition read_scenario_4 (hinst : mb_inst_t link)
  : Z * list Z * mb_inst_t link * link :=
  modbus_read_req_tcp link true true overlay overlay_ptr
    modbus_pdu_make modbus_pdu_parse modbus_send modbus_recv 0
    hinst MODBUS_FC_READ_HOLDING_REGISTERS 0 2 (repeat 0 4)
    (line [scenario_4_response]).

(** C1. With address and MBAP checking compiled in, a fresh TCP instance
    sends the request of scenario 4 with transaction identifier 1 and
    receives the well-formed response that echoes it (identifier 1, protocol
    0, length 7 for a PDU of 6 bytes): [modbus_read_req_tcp] returns 0.  The
    response is compared with the field [tid] of the instance, not with the
    counter [tsid] that was sent: the same exchange succeeds (4 data bytes)
    on an instance whose [tid] happens to hold 1. *)
Theorem tcp_echoed_tid_rejected :
  outbox (snd (read_scenario_4 (instance MB_PROT_TCP 0x11 None)))
  = [scenario_4_request]
  /\ modbus_cvt_u16_get scenario_4_request 0 = 1
  /\ modbus_cvt_u16_get scenario_4_response 0 = 1
  /\ fst (fst (fst (read_scenario_4 (instance MB_PROT_TCP 0x11 None)))) = 0
  /\ fst (fst (fst (read_scenario_4
                      (with_tid (instance MB_PROT_TCP 0x11 None) 1)))) = 4.
Proof. vm_compute. repeat split. Qed.

(** C3. A TCP response cut down to three bytes is malformed
    ([modbus_tcp_frm_parse] returns 0), yet with MBAP checking compiled out
    [modbus_write_single_tcp] reports success (1): the TCP transactions only
    give up on a negative parse result.  The RTU transaction returns 0 on
    the same bytes. *)
Theorem tcp_malformed_response_accepted :
  (forall b frm,
      fst (modbus_tcp_frm_parse modbus_pdu_parse b 3 frm MB_PDU_TYPE_RSP) = 0)
  /\ fst (fst (modbus_write_single_tcp link true false overlay
                 modbus_pdu_make modbus_pdu_parse modbus_send modbus_recv 0
                 (instance MB_PROT_TCP 0x11 None)
                 MODBUS_FC_WRITE_SINGLE_REGISTER 4005 996
                 (line [[0x00; 0x01; 0x00]]))) = 1
  /\ fst (fst (modbus_write_single_rtu link true overlay
                 modbus_rtu_frame_make modbus_rtu_frame_parse
                 modbus_send modbus_recv
                 (instance MB_PROT_RTU 0x11 None)
                 MODBUS_FC_WRITE_SINGLE_REGISTER 4005 996
                 (line [[0x00; 0x01; 0x00]]))) = 0.
Proof. split; [intros b frm; reflexivity|vm_compute; split; reflexivity]. Qed.

(** C7. Sixteen coils are requested over RTU and the slave answers with a
    well-formed read response of one data byte: [modbus_read_bits] returns
    1, the byte count of the response, not 16.  [modbus_read_regs] returns 0
    when the byte count does not fit the request. *)
Theorem read_bits_returns_byte_count :
  fst (fst (fst (modbus_read_bits link true true true true overlay overlay_ptr
                   modbus_pdu_make modbus_pdu_parse
                   modbus_rtu_frame_make modbus_rtu_frame_parse
                   modbus_send modbus_recv 0
                   (instance MB_PROT_RTU 1 None) 0 16 (repeat 0 4)
                   (line [[0x01; 0x01; 0x01; 0xFF; 0x11; 0xC8]])))) = 1
  /\ fst (fst (fst (modbus_read_regs link true true true true overlay
                      overlay_ptr modbus_pdu_make modbus_pdu_parse
                      modbus_rtu_frame_make modbus_rtu_frame_parse
                      modbus_send modbus_recv 0
                      (instance MB_PROT_RTU 1 None) 0 2 (repeat 0 4)
                      (line [[0x01; 0x03; 0x02; 0x12; 0x34; 0xB5; 0x33]]))))
     = 0.
Proof. vm_compute. split; reflexivity. Qed.

(** A write-single-register request (register 4005, value 996) sent to the
    broadcast address 0. *)
Definition broadcast_write : list Z :=
  [0x00; 0x06; 0x0F; 0xA5; 0x03; 0xE4; 0x9B; 0x97].

Definition no_frame : mb_rtu_frm_t :=
  {| frm_saddr := 0; rtu_pdu := pdu_exc 0 0 |}.

(** C4, the broadcast part fails.  A slave at address 1 with address
    checking receives the well-formed broadcast write above: nothing is
    sent, and the register keeps its value, whereas handing the parsed PDU to
    the dispatcher writes it.  The frame is dropped, not processed. *)
Lemma broadcast_frame_not_processed :
  fst (modbus_rtu_frame_parse broadcast_write 8 no_frame MB_PDU_TYPE_REQ) = 5
  /\ frm_saddr (snd (modbus_rtu_frame_parse broadcast_write 8 no_frame
                       MB_PDU_TYPE_REQ)) = 0
  /\ snd (modbus_slave_recv_deal_rtu link true overlay overlay_ptr
            modbus_rtu_frame_make modbus_rtu_frame_parse modbus_send no_frame
            (instance MB_PROT_RTU 1 (Some bank_cb)) broadcast_write 8 (line []))
     = line []
  /\ nth 5 (regs (snd (modbus_slave_pdu_deal link overlay overlay_ptr
                         (instance MB_PROT_RTU 1 (Some bank_cb))
                         (rtu_pdu (snd (modbus_rtu_frame_parse broadcast_write
                                          8 no_frame MB_PDU_TYPE_REQ)))
                         (line [])))) 0
     <> nth 5 (regs (line [])) 0.
Proof. vm_compute. repeat split. discriminate. Qed.

Lemma slave_rtu_address_mismatch_dropped_witness :
  modbus_slave_recv_deal_rtu link true overlay overlay_ptr
    modbus_rtu_frame_make modbus_rtu_frame_parse modbus_send no_frame
    (instance MB_PROT_RTU 1 (Some bank_cb)) broadcast_write 8 (line [])
  = (instance MB_PROT_RTU 1 (Some bank_cb), line []).
Proof.
  apply (slave_rtu_address_mismatch_dropped link overlay overlay_ptr
           modbus_rtu_frame_make modbus_rtu_frame_parse modbus_send no_frame
           (instance MB_PROT_RTU 1 (Some bank_cb)) broadcast_write 8 (line [])
           5 {| frm_saddr := 0; rtu_pdu := pdu_wr_single 6 4005 996 |}).
  - vm_compute. reflexivity.
  - simpl. lia.
Defined.

(** Scenario 3 of the spec: value 0x0100 for coil 10, with the default
    callbacks registered. *)
Lemma write_coil_illegal_value_witness :
  modbus_slave_pdu_deal link overlay overlay_ptr
    (instance MB_PROT_RTU 1 (Some (mb_cb_table link 0)))
    (pdu_wr_single MODBUS_FC_WRITE_SINGLE_COIL 10 0x0100) (line [])
  = (pdu_exc 0x85 0x03, instance MB_PROT_RTU 1 (Some (mb_cb_table link 0)),
     line []).
Proof.
  apply (write_coil_illegal_value link overlay overlay_ptr
           (instance MB_PROT_RTU 1 (Some (mb_cb_table link 0)))
           (mb_cb_table link 0) (modbus_port_write_coil link) 10 0x0100
           (line [])).
  - reflexivity.
  - reflexivity.
  - lia.
  - lia.
Defined.

(** Register 4005 holds 113 = 0x0071; the masks 0x00F0 and 0x0F0F give
    0x0F7F = 3967. *)
Lemma mask_write_read_modify_write_witness :
  snd (snd (modbus_slave_pdu_deal (link * list cb_call) overlay overlay_ptr
              (instance MB_PROT_RTU 1 (Some (traced bank_cb)))
              (pdu_mask_wr MODBUS_FC_MASK_WRITE_REGISTER 4005 0x00F0 0x0F0F)
              (line [], [])))
  = [Call_read_hold 4005 0 113; Call_write_hold 4005 3967 0].
Proof.
  apply (mask_write_read_modify_write link overlay overlay_ptr
           (instance MB_PROT_RTU 1 (Some (traced bank_cb))) bank_cb
           bank_read_hold bank_write_hold 4005 0x00F0 0x0F0F (line [])
           0 113 (line [])).
  - reflexivity.
  - reflexivity.
  - reflexivity.
  - lia.
  - lia.
  - reflexivity.
  - lia.
Defined.





(** ** Transport backend: life cycle, writing and flushing

    [modbus_backend_open], [modbus_backend_close],
    [modbus_backend_timeout_config], [modbus_backend_write] and
    [modbus_backend_flush].  A call returns its value together with the
    backend structure and the environment it leaves. *)

Module Lifecycle.

Import Backend.

#[local] Arguments ops {W}.
#[local] Arguments ack_tmo_ms {W}.
#[local] Arguments byte_tmo_ms {W}.
#[local] Arguments hinst {W}.
#[local] Arguments open {W}.
#[local] Arguments close {W}.
#[local] Arguments read {W}.
#[local] Arguments write {W}.
#[local] Arguments flush {W}.

Section Calls.

Variable W : Type.
Variable modbus_port_get_ms : W -> Z * W.
Variable modbus_port_delay_ms : Z -> W -> W.

Definition set_hinst (backend : mb_backend_t W) (h : option Z)
  : mb_backend_t W :=
  {| ops := ops backend; ack_tmo_ms := ack_tmo_ms backend;
     byte_tmo_ms := byte_tmo_ms backend; hinst := h |}.

Definition modbus_backend_open (backend : option (mb_backend_t W)) (w : W)
  : Z * option (mb_backend_t W) * W :=
  match backend with
  | None => (-1, None, w)
  | Some bk =>
      match hinst bk with
      | Some _ => (0, Some bk, w)
      | None =>
          match ops bk with
          | None => (-1, Some bk, w)
          | Some o =>
              match open o with
              | None => (-1, Some bk, w)
              | Some port_open =>
                  let (h, w1) := port_open w in
                  match h with
                  | None => (-1, Some (set_hinst bk h), w1)
                  | Some _ => (0, Some (set_hinst bk h), w1)
                  end
              end
          end
      end
  end.

Definition modbus_backend_close (backend : option (mb_backend_t W)) (w : W)
  : Z * option (mb_backend_t W) * W :=
  match backend with
  | None => (-1, None, w)
  | Some bk =>
      match hinst bk with
      | None => (0, Some bk, w)
      | Some h =>
          match ops bk with
          | None => (-1, Some bk, w)
          | Some o =>
              match close o with
              | None => (-1, Some bk, w)
              | Some port_close =>
                  let (rc, w1) := port_close h w in
                  if negb (rc =? 0) then (-1, Some bk, w1)
                  else (0, Some (set_hinst bk None), w1)
              end
          end
      end
  end.

Definition modbus_backend_timeout_config (backend : option (mb_backend_t W))
           (ack byte : Z) : Z * option (mb_backend_t W) :=
  match backend with
  | None => (-1, None)
  | Some bk =>
      (0, Some {| ops := ops bk; ack_tmo_ms := ack; byte_tmo_ms := byte;
                  hinst := hinst bk |})
  end.

Definition modbus_backend_write (backend : option (mb_backend_t W))
           (buf : option (list Z)) (size : Z) (w : W) : Z * W :=
  match backend, buf with
  | Some bk, Some bytes =>
      if size <=? 0 then (-1, w)
      else
        match hinst bk with
        | None => (-1, w)
        | Some h =>
            match ops bk with
            | None => (-1, w)
            | Some o =>
                match write o with
                | None => (-1, w)
                | Some port_write => port_write h bytes size w
                end
            end
        end
  | _, _ => (-1, w)
  end.

Definition modbus_backend_flush (backend : option (mb_backend_t W)) (w : W)
  : Z * W :=
  match backend with
  | None => (-1, w)
  | Some bk =>
      match hinst bk with
      | None => (-1, w)
      | Some h =>
          match ops bk with
          | None => (-1, w)
          | Some o =>
              match flush o with
              | None => (-1, w)
              | Some port_flush => port_flush h w
              end
          end
      end
  end.

(** Whether the backend holds a handle ([hinst != NULL]). *)
Definition is_open (backend : option (mb_backend_t W)) : bool :=
  match backend with
  | Some bk => match hinst bk with Some _ => true | None => false end
  | None => false
  end.

(** *** Opening and closing *)

(** X1. [modbus_backend_open] returns 0 exactly when the backend holds a
    handle afterwards and -1 otherwise; it keeps the operation table and the
    timeouts; on a backend that is already open it returns 0 without calling
    the port and without replacing the handle. *)
Theorem backend_open_outcome :
  forall (bk : mb_backend_t W) (w : W),
    let res := modbus_backend_open (Some bk) w in
    (fst (fst res) = 0 /\ is_open (snd (fst res)) = true \/
     fst (fst res) = -1 /\ is_open (snd (fst res)) = false) /\
    (exists b, snd (fst res) = Some b /\ ops b = ops bk /\
               ack_tmo_ms b = ack_tmo_ms bk /\
               byte_tmo_ms b = byte_tmo_ms bk) /\
    (is_open (Some bk) = true -> res = (0, Some bk, w)).
Proof.
  intros bk w. unfold modbus_backend_open, is_open.
  destruct (hinst bk) as [h|] eqn:Hh.
  - cbn. rewrite Hh. repeat split; eauto.
  - destruct (ops bk) as [o|] eqn:Ho.
    2:{ cbn. rewrite Hh. split; [right; split; reflexivity|].
        split; [eauto|discriminate]. }
    destruct (open o) as [f|].
    2:{ cbn. rewrite Hh. split; [right; split; reflexivity|].
        split; [eauto|discriminate]. }
    destruct (f w) as [[h1|] w1]; cbn.
    + split; [left; split; reflexivity|]. split; [|discriminate].
      eexists. split; [reflexivity|]. cbn. auto.
    + split; [right; split; reflexivity|]. split; [|discriminate].
      eexists. split; [reflexivity|]. cbn. auto.
Qed.

(** X2. [modbus_backend_close] returns 0 exactly when the backend is closed
    afterwards.  When it returns -1 the backend is unchanged and still holds
    its handle, so a failed close can be retried.  On a backend that is
    already closed it returns 0 without calling the port. *)
Theorem backend_close_outcome :
  forall (bk : mb_backend_t W) (w : W),
    let res := modbus_backend_close (Some bk) w in
    (fst (fst res) = 0 /\ is_open (snd (fst res)) = false \/
     fst (fst res) = -1 /\ snd (fst res) = Some bk /\
     is_open (Some bk) = true) /\
    (is_open (Some bk) = false -> res = (0, Some bk, w)).
Proof.
  intros bk w. unfold modbus_backend_close, is_open.
  destruct (hinst bk) as [h|] eqn:Hh.
  2:{ cbn. rewrite Hh. split; [left; split; reflexivity|reflexivity]. }
  destruct (ops bk) as [o|].
  2:{ cbn. split; [right; repeat split; reflexivity|discriminate]. }
  destruct (close o) as [f|].
  2:{ cbn. split; [right; repeat split; reflexivity|discriminate]. }
  destruct (f h w) as [rc w1]. destruct (rc =? 0); cbn.
  - split; [left; split; reflexivity|discriminate].
  - split; [right; repeat split; reflexivity|discriminate].
Qed.

(** X3. Opening a closed backend and closing it again, both with success,
    gives back the backend as it was; the port's [open] and [close] ran once
    each, in this order, [close] on the handle that [open] returned. *)
Theorem backend_open_close_round_trip :
  forall (bk bk1 bk2 : mb_backend_t W) (w w1 w2 : W),
    is_open (Some bk) = false ->
    modbus_backend_open (Some bk) w = (0, Some bk1, w1) ->
    modbus_backend_close (Some bk1) w1 = (0, Some bk2, w2) ->
    bk2 = bk /\
    exists o port_open port_close h,
      ops bk = Some o /\ open o = Some port_open /\
      close o = Some port_close /\
      port_open w = (Some h, w1) /\ port_close h w1 = (0, w2).
Proof.
  intros bk bk1 bk2 w w1 w2 Hclosed Hopen Hclose.
  unfold is_open in Hclosed. unfold modbus_backend_open in Hopen.
  destruct (hinst bk) as [h0|] eqn:Hh; [discriminate|].
  destruct (ops bk) as [o|] eqn:Ho; [|discriminate].
  destruct (open o) as [f|] eqn:Hf; [|discriminate].
  destruct (f w) as [[h|] wa] eqn:Hfw; [|discriminate].
  inversion Hopen; subst bk1 wa. clear Hopen.
  unfold modbus_backend_close in Hclose. cbn [set_hinst hinst ops] in Hclose.
  rewrite Ho in Hclose.
  destruct (close o) as [g|] eqn:Hg; [|discriminate].
  destruct (g h w1) as [rc wb] eqn:Hgh.
  destruct (rc =? 0) eqn:Hrc; cbn [negb] in Hclose; [|discriminate].
  apply Z.eqb_eq in Hrc. subst rc.
  inversion Hclose; subst bk2 wb. clear Hclose.
  split.
  - destruct bk as [o0 a b h1]. cbn in *. subst. reflexivity.
  - exists o, f, g, h. auto.
Qed.

(** X4. On a backend that is not open (no backend at all, or no handle),
    reading, writing and flushing return -1 and neither the environment nor
    the caller's buffer is touched. *)
Theorem closed_backend_io :
  forall (backend : option (mb_backend_t W)) (w : W),
    is_open backend = false ->
    (forall fuel buf bufsize,
        modbus_backend_read W modbus_port_get_ms modbus_port_delay_ms fuel
                            backend buf bufsize w = Some (-1, buf, w)) /\
    (forall buf size, modbus_backend_write backend buf size w = (-1, w)) /\
    modbus_backend_flush backend w = (-1, w).
Proof.
  intros backend w Hclosed. unfold is_open in Hclosed.
  destruct backend as [bk|].
  - destruct (hinst bk) as [h|] eqn:Hh; [discriminate|].
    repeat split.
    + intros fuel [m|] bufsize; cbn; [|reflexivity].
      destruct (bufsize <=? 0); [reflexivity|]. rewrite Hh. reflexivity.
    + intros [bytes|] size; cbn; [|reflexivity].
      destruct (size <=? 0); [reflexivity|]. rewrite Hh. reflexivity.
    + cbn. rewrite Hh. reflexivity.
  - repeat split.
Qed.

(** *** Reading: port errors and the bytes delivered *)

(** X5. A port error ends [modbus_backend_read] with -1 whatever was
    received before: after [n] rounds that went back to the loop head, with
    room left in the buffer, a negative result of the next port read makes
    the call return -1, not the count of the bytes already stored. *)
Theorem backend_read_port_error :
  forall (bk : mb_backend_t W) (o : mb_backend_ops_t W) (rd : port_read_t W)
         (h bufsize : Z) (buf : memory) (w0 : W) (n k : nat)
         (hist : list (Z * Z)) (pos told : Z) (buf' : memory) (w : W),
    ops bk = Some o -> read o = Some rd -> hinst bk = Some h ->
    0 < bufsize ->
    poll_rounds W modbus_port_get_ms modbus_port_delay_ms n rd bk h bufsize 0
                (fst (modbus_port_get_ms w0)) buf (snd (modbus_port_get_ms w0))
    = Some (hist, (pos, told, buf', w)) ->
    pos < bufsize ->
    fst (observe W modbus_port_get_ms rd h bufsize pos w) < 0 ->
    exists b e,
      modbus_backend_read W modbus_port_get_ms modbus_port_delay_ms
                          (n + S k) (Some bk) (Some buf) bufsize w0
      = Some (-1, b, e).
Proof.
  intros bk o rd h bufsize buf w0 n k hist pos told buf' w
         Hops Hread Hh Hsize Hrounds Hroom Herr.
  unfold modbus_backend_read.
  apply Z.leb_gt in Hsize. rewrite Hsize, Hh, Hops, Hread.
  destruct (modbus_port_get_ms w0) as [t0 w1]. cbn [fst snd] in Hrounds.
  erewrite read_loop_after_rounds by exact Hrounds.
  cbn [read_loop]. apply Z.ltb_lt in Hroom. rewrite Hroom.
  unfold read_round. unfold observe in Herr.
  destruct (rd h (bufsize - pos) w) as [[len data] w2]. cbn [fst] in Herr.
  apply Z.ltb_lt in Herr. rewrite Herr. eauto.
Qed.

(** The chunks handed over by the port reads of a run of the loop, in the
    order of the reads. *)
Fixpoint read_chunks (fuel : nat) (rd : port_read_t W)
         (backend : mb_backend_t W) (h bufsize pos told_ms : Z)
         (buf : memory) (w : W) : list (list Z) :=
  match fuel with
  | O => []
  | S fuel' =>
      if pos <? bufsize then
        let data := snd (fst (rd h (bufsize - pos) w)) in
        match read_round W modbus_port_get_ms modbus_port_delay_ms rd backend
                         h bufsize pos told_ms buf w with
        | Done _ _ _ _ => [data]
        | Again _ pos' told' buf' w' =>
            data :: read_chunks fuel' rd backend h bufsize pos' told' buf' w'
        end
      else []
  end.

(** A port [read] that returns the number of bytes it stored. *)
Definition port_read_exact (rd : port_read_t W) : Prop :=
  forall h size w,
    0 <= fst (fst (rd h size w)) ->
    Z.of_nat (length (snd (fst (rd h size w)))) = fst (fst (rd h size w)).

Lemma read_loop_bytes :
  forall fuel rd bk h bufsize pos told buf w r buf' w' acc,
    port_read_exact rd ->
    pos = Z.of_nat (length acc) ->
    (forall a, 0 <= a < pos -> buf a = nth (Z.to_nat a) acc 0) ->
    read_loop W modbus_port_get_ms modbus_port_delay_ms fuel rd bk h bufsize
              pos told buf w = Some (r, buf', w') ->
    0 <= r ->
    r = Z.of_nat
          (length (acc ++ concat (read_chunks fuel rd bk h bufsize pos told
                                              buf w))) /\
    forall a, 0 <= a < r ->
      buf' a = nth (Z.to_nat a)
                   (acc ++ concat (read_chunks fuel rd bk h bufsize pos told
                                               buf w)) 0.
Proof.
  induction fuel as [|fuel IH];
    intros rd bk h bufsize pos told buf w r buf' w' acc Hex Hpos Hbuf H Hr;
    cbn [read_loop read_chunks] in *; [discriminate|].
  destruct (pos <? bufsize) eqn:Hlt.
  2:{ inversion H; subst r buf' w'. cbn [concat]. rewrite app_nil_r.
      split; [exact Hpos|exact Hbuf]. }
  pose proof (Hex h (bufsize - pos) w) as Hlen.
  set (chunk := snd (fst (rd h (bufsize - pos) w))) in *.
  assert (Hstep : forall a,
             0 <= a < pos + Z.of_nat (length chunk) ->
             store_bytes buf pos chunk a
             = nth (Z.to_nat a) (acc ++ chunk) 0).
  { intros a Ha. unfold store_bytes.
    destruct (pos <=? a) eqn:H1; cbn [andb].
    - apply Z.leb_le in H1.
      assert (H2 : (a <? pos + Z.of_nat (length chunk)) = true)
        by (apply Z.ltb_lt; lia).
      rewrite H2. rewrite app_nth2 by lia. f_equal. lia.
    - apply Z.leb_gt in H1. rewrite app_nth1 by lia. apply Hbuf. lia. }
  subst chunk.
  unfold read_round in *.
  destruct (rd h (bufsize - pos) w) as [[len data] w1]. cbn [fst snd] in *.
  destruct (len <? 0) eqn:Hneg.
  { inversion H; subst r. lia. }
  apply Z.ltb_ge in Hneg. specialize (Hlen Hneg).
  destruct (modbus_port_get_ms w1) as [now w2].
  destruct (0 <? len) eqn:Hsome.
  { eapply (IH _ _ _ _ _ _ _ _ _ _ _ (acc ++ data)) in H;
      [|exact Hex|rewrite length_app; lia| |exact Hr].
    - rewrite <- app_assoc in H. exact H.
    - intros a Ha. apply Hstep. lia. }
  apply Z.ltb_ge in Hsome.
  assert (Hnil : data = []) by (destruct data; [reflexivity|cbn in Hlen; lia]).
  subst data.
  assert (Hsame : forall a, 0 <= a < pos ->
                            store_bytes buf pos [] a = nth (Z.to_nat a) acc 0).
  { intros a Ha. rewrite store_bytes_outside by (cbn; lia). apply Hbuf, Ha. }
  destruct (negb (pos =? 0));
    [destruct (byte_tmo_ms bk <? _)|destruct (ack_tmo_ms bk <? _)].
  all: try (inversion H; subst r buf' w'; cbn [concat app];
            rewrite app_nil_r; split; [exact Hpos|exact Hsame]).
  all: eapply (IH _ _ _ _ _ _ _ _ _ _ _ acc) in H;
    [|exact Hex|exact Hpos|exact Hsame|exact Hr]; cbn [concat app]; exact H.
Qed.

(** X6. With a port that returns the number of bytes it stored, a call of
    [modbus_backend_read] that returns [r >= 0] returns the total length of
    the chunks the port handed over, and [buf[0..r)] holds these chunks
    one after the other in the order they were read. *)
Theorem backend_read_bytes_in_order :
  forall (bk : mb_backend_t W) (o : mb_backend_ops_t W) (rd : port_read_t W)
         (h bufsize : Z) (buf : memory) (w0 : W) (fuel : nat)
         (r : Z) (buf' : memory) (w' : W),
    ops bk = Some o -> read o = Some rd -> hinst bk = Some h ->
    0 < bufsize ->
    port_read_exact rd ->
    modbus_backend_read W modbus_port_get_ms modbus_port_delay_ms fuel
                        (Some bk) (Some buf) bufsize w0
    = Some (r, Some buf', w') ->
    0 <= r ->
    let chunks := read_chunks fuel rd bk h bufsize 0
                              (fst (modbus_port_get_ms w0)) buf
                              (snd (modbus_port_get_ms w0)) in
    r = Z.of_nat (length (concat chunks)) /\
    forall a, 0 <= a < r -> buf' a = nth (Z.to_nat a) (concat chunks) 0.
Proof.
  intros bk o rd h bufsize buf w0 fuel r buf' w' Hops Hread Hh Hsize Hex H Hr.
  unfold modbus_backend_read in H.
  apply Z.leb_gt in Hsize. rewrite Hsize, Hh, Hops, Hread in H.
  destruct (modbus_port_get_ms w0) as [t0 w1]. cbn [fst snd].
  destruct (read_loop W modbus_port_get_ms modbus_port_delay_ms fuel rd bk h
                      bufsize 0 t0 buf w1) as [[[r1 m1] e1]|] eqn:Hloop;
    [|discriminate].
  inversion H; subst r1 m1 e1. clear H.
  apply (read_loop_bytes _ _ _ _ _ _ _ _ _ _ _ _ []) in Hloop;
    [exact Hloop|exact Hex|reflexivity|intros a Ha; lia|exact Hr].
Qed.

(** *** Reading: the call returns *)

(** An environment with a clock [clock] that [modbus_port_get_ms] reports
    without moving it, that no port read moves backwards or forward by more
    than [D], and that a delay of 2 ms moves forward by at least 1 and at
    most [D]. *)
Definition steady_clock (clock : W -> Z) (rd : port_read_t W) (D : Z) : Prop :=
  (forall w, fst (modbus_port_get_ms w) = clock w /\
             clock (snd (modbus_port_get_ms w)) = clock w) /\
  (forall h size w, clock w <= clock (snd (rd h size w)) <= clock w + D) /\
  (forall w, clock w + 1 <= clock (modbus_port_delay_ms 2 w) <= clock w + D).

Lemma read_loop_returns :
  forall clock D rd bk h bufsize,
    steady_clock clock rd D ->
    0 <= ack_tmo_ms bk -> 0 <= byte_tmo_ms bk ->
    Z.max (ack_tmo_ms bk) (byte_tmo_ms bk) + 2 * D < 2 ^ 31 ->
    forall fuel pos told buf w,
      0 <= clock w - told <= Z.max (ack_tmo_ms bk) (byte_tmo_ms bk) + D ->
      (1 <= fuel)%nat ->
      (pos < bufsize ->
       (bufsize - pos) * (Z.max (ack_tmo_ms bk) (byte_tmo_ms bk) + D + 2)
       + (Z.max (ack_tmo_ms bk) (byte_tmo_ms bk) + D + 1 - (clock w - told))
       < Z.of_nat fuel) ->
      exists res,
        read_loop W modbus_port_get_ms modbus_port_delay_ms fuel rd bk h
                  bufsize pos told buf w = Some res.
Proof.
  intros clock D rd bk h bufsize (Hget & Hrd & Hdl) Hack Hbyte Hint.
  set (T := Z.max (ack_tmo_ms bk) (byte_tmo_ms bk)) in *.
  assert (HT : ack_tmo_ms bk <= T /\ byte_tmo_ms bk <= T /\ 0 <= T)
    by (subst T; lia).
  induction fuel as [|fuel IH]; intros pos told buf w Hinv Hfuel Hmu; [lia|].
  cbn [read_loop]. destruct (pos <? bufsize) eqn:Hlt; [|eauto].
  apply Z.ltb_lt in Hlt. specialize (Hmu Hlt).
  unfold read_round.
  pose proof (Hrd h (bufsize - pos) w) as Hr1.
  destruct (rd h (bufsize - pos) w) as [[len data] w1]. cbn [snd] in Hr1.
  destruct (len <? 0) eqn:Hneg; [eauto|].
  pose proof (Hget w1) as (Hg1 & Hg2).
  destruct (modbus_port_get_ms w1) as [now w2]. cbn [fst snd] in Hg1, Hg2.
  assert (HD : 1 <= D) by (pose proof (Hdl w); lia).
  assert (Hprod : T + D + 2 <= (bufsize - pos) * (T + D + 2)) by nia.
  destruct (0 <? len) eqn:Hsome.
  - apply Z.ltb_lt in Hsome. apply IH; [lia|lia|].
    intros Hlt'.
    assert ((bufsize - (pos + len)) * (T + D + 2)
            <= (bufsize - pos) * (T + D + 2) - (T + D + 2)) by nia.
    lia.
  - rewrite int32_id by lia.
    pose proof (Hdl w2) as Hd2.
    assert (Hnext : forall tmo,
               tmo <= T -> (tmo <? now - told) = false ->
               exists res,
                 read_loop W modbus_port_get_ms modbus_port_delay_ms fuel rd
                           bk h bufsize pos told
                           (store_bytes buf pos data)
                           (modbus_port_delay_ms 2 w2) = Some res).
    { intros tmo Htmo Hno. apply Z.ltb_ge in Hno.
      apply IH; [lia|lia|]. intros _. lia. }
    destruct (negb (pos =? 0)).
    + destruct (byte_tmo_ms bk <? now - told) eqn:Hb; [eauto|].
      apply (Hnext (byte_tmo_ms bk)); [lia|exact Hb].
    + destruct (ack_tmo_ms bk <? now - told) eqn:Ha; [eauto|].
      apply (Hnext (ack_tmo_ms bk)); [lia|exact Ha].
Qed.

(** X7. [modbus_backend_read] returns.  With timeouts that are not
    negative and a clock that moves while the reader sleeps (by at least
    1 ms and at most [D] per delay, by at most [D] per port read, with
    [max(ack, byte) + 2 D] below [2^31]), the loop condition is evaluated at
    most [(bufsize + 1) * (max(ack, byte) + D + 2)] times: any such bound on
    the number of rounds gives a result. *)
Theorem backend_read_returns :
  forall (backend : option (mb_backend_t W)) (buf : option memory)
         (bufsize : Z) (w0 : W) (clock : W -> Z) (D : Z) (fuel : nat),
    (forall bk o rd,
        backend = Some bk -> ops bk = Some o -> read o = Some rd ->
        steady_clock clock rd D /\
        0 <= ack_tmo_ms bk /\ 0 <= byte_tmo_ms bk /\
        Z.max (ack_tmo_ms bk) (byte_tmo_ms bk) + 2 * D < 2 ^ 31 /\
        (bufsize + 1) * (Z.max (ack_tmo_ms bk) (byte_tmo_ms bk) + D + 2)
        <= Z.of_nat fuel) ->
    exists r buf' w',
      modbus_backend_read W modbus_port_get_ms modbus_port_delay_ms fuel
                          backend buf bufsize w0 = Some (r, buf', w').
Proof.
  intros backend buf bufsize w0 clock D fuel Henv.
  unfold modbus_backend_read.
  destruct backend as [bk|]; [|eauto].
  destruct buf as [m|]; [|eauto].
  destruct (bufsize <=? 0) eqn:Hsize; [eauto|]. apply Z.leb_gt in Hsize.
  destruct (hinst bk) as [h|]; [|eauto].
  destruct (ops bk) as [o|] eqn:Hops; [|eauto].
  destruct (read o) as [rd|] eqn:Hrd; [|eauto].
  destruct (Henv bk o rd eq_refl Hops Hrd)
    as (Hclk & Hack & Hbyte & Hint & Hfuel).
  pose proof Hclk as (Hget & _ & Hdl).
  pose proof (Hget w0) as (Hg1 & Hg2).
  destruct (modbus_port_get_ms w0) as [t0 w1]. cbn [fst snd] in Hg1, Hg2.
  assert (HD : 1 <= D) by (pose proof (Hdl w0); lia).
  destruct (read_loop_returns clock D rd bk h bufsize Hclk Hack Hbyte Hint
                              fuel 0 t0 m w1) as [[[r m'] w'] Hres].
  - lia.
  - nia.
  - intros _. nia.
  - rewrite Hres. eauto.
Qed.

(** X8. A backend whose operation table has no [open] function (the table
    [mb_port_sock_ops] of a backend that adopts a connected socket) is opened
    by nothing but the handle it was created with: while it holds the handle
    [modbus_backend_open] returns 0 without any port call, and once
    [modbus_backend_close] has succeeded every later
    [modbus_backend_open] returns -1 and leaves it closed. *)
Theorem backend_without_open_stays_closed :
  forall (bk : mb_backend_t W) (o : mb_backend_ops_t W) (w : W),
    ops bk = Some o -> open o = None ->
    (is_open (Some bk) = true ->
     modbus_backend_open (Some bk) w = (0, Some bk, w)) /\
    (forall bk' w',
        modbus_backend_close (Some bk) w = (0, Some bk', w') ->
        forall w2, modbus_backend_open (Some bk') w2 = (-1, Some bk', w2)).
Proof.
  intros bk o w Hops Hopen. split.
  - unfold is_open, modbus_backend_open.
    destruct (hinst bk); [reflexivity|discriminate].
  - intros bk' w' Hclose w2. unfold modbus_backend_close in Hclose.
    rewrite Hops in Hclose.
    assert (Hbk' : hinst bk' = None /\ ops bk' = Some o).
    { destruct (hinst bk) as [h|] eqn:Hh.
      - destruct (close o) as [f|]; [|discriminate].
        destruct (f h w) as [rc w1].
        destruct (negb (rc =? 0)); [discriminate|].
        inversion Hclose; subst. cbn. auto.
      - inversion Hclose; subst. auto. }
    destruct Hbk' as (Hh' & Ho').
    unfold modbus_backend_open. rewrite Hh', Ho', Hopen. reflexivity.
Qed.

End Calls.

(** *** The RTU and TCP ports

    [modbus_port_rtu_*] and [modbus_port_tcp_*] over the RT-Thread device,
    pin and socket calls they make, which are operations of the environment.
    The parameter structures have the fields the port functions read.  Log
    output is not modelled. *)

Record mb_backend_param_rtu_t := {
  rtu_dev : list Z;
  rtu_baudrate : Z;
  rtu_parity : Z;
  rtu_pin : Z;
  rtu_lvl : Z
}.

Record mb_backend_param_tcp_t := { tcp_host : list Z; tcp_port : Z }.

(** An integer converted to a pointer: the null pointer for 0. *)
Definition handle_of_int (i : Z) : option Z := if i =? 0 then None else Some i.

(** [! lvl] *)
Definition c_not (lvl : Z) : Z := if lvl =? 0 then 1 else 0.

(** The word kept in [dev->user_data]: a marker in the high half, the pin
    number and the active level in the low half. *)
Definition rtu_user_data (pin lvl : Z) : Z :=
  (0xABCD0000 + Z.land (Z.shiftl pin 1) 0xFFFF + (if lvl =? 0 then 0 else 1))
    mod 2 ^ 32.

Lemma land_high_half :
  forall v, 0 <= v < 2 ^ 32 ->
            Z.land v 0xFFFF0000 = Z.shiftl (Z.shiftr v 16) 16.
Proof.
  intros v Hv. apply Z.bits_inj'. intros n Hn. rewrite Z.land_spec.
  change 0xFFFF0000 with (Z.shiftl (Z.ones 16) 16).
  destruct (Z_lt_le_dec n 16) as [Hlow|Hhigh].
  - rewrite !Z.shiftl_spec_low by lia. apply andb_false_r.
  - rewrite !Z.shiftl_spec by lia. rewrite Z.shiftr_spec by lia.
    replace (n - 16 + 16) with n by lia.
    destruct (Z_lt_le_dec n 32) as [Hin|Hout].
    + rewrite Z.ones_spec_low by lia. apply andb_true_r.
    + rewrite Z.ones_spec_high by lia. rewrite andb_false_r.
      destruct (Z.eq_dec v 0) as [->|Hnz]; [symmetry; apply Z.bits_0|].
      symmetry. apply Z.bits_above_log2; [lia|].
      assert (Z.log2 v < 32); [|lia].
      apply Z.log2_lt_pow2; lia.
Qed.

(** What [modbus_port_rtu_write] reads back from the word that
    [modbus_port_rtu_open] stored. *)
Lemma rtu_user_data_decode :
  forall pin lvl,
    0 <= pin < 32768 ->
    Z.land (rtu_user_data pin lvl) 0xFFFF0000 = 0xABCD0000 /\
    Z.shiftr (Z.land (rtu_user_data pin lvl) 0xFFFF) 1 = pin /\
    Z.land (rtu_user_data pin lvl) 0x01 = (if lvl =? 0 then 0 else 1).
Proof.
  intros pin lvl Hpin. unfold rtu_user_data.
  assert (Hsh : Z.land (Z.shiftl pin 1) 0xFFFF = 2 * pin).
  { rewrite Z.shiftl_mul_pow2 by lia. change 0xFFFF with (Z.ones 16).
    rewrite Z.land_ones by lia.
    change (2 ^ 1) with 2. change (2 ^ 16) with 65536.
    rewrite Z.mod_small; lia. }
  rewrite Hsh.
  set (b := if lvl =? 0 then 0 else 1).
  assert (Hb : 0 <= b <= 1) by (subst b; destruct (lvl =? 0); lia).
  change (2 ^ 32) with 4294967296.
  rewrite Z.mod_small by lia.
  set (v := 0xABCD0000 + 2 * pin + b).
  assert (Hlow : Z.land v 0xFFFF = 2 * pin + b).
  { change 0xFFFF with (Z.ones 16). rewrite Z.land_ones by lia.
    change (2 ^ 16) with 65536. symmetry.
    apply Z.mod_unique with (q := 0xABCD); subst v; lia. }
  split; [|split].
  - rewrite land_high_half by (change (2 ^ 32) with 4294967296; subst v; lia).
    rewrite Z.shiftr_div_pow2, Z.shiftl_mul_pow2 by lia.
    change (2 ^ 16) with 65536.
    replace (v / 65536) with 0xABCD; [reflexivity|].
    apply Z.div_unique with (r := 2 * pin + b); subst v; lia.
  - rewrite Hlow. rewrite Z.shiftr_div_pow2 by lia. change (2 ^ 1) with 2.
    symmetry. apply Z.div_unique with (r := b); lia.
  - change 0x01 with (Z.ones 1). rewrite Z.land_ones by lia.
    change (2 ^ 1) with 2. symmetry.
    apply Z.mod_unique with (q := 0x55E68000 + pin); subst v; lia.
Qed.

Section Ports.

Variable W : Type.

Variable rt_device_find : list Z -> W -> option Z * W.
Variable rt_device_control : Z -> Z -> Z -> W -> Z * W.
Variable rt_device_open : Z -> W -> Z * W.
Variable rt_device_close : Z -> W -> Z * W.
Variable rt_device_read : Z -> Z -> W -> Z * list Z * W.
Variable rt_device_write : Z -> list Z -> Z -> W -> Z * W.
Variable rt_pin_mode : Z -> W -> W.
Variable rt_pin_write : Z -> Z -> W -> W.
Variable user_data : Z -> W -> Z.
Variable set_user_data : Z -> Z -> W -> W.

Variable socket : W -> Z * W.
Variable gethostbyname : list Z -> W -> option Z * W.
Variable connect : Z -> Z -> Z -> W -> Z * W.
Variable closesocket : Z -> W -> Z * W.
Variable recv : Z -> Z -> W -> Z * list Z * W.
Variable send : Z -> list Z -> Z -> W -> Z * W.

Definition modbus_port_rtu_open (param : mb_backend_param_rtu_t) (w : W)
  : option Z * W :=
  let name := rtu_dev param in
  let (found, w1) := rt_device_find name w in
  match found with
  | None => (None, w1)
  | Some dev =>
      let (rc, w2) :=
        rt_device_control dev (rtu_baudrate param) (rtu_parity param) w1 in
      if rc <? 0 then (None, w2)
      else
        let (rc', w3) := rt_device_open dev w2 in
        if rc' <? 0 then (None, w3)
        else
          let pin := rtu_pin param in
          let lvl := rtu_lvl param in
          if 0 <=? pin then
            let ud := rtu_user_data pin lvl in
            let w4 := set_user_data dev ud w3 in
            let w5 := rt_pin_mode pin w4 in
            (Some dev, rt_pin_write pin (c_not lvl) w5)
          else (Some dev, w3)
  end.

Definition modbus_port_rtu_close (dev : Z) (w : W) : Z * W :=
  rt_device_close dev w.

Definition modbus_port_rtu_read (dev : Z) (bufsize : Z) (w : W)
  : Z * list Z * W :=
  let '(len, data, w1) := rt_device_read dev bufsize w in
  if len <? 0 then (-1, data, w1) else (len, data, w1).

Definition modbus_port_rtu_write (dev : Z) (buf : list Z) (size : Z) (w : W)
  : Z * W :=
  let ud := user_data dev w in
  let pin := if Z.land ud 0xFFFF0000 =? 0xABCD0000
             then Z.shiftr (Z.land ud 0xFFFF) 1 else -1 in
  let lvl := Z.land ud 0x01 in
  let w1 := if 0 <=? pin then rt_pin_write pin lvl w else w in
  let (len, w2) := rt_device_write dev buf size w1 in
  let w3 := if 0 <=? pin then rt_pin_write pin (c_not lvl) w2 else w2 in
  if len <? 0 then (-1, w3) else (len, w3).

(** [while (1)] with a bound on the number of reads. *)
Fixpoint modbus_port_rtu_flush (fuel : nat) (dev : Z) (w : W)
  : option (Z * W) :=
  match fuel with
  | O => None
  | S fuel' =>
      let '(len, _, w1) := rt_device_read dev 1 w in
      if len <? 0 then Some (-1, w1)
      else if len =? 0 then Some (0, w1)
      else modbus_port_rtu_flush fuel' dev w1
  end.

Definition modbus_port_tcp_open (param : mb_backend_param_tcp_t) (w : W)
  : option Z * W :=
  let (sock, w1) := socket w in
  if sock <? 0 then (None, w1)
  else
    let (host, w2) := gethostbyname (tcp_host param) w1 in
    match host with
    | None => let (_, w3) := closesocket sock w2 in (None, w3)
    | Some addr =>
        let (rc, w3) := connect sock addr (tcp_port param) w2 in
        if rc <? 0 then let (_, w4) := closesocket sock w3 in (None, w4)
        else (handle_of_int sock, w3)
    end.

Definition modbus_port_tcp_close (sock : Z) (w : W) : Z * W :=
  let (rc, w1) := closesocket sock w in
  (if rc =? 0 then 0 else -1, w1).

Definition modbus_port_tcp_read (sock : Z) (bufsize : Z) (w : W)
  : Z * list Z * W :=
  let '(len, data, w1) := recv sock bufsize w in
  if len =? 0 then (-1, data, w1)
  else if len <? 0 then (0, data, w1)
  else (len, data, w1).

Definition modbus_port_tcp_write (sock : Z) (buf : list Z) (size : Z) (w : W)
  : Z * W :=
  let (len, w1) := send sock buf size w in
  if len <=? 0 then (-1, w1) else (len, w1).

Fixpoint modbus_port_tcp_flush (fuel : nat) (sock : Z) (w : W)
  : option (Z * W) :=
  match fuel with
  | O => None
  | S fuel' =>
      let '(len, _, w1) := recv sock 1 w in
      if len =? 0 then Some (-1, w1)
      else if len <? 0 then Some (0, w1)
      else modbus_port_tcp_flush fuel' sock w1
  end.

(** X9. The RS-485 direction pin around a transmission.  When the device
    carries the word that [modbus_port_rtu_open] stores for a pin number in
    [0, 32767] and a level [lvl], [modbus_port_rtu_write] drives that pin to
    the active level (1 if [lvl] is not 0, else 0) before the device write
    and to the opposite level after it, also when the device write fails;
    the result is the device's count, or -1 if that is negative. *)
Theorem rtu_write_drives_de_pin :
  forall (pin lvl dev : Z) (buf : list Z) (size : Z) (w : W),
    0 <= pin < 32768 ->
    user_data dev w = rtu_user_data pin lvl ->
    modbus_port_rtu_write dev buf size w
    = (let active := if lvl =? 0 then 0 else 1 in
       let w1 := rt_pin_write pin active w in
       let (len, w2) := rt_device_write dev buf size w1 in
       let w3 := rt_pin_write pin (1 - active) w2 in
       (if len <? 0 then -1 else len, w3)).
Proof.
  intros pin lvl dev buf size w Hpin Hud. unfold modbus_port_rtu_write.
  rewrite Hud.
  destruct (rtu_user_data_decode pin lvl Hpin) as (Hmagic & Hp & Hl).
  rewrite Hmagic, Hp, Hl. rewrite Z.eqb_refl.
  assert (Hge : (0 <=? pin) = true) by (apply Z.leb_le; lia).
  rewrite Hge. cbv zeta.
  destruct (rt_device_write dev buf size _) as [len w2].
  assert (Hnot : c_not (if lvl =? 0 then 0 else 1)
                 = 1 - (if lvl =? 0 then 0 else 1))
    by (destruct (lvl =? 0); reflexivity).
  rewrite Hnot. destruct (len <? 0); reflexivity.
Qed.

End Ports.

(** *** Sockets created and closed by [modbus_port_tcp_open] *)

Inductive sock_event :=
| Sock_created (s : Z)
| Sock_closed (s : Z).

Section SocketTrace.

Variable W : Type.
Variable socket : W -> Z * W.
Variable gethostbyname : list Z -> W -> option Z * W.
Variable connect : Z -> Z -> Z -> W -> Z * W.
Variable closesocket : Z -> W -> Z * W.

(** The socket calls with a record of the descriptors they create (a
    negative result of [socket] creates none) and close. *)
Definition traced_socket (st : W * list sock_event)
  : Z * (W * list sock_event) :=
  let (s, w) := socket (fst st) in
  (s, (w, snd st ++ (if s <? 0 then [] else [Sock_created s]))).

Definition traced_closesocket (s : Z) (st : W * list sock_event)
  : Z * (W * list sock_event) :=
  let (rc, w) := closesocket s (fst st) in
  (rc, (w, snd st ++ [Sock_closed s])).

Definition traced_gethostbyname (name : list Z) (st : W * list sock_event)
  : option Z * (W * list sock_event) :=
  let (host, w) := gethostbyname name (fst st) in (host, (w, snd st)).

Definition traced_connect (s addr port : Z) (st : W * list sock_event)
  : Z * (W * list sock_event) :=
  let (rc, w) := connect s addr port (fst st) in (rc, (w, snd st)).

(** X10. [modbus_port_tcp_open] leaves no socket behind when it fails.  A
    handle is returned only for the one socket created, which stays open.
    When NULL is returned, either no socket was created, or the socket
    created was closed again (name resolution or connect failed), or the
    descriptor created and connected is 0, which converts to the null
    pointer. *)
Theorem tcp_open_releases_socket :
  forall (param : mb_backend_param_tcp_t) (w : W),
    let res := modbus_port_tcp_open (W * list sock_event) traced_socket
                 traced_gethostbyname traced_connect traced_closesocket
                 param (w, []) in
    match fst res with
    | Some s => snd (snd res) = [Sock_created s]
    | None =>
        snd (snd res) = [] \/
        (exists s, snd (snd res) = [Sock_created s; Sock_closed s]) \/
        snd (snd res) = [Sock_created 0]
    end.
Proof.
  intros param w. unfold modbus_port_tcp_open, traced_socket,
    traced_gethostbyname, traced_connect, traced_closesocket. cbn [fst snd].
  destruct (socket w) as [s w1].
  destruct (s <? 0) eqn:Hs; cbn [fst snd app]; [left; reflexivity|].
  destruct (gethostbyname (tcp_host param) w1) as [[addr|] w2]; cbn [fst snd].
  - destruct (connect s addr (tcp_port param) w2) as [rc w3].
    destruct (rc <? 0); cbn [fst snd].
    + destruct (closesocket s w3) as [rc' w4]. cbn. right. left. eauto.
    + unfold handle_of_int. destruct (s =? 0) eqn:Hz; cbn.
      * apply Z.eqb_eq in Hz. subst s. right. right. reflexivity.
      * reflexivity.
  - destruct (closesocket s w2) as [rc' w3]. cbn. right. left. eauto.
Qed.

End SocketTrace.

(** *** Concrete environments *)

(** A port that records its calls: 1 for [open], 2 for [close]. *)
Definition logging_ops : mb_backend_ops_t (list Z) :=
  {| open := Some (fun w => (Some 7, w ++ [1]));
     close := Some (fun h w => (0, w ++ [2]));
     read := None; write := None; flush := None |}.

Definition adopting_ops : mb_backend_ops_t (list Z) :=
  {| open := None;
     close := Some (fun h w => (0, w ++ [2]));
     read := None; write := None; flush := None |}.

Definition logging_backend (o : mb_backend_ops_t (list Z)) (h : option Z)
  : mb_backend_t (list Z) :=
  {| ops := Some o; ack_tmo_ms := 300; byte_tmo_ms := 32; hinst := h |}.

(** A driver that reports an error once its script is used up. *)
Definition failing_read (h size : Z) (w : script) : Z * list Z * script :=
  match rx w with
  | [] => (-1, [], w)
  | _ :: _ => script_read h size w
  end.

Definition failing_backend : mb_backend_t script :=
  {| ops := Some {| open := None; close := None; read := Some failing_read;
                    write := None; flush := None |};
     ack_tmo_ms := 300; byte_tmo_ms := 32; hinst := Some 1 |}.

Lemma script_read_exact : port_read_exact script script_read.
Proof.
  intros h size w _. unfold script_read.
  destruct (rx w) as [|c tl]; reflexivity.
Qed.

Lemma script_steady_clock :
  steady_clock script script_get_ms script_delay_ms clock script_read 2.
Proof.
  split; [|split].
  - intros w. split; reflexivity.
  - intros h size w. unfold script_read.
    destruct (rx w) as [|c tl]; cbn; lia.
  - intros w. cbn. lia.
Qed.

Lemma backend_open_outcome_witness :
  modbus_backend_open (list Z) (Some (logging_backend logging_ops (Some 7)))
                      [1]
  = (0, Some (logging_backend logging_ops (Some 7)), [1]).
Proof.
  apply (backend_open_outcome (list Z) (logging_backend logging_ops (Some 7))
                              [1]).
  reflexivity.
Defined.

Lemma backend_close_outcome_witness :
  modbus_backend_close (list Z) (Some (logging_backend logging_ops None)) []
  = (0, Some (logging_backend logging_ops None), []).
Proof.
  apply (backend_close_outcome (list Z) (logging_backend logging_ops None) []).
  reflexivity.
Defined.

Lemma backend_open_close_round_trip_witness :
  logging_backend logging_ops None = logging_backend logging_ops None /\
  exists o port_open port_close h,
    ops (logging_backend logging_ops None) = Some o /\
    open o = Some port_open /\ close o = Some port_close /\
    port_open [] = (Some h, [1]) /\ port_close h [1] = (0, [1; 2]).
Proof.
  apply (backend_open_close_round_trip (list Z)
           (logging_backend logging_ops None)
           (logging_backend logging_ops (Some 7))
           (logging_backend logging_ops None) [] [1] [1; 2]);
    reflexivity.
Defined.

Lemma closed_backend_io_witness :
  (forall fuel buf bufsize,
      modbus_backend_read script script_get_ms script_delay_ms fuel
        (Some (set_hinst script (script_backend 300 32) None)) buf bufsize
        {| clock := 0; rx := [[1]] |}
      = Some (-1, buf, {| clock := 0; rx := [[1]] |})) /\
  (forall buf size,
      modbus_backend_write script
        (Some (set_hinst script (script_backend 300 32) None)) buf size
        {| clock := 0; rx := [[1]] |}
      = (-1, {| clock := 0; rx := [[1]] |})) /\
  modbus_backend_flush script
    (Some (set_hinst script (script_backend 300 32) None))
    {| clock := 0; rx := [[1]] |}
  = (-1, {| clock := 0; rx := [[1]] |}).
Proof.
  apply (closed_backend_io script script_get_ms script_delay_ms
           (Some (set_hinst script (script_backend 300 32) None))).
  reflexivity.
Defined.

(** Two bytes arrive, then the driver fails: the call returns -1. *)
Lemma backend_read_port_error_witness :
  exists b e,
    modbus_backend_read script script_get_ms script_delay_ms (1 + 1)
      (Some failing_backend) (Some (fun _ => 0)) 8
      {| clock := 0; rx := [[1; 3]] |}
    = Some (-1, b, e).
Proof.
  eapply (backend_read_port_error script script_get_ms script_delay_ms
            failing_backend _ failing_read 1 8 (fun _ => 0)
            {| clock := 0; rx := [[1; 3]] |} 1 0);
    [reflexivity|reflexivity|reflexivity|lia|reflexivity| |];
    vm_compute; reflexivity.
Defined.

(** Two chunks of two bytes, then silence beyond the byte timeout. *)
Lemma backend_read_bytes_in_order_witness :
  exists buf' w',
    modbus_backend_read script script_get_ms script_delay_ms 5
      (Some (script_backend 300 3)) (Some (fun _ => 0)) 8
      {| clock := 0; rx := [[1; 3]; [0; 0]] |}
    = Some (4, Some buf', w') /\
    forall a, 0 <= a < 4 -> buf' a = nth (Z.to_nat a) [1; 3; 0; 0] 0.
Proof.
  eexists. eexists. split; [reflexivity|].
  refine (proj2 (backend_read_bytes_in_order script script_get_ms
                   script_delay_ms (script_backend 300 3) script_ops
                   script_read 1 8 (fun _ => 0)
                   {| clock := 0; rx := [[1; 3]; [0; 0]] |} 5 4 _ _
                   eq_refl eq_refl eq_refl _ script_read_exact eq_refl _));
    lia.
Defined.

Lemma backend_read_returns_witness :
  exists r buf' w',
    modbus_backend_read script script_get_ms script_delay_ms 2736
      (Some (script_backend 300 32)) (Some (fun _ => 0)) 8
      {| clock := 0; rx := [[1; 3]; []; [0; 0]] |}
    = Some (r, buf', w').
Proof.
  apply (backend_read_returns script script_get_ms script_delay_ms
           (Some (script_backend 300 32)) (Some (fun _ => 0)) 8
           {| clock := 0; rx := [[1; 3]; []; [0; 0]] |} clock 2).
  intros bk o rd Hbk Ho Hrd.
  inversion Hbk; subst bk. cbn in Ho. inversion Ho; subst o.
  cbn in Hrd. inversion Hrd; subst rd.
  split; [exact script_steady_clock|].
  cbn [script_backend ack_tmo_ms byte_tmo_ms].
  repeat split; lia.
Defined.

Lemma backend_without_open_stays_closed_witness :
  modbus_backend_open (list Z) (Some (logging_backend adopting_ops (Some 7)))
                      []
  = (0, Some (logging_backend adopting_ops (Some 7)), []) /\
  forall w2,
    modbus_backend_open (list Z) (Some (logging_backend adopting_ops None)) w2
    = (-1, Some (logging_backend adopting_ops None), w2).
Proof.
  destruct (backend_without_open_stays_closed (list Z)
              (logging_backend adopting_ops (Some 7)) adopting_ops [])
    as [H1 H2]; [reflexivity|reflexivity|].
  split; [apply H1; reflexivity|apply (H2 _ [2]); reflexivity].
Defined.

(** Pin 79, active high: three bytes are sent between the two pin writes. *)
Lemma rtu_write_drives_de_pin_witness :
  modbus_port_rtu_write (list (Z * Z))
    (fun dev buf size w => (size, w ++ [(-1, size)]))
    (fun pin lvl w => w ++ [(pin, lvl)])
    (fun dev w => rtu_user_data 79 1)
    5 [1; 2; 3] 3 []
  = (3, [(79, 1); (-1, 3); (79, 0)]).
Proof.
  etransitivity;
    [apply (rtu_write_drives_de_pin (list (Z * Z))
              (fun dev buf size w => (size, w ++ [(-1, size)]))
              (fun pin lvl w => w ++ [(pin, lvl)])
              (fun dev w => rtu_user_data 79 1)
              79 1 5 [1; 2; 3] 3 []); [lia|reflexivity]
    |reflexivity].
Defined.

End Lifecycle.

(** ** The TCP frame codec ([modbus_tcp.c]) *)

Lemma store_at_0 :
  forall l hdr, store l 0 hdr = hdr ++ skipn (length hdr) l.
Proof. intros l hdr. unfold store. reflexivity. Qed.

Lemma skipn_store :
  forall l n bytes,
    skipn n (store l n bytes) = bytes ++ skipn (n + length bytes) l.
Proof.
  intros l n bytes. unfold store.
  assert (Hlen : length (firstn n (l ++ repeat 0 (n - length l))) = n).
  { rewrite length_firstn, length_app, repeat_length. lia. }
  rewrite skipn_app, Hlen, Nat.sub_diag.
  rewrite skipn_all2 by lia. reflexivity.
Qed.

(** The two bytes of a [modbus_cvt_u16_put] read back as a 16-bit value. *)
Lemma cvt_u16_bytes :
  forall v, u8 (u8 (u16 v / 256)) * 256 + u8 (u8 (u16 v)) = u16 v.
Proof.
  intro v. pose proof (cvt_u16_roundtrip v []) as H.
  unfold modbus_cvt_u16_get, modbus_cvt_u16_put, byte_at in H.
  cbn [app nth] in H. exact H.
Qed.

Section TcpCodec.

Variable modbus_pdu_make : mb_pdu_t -> mb_pdu_type_t -> Z * list Z.
Variable modbus_pdu_parse :
  list Z -> Z -> mb_pdu_t -> mb_pdu_type_t -> Z * mb_pdu_t.

(** The buffer that [modbus_tcp_frm_make] leaves: the seven header bytes,
    the PDU bytes, and what the buffer held behind them. *)
Lemma tcp_frm_make_bytes :
  forall b frm type,
    snd (modbus_tcp_frm_make modbus_pdu_make b frm type)
    = modbus_cvt_u16_put (mbap_tid (mbap frm))
      ++ modbus_cvt_u16_put (mbap_pid (mbap frm))
      ++ modbus_cvt_u16_put (fst (modbus_pdu_make (tcp_pdu frm) type) + 1)
      ++ modbus_cvt_u8_put (mbap_did (mbap frm))
      ++ snd (modbus_pdu_make (tcp_pdu frm) type)
      ++ skipn (7 + length (snd (modbus_pdu_make (tcp_pdu frm) type))) b.
Proof.
  intros b frm type. unfold modbus_tcp_frm_make.
  destruct (modbus_pdu_make (tcp_pdu frm) type) as [n bytes]. cbn [fst snd].
  rewrite store_at_0.
  change (length (modbus_cvt_u16_put (mbap_tid (mbap frm))
                  ++ modbus_cvt_u16_put (mbap_pid (mbap frm))
                  ++ modbus_cvt_u16_put (n + 1)
                  ++ modbus_cvt_u8_put (mbap_did (mbap frm)))) with 7%nat.
  change (Z.to_nat MB_TCP_MBAP_SIZE) with 7%nat.
  rewrite skipn_store. rewrite <- !app_assoc. reflexivity.
Qed.

Lemma tcp_frm_make_fields :
  forall (b : list Z) (frm : mb_tcp_frm_t) (type : mb_pdu_type_t),
    let pdu_len := fst (modbus_pdu_make (tcp_pdu frm) type) in
    let bytes := snd (modbus_pdu_make (tcp_pdu frm) type) in
    let made := modbus_tcp_frm_make modbus_pdu_make b frm type in
    fst made = 7 + pdu_len /\
    modbus_cvt_u16_get (snd made) 0 = u16 (mbap_tid (mbap frm)) /\
    modbus_cvt_u16_get (snd made) 2 = u16 (mbap_pid (mbap frm)) /\
    modbus_cvt_u16_get (snd made) 4 = u16 (pdu_len + 1) /\
    modbus_cvt_u8_get (snd made) 6 = u8 (mbap_did (mbap frm)) /\
    skipn 7 (snd made) = bytes ++ skipn (7 + length bytes) b.
Proof.
  intros b frm type. cbv zeta. rewrite tcp_frm_make_bytes.
  split.
  { unfold modbus_tcp_frm_make.
    destruct (modbus_pdu_make (tcp_pdu frm) type) as [n bytes]. reflexivity. }
  unfold modbus_cvt_u16_get, modbus_cvt_u8_get, modbus_cvt_u16_put,
    modbus_cvt_u8_put, byte_at.
  cbn [app nth skipn].
  rewrite !cvt_u16_bytes.
  repeat split. apply u8_id, u8_range.
Qed.

(** X11. The header written by [modbus_tcp_frm_make].  Whatever the frame
    structure holds in its length field, the frame made has length
    [7 + pdu_len] and carries, big-endian, the transaction identifier and
    the protocol identifier of the structure (16 bits each), the length
    [pdu_len + 1], the unit identifier (8 bits) and then the PDU bytes as
    [modbus_pdu_make] produced them. *)
Theorem tcp_frm_make_header :
  forall (b : list Z) (frm : mb_tcp_frm_t) (type : mb_pdu_type_t),
    let pdu_len := fst (modbus_pdu_make (tcp_pdu frm) type) in
    let bytes := snd (modbus_pdu_make (tcp_pdu frm) type) in
    let made := modbus_tcp_frm_make modbus_pdu_make b frm type in
    fst made = 7 + pdu_len /\
    modbus_cvt_u16_get (snd made) 0 = u16 (mbap_tid (mbap frm)) /\
    modbus_cvt_u16_get (snd made) 2 = u16 (mbap_pid (mbap frm)) /\
    modbus_cvt_u16_get (snd made) 4 = u16 (pdu_len + 1) /\
    modbus_cvt_u8_get (snd made) 6 = u8 (mbap_did (mbap frm)) /\
    skipn 7 (snd made) = bytes ++ skipn (7 + length bytes) b.
Proof. exact tcp_frm_make_fields. Qed.

(** X12. Round trip.  If [modbus_pdu_parse] reads back what
    [modbus_pdu_make] wrote for the PDU of a frame (at least
    [MB_PDU_SIZE_MIN] bytes, whatever follows them in the buffer), then
    [modbus_tcp_frm_parse] applied to the frame that [modbus_tcp_frm_make]
    built, with the length it returned, returns the PDU length and gives
    the frame back: the same PDU, the identifiers reduced to their field
    widths, and the length field [pdu_len + 1]. *)
Theorem tcp_frm_round_trip :
  forall (b : list Z) (frm frm0 : mb_tcp_frm_t) (type : mb_pdu_type_t)
         (n : Z) (bytes : list Z),
    modbus_pdu_make (tcp_pdu frm) type = (n, bytes) ->
    MB_PDU_SIZE_MIN <= n ->
    (forall rest old,
        modbus_pdu_parse (bytes ++ rest) n old type = (n, tcp_pdu frm)) ->
    let made := modbus_tcp_frm_make modbus_pdu_make b frm type in
    modbus_tcp_frm_parse modbus_pdu_parse (snd made) (fst made) frm0 type
    = (n, {| mbap := {| mbap_tid := u16 (mbap_tid (mbap frm));
                        mbap_pid := u16 (mbap_pid (mbap frm));
                        mbap_dlen := u16 (n + 1);
                        mbap_did := u8 (mbap_did (mbap frm)) |};
             tcp_pdu := tcp_pdu frm |}).
Proof.
  intros b frm frm0 type n bytes Hmake Hmin Hparse. cbv zeta.
  pose proof (tcp_frm_make_fields b frm type) as H. cbv zeta in H.
  rewrite Hmake in H. cbn [fst snd] in H.
  destruct H as (Hlen & Htid & Hpid & Hdlen & Hdid & Hpdu).
  unfold modbus_tcp_frm_parse.
  rewrite Hlen, Htid, Hpid, Hdlen, Hdid, Hpdu.
  unfold MB_TCP_FRM_MIN, MB_TCP_MBAP_SIZE, MB_PDU_SIZE_MIN in *.
  assert (H1 : (7 + n <? 7 + 2) = false) by (apply Z.ltb_ge; lia).
  rewrite H1.
  replace (7 + n - (2 + 2 + 2 + 1)) with n by lia.
  rewrite Hparse.
  assert (H2 : (n <=? 0) = false) by (apply Z.leb_gt; lia).
  rewrite H2, Z.ltb_irrefl. reflexivity.
Qed.

(** X13. [modbus_tcp_frm_parse] does not validate the header.  Two buffers
    that agree from the eighth byte on give the same result and the same
    PDU, whatever their transaction, protocol and length fields hold.  A
    frame shorter than [MB_TCP_FRM_MIN] gives 0 and leaves the frame
    structure as it was, and a positive result never exceeds the number of
    bytes behind the header. *)
Theorem tcp_frm_parse_ignores_header :
  forall (b b' : list Z) (len : Z) (frm : mb_tcp_frm_t) (type : mb_pdu_type_t),
    skipn 7 b = skipn 7 b' ->
    let res := modbus_tcp_frm_parse modbus_pdu_parse b len frm type in
    let res' := modbus_tcp_frm_parse modbus_pdu_parse b' len frm type in
    fst res = fst res' /\
    tcp_pdu (snd res) = tcp_pdu (snd res') /\
    (len < MB_TCP_FRM_MIN -> res = (0, frm)) /\
    (0 < fst res -> MB_TCP_FRM_MIN <= len /\ fst res <= len - 7).
Proof.
  intros b b' len frm type Hb. cbv zeta. unfold modbus_tcp_frm_parse.
  rewrite <- Hb.
  destruct (len <? MB_TCP_FRM_MIN) eqn:Hlen.
  - cbn. repeat split; lia.
  - apply Z.ltb_ge in Hlen.
    destruct (modbus_pdu_parse (skipn 7 b) (len - (2 + 2 + 2 + 1))
                               (tcp_pdu frm) type) as [pdu_len p].
    destruct (pdu_len <=? 0) eqn:Hle; cbn [fst snd tcp_pdu].
    + apply Z.leb_le in Hle. repeat split; lia.
    + destruct (len - (2 + 2 + 2 + 1) <? pdu_len) eqn:Hrem;
        cbn [fst snd tcp_pdu].
      * repeat split; lia.
      * apply Z.ltb_ge in Hrem. repeat split; lia.
Qed.

End TcpCodec.

(** The request of the TCP master sample (29 registers from 4000) makes the
    round trip through the bench codec. *)
Lemma tcp_frm_round_trip_witness :
  modbus_tcp_frm_parse Bench.modbus_pdu_parse
    (snd (modbus_tcp_frm_make Bench.modbus_pdu_make (repeat 0 260)
            {| mbap := {| mbap_tid := 1; mbap_pid := 0; mbap_dlen := 0;
                          mbap_did := 1 |};
               tcp_pdu := pdu_rd_req 3 4000 29 |} MB_PDU_TYPE_REQ))
    (fst (modbus_tcp_frm_make Bench.modbus_pdu_make (repeat 0 260)
            {| mbap := {| mbap_tid := 1; mbap_pid := 0; mbap_dlen := 0;
                          mbap_did := 1 |};
               tcp_pdu := pdu_rd_req 3 4000 29 |} MB_PDU_TYPE_REQ))
    {| mbap := {| mbap_tid := 0; mbap_pid := 0; mbap_dlen := 0;
                  mbap_did := 0 |};
       tcp_pdu := pdu_exc 0 0 |} MB_PDU_TYPE_REQ
  = (5, {| mbap := {| mbap_tid := u16 1; mbap_pid := u16 0;
                      mbap_dlen := u16 (5 + 1); mbap_did := u8 1 |};
           tcp_pdu := pdu_rd_req 3 4000 29 |}).
Proof.
  apply (tcp_frm_round_trip Bench.modbus_pdu_make Bench.modbus_pdu_parse
           (repeat 0 260)
           {| mbap := {| mbap_tid := 1; mbap_pid := 0; mbap_dlen := 0;
                         mbap_did := 1 |};
              tcp_pdu := pdu_rd_req 3 4000 29 |}
           {| mbap := {| mbap_tid := 0; mbap_pid := 0; mbap_dlen := 0;
                         mbap_did := 0 |};
              tcp_pdu := pdu_exc 0 0 |}
           MB_PDU_TYPE_REQ 5 [3; 15; 160; 0; 29]).
  - reflexivity.
  - unfold MB_PDU_SIZE_MIN. lia.
  - intros rest old. reflexivity.
Defined.

(** Two requests that differ in the transaction and protocol identifiers
    only. *)
Lemma tcp_frm_parse_ignores_header_witness :
  fst (modbus_tcp_frm_parse Bench.modbus_pdu_parse
         [0; 1; 0; 0; 0; 6; 1; 3; 15; 160; 0; 29] 12
         {| mbap := {| mbap_tid := 0; mbap_pid := 0; mbap_dlen := 0;
                       mbap_did := 0 |};
            tcp_pdu := pdu_exc 0 0 |} MB_PDU_TYPE_REQ)
  = fst (modbus_tcp_frm_parse Bench.modbus_pdu_parse
           [9; 9; 7; 7; 0; 0; 1; 3; 15; 160; 0; 29] 12
           {| mbap := {| mbap_tid := 0; mbap_pid := 0; mbap_dlen := 0;
                         mbap_did := 0 |};
              tcp_pdu := pdu_exc 0 0 |} MB_PDU_TYPE_REQ).
Proof.
  apply (tcp_frm_parse_ignores_header Bench.modbus_pdu_parse
           [0; 1; 0; 0; 0; 6; 1; 3; 15; 160; 0; 29]
           [9; 9; 7; 7; 0; 0; 1; 3; 15; 160; 0; 29] 12).
  reflexivity.
Defined.

(** ** Registers on the wire

    The big-endian register image that [modbus_write_regs] and the
    read handlers of the slave build, read back at the offsets that
    [modbus_read_regs] and the write handlers of the slave use. *)

Lemma get16_skip2 :
  forall a b l k,
    modbus_cvt_u16_get (a :: b :: l) (S (S k)) = modbus_cvt_u16_get l k.
Proof. reflexivity. Qed.

Lemma get16_flat_put :
  forall vs rest i,
    (i < length vs)%nat ->
    modbus_cvt_u16_get (flat_map modbus_cvt_u16_put vs ++ rest) (2 * i)
    = u16 (nth i vs 0).
Proof.
  induction vs as [|v vs IH]; intros rest i Hi; cbn [length] in Hi; [lia|].
  cbn [flat_map]. rewrite <- app_assoc.
  destruct i as [|i].
  - apply cvt_u16_roundtrip.
  - replace (2 * S i)%nat with (S (S (2 * i))) by lia.
    unfold modbus_cvt_u16_put at 1. cbn [app nth].
    rewrite get16_skip2. apply IH. lia.
Qed.

Lemma flat_map_comp :
  forall (A B : Type) (f : B -> list Z) (g : A -> B) (l : list A),
    flat_map (fun x => f (g x)) l = flat_map f (map g l).
Proof.
  intros A B f g. induction l as [|x l IH]; [reflexivity|].
  cbn [flat_map map]. rewrite IH. reflexivity.
Qed.

Lemma nth_map_seq :
  forall (g : nat -> Z) n i, (i < n)%nat -> nth i (map g (seq 0 n)) 0 = g i.
Proof.
  intros g n i Hi.
  rewrite (nth_indep _ 0 (g 0%nat)) by (rewrite length_map, length_seq; lia).
  rewrite map_nth, seq_nth by lia. reflexivity.
Qed.

Lemma map_seq_nth :
  forall (f : Z -> Z) (l : list Z),
    map (fun i => f (nth i l 0)) (seq 0 (length l)) = map f l.
Proof.
  intros f. induction l as [|x l IH]; [reflexivity|].
  cbn [length seq map nth]. f_equal.
  rewrite <- seq_shift, map_map. exact IH.
Qed.

Lemma get16_regs_put :
  forall d nb regs i,
    (i < Z.to_nat nb)%nat ->
    modbus_cvt_u16_get (regs_put d nb regs) (2 * i) = u16 (nth i regs 0).
Proof.
  intros d nb regs i Hi. unfold regs_put.
  rewrite store_at_0, flat_map_comp.
  rewrite get16_flat_put by (rewrite length_map, length_seq; exact Hi).
  rewrite nth_map_seq by exact Hi. reflexivity.
Qed.

(** The [write_hold] calls that write [regs[i]], [regs[i+1]], ... to the
    addresses from [addr + i] on, with their results. *)
Fixpoint hold_writes (addr : Z) (regs : list Z) (i : nat) (rsts : list Z)
  : list cb_call :=
  match rsts with
  | [] => []
  | rst :: tl =>
      Call_write_hold (u16 (addr + Z.of_nat i)) (u16 (nth i regs 0)) rst
      :: hold_writes addr regs (S i) tl
  end.

Lemma write_calls_regs_put :
  forall addr d nb regs rsts i,
    (i + length rsts <= Z.to_nat nb)%nat ->
    write_calls addr (regs_put d nb regs) (Z.of_nat i) rsts
    = hold_writes addr regs i rsts.
Proof.
  intros addr d nb regs. induction rsts as [|rst tl IH]; intros i Hi;
    cbn [write_calls hold_writes length] in *; [reflexivity|].
  f_equal.
  - f_equal. replace (Z.to_nat (2 * Z.of_nat i)) with (2 * i)%nat by lia.
    apply get16_regs_put. lia.
  - replace (Z.of_nat i + 1) with (Z.of_nat (S i)) by lia. apply IH. lia.
Qed.

(** ** The slave dispatcher and its handlers ([modbus_slave.c]) *)

(** The function codes that [modbus_slave_pdu_deal] hands to a handler. *)
Definition dispatched : list Z :=
  [MODBUS_FC_READ_COILS; MODBUS_FC_READ_DISCRETE_INPUTS;
   MODBUS_FC_READ_HOLDING_REGISTERS; MODBUS_FC_READ_INPUT_REGISTERS;
   MODBUS_FC_WRITE_SINGLE_COIL; MODBUS_FC_WRITE_SINGLE_REGISTER;
   MODBUS_FC_WRITE_MULTIPLE_COILS; MODBUS_FC_WRITE_MULTIPLE_REGISTERS;
   MODBUS_FC_MASK_WRITE_REGISTER; MODBUS_FC_WRITE_AND_READ_REGISTERS].

(** Decide the comparisons of the dispatcher between two literals. *)
Ltac decide_fc :=
  repeat match goal with
         | |- context [?a =? ?b] =>
             let c := eval vm_compute in (a =? b) in
             (match c with true => idtac | false => idtac end);
             change (a =? b) with c
         end;
  cbv iota.

Section SlaveDispatch.

Variable W : Type.
Variable union_overlay : mb_pdu_t -> pdu_field -> Z.
Variable union_overlay_ptr : mb_pdu_t -> pdu_ptr -> list Z.

(** X14. A slave without callbacks answers every dispatched request with
    the exception 0x04 (slave or server failure) and changes nothing.  This
    holds with no callback table, with a table that holds no callback, and,
    for 0x16 and 0x17, with a table in which [read_hold] or [write_hold] is
    missing: the one that is present is not called. *)
Theorem slave_without_callbacks :
  forall (hinst : mb_inst_t W) (pdu : mb_pdu_t) (w : W),
    In (pdu_fc pdu) dispatched ->
    cb hinst = None \/
    (exists t, cb hinst = Some t /\
               read_disc t = None /\ read_coil t = None /\
               write_coil t = None /\ read_input t = None /\
               read_hold t = None /\ write_hold t = None) \/
    (exists t, cb hinst = Some t /\
               (read_hold t = None \/ write_hold t = None) /\
               (pdu_fc pdu = MODBUS_FC_MASK_WRITE_REGISTER \/
                pdu_fc pdu = MODBUS_FC_WRITE_AND_READ_REGISTERS)) ->
    modbus_slave_pdu_deal W union_overlay union_overlay_ptr hinst pdu w
    = (pdu_set_exc pdu MODBUS_EC_SLAVE_OR_SERVER_FAILURE, hinst, w).
Proof.
  intros hinst pdu w Hfc Hcb. unfold modbus_slave_pdu_deal.
  unfold dispatched in Hfc. cbn [In] in Hfc.
  unfold modbus_slave_pdu_deal_read_coils, modbus_slave_pdu_deal_read_discs,
    modbus_slave_pdu_deal_read_holds, modbus_slave_pdu_deal_read_inputs,
    modbus_slave_pdu_deal_write_coil, modbus_slave_pdu_deal_write_reg,
    modbus_slave_pdu_deal_write_coils, modbus_slave_pdu_deal_write_regs,
    modbus_slave_pdu_deal_mask_write_reg,
    modbus_slave_pdu_deal_write_and_read_regs.
  destruct Hcb as [Hnone|[(t & Ht & Hrd & Hrc & Hwc & Hri & Hrh & Hwh)
                         |(t & Ht & Hmiss & Hfc')]].
  - rewrite Hnone.
    repeat (destruct Hfc as [Hfc|Hfc];
            [rewrite <- Hfc; decide_fc; reflexivity|]).
    contradiction.
  - rewrite Ht, Hrd, Hrc, Hwc, Hri, Hrh, Hwh.
    repeat (destruct Hfc as [Hfc|Hfc];
            [rewrite <- Hfc; decide_fc; reflexivity|]).
    contradiction.
  - rewrite Ht.
    assert (Hboth : match read_hold t, write_hold t with
                    | Some _, Some _ => False
                    | _, _ => True
                    end).
    { destruct Hmiss as [H|H]; rewrite H; [exact I|].
      destruct (read_hold t); exact I. }
    destruct Hfc' as [Hx|Hx]; rewrite Hx; decide_fc;
      destruct (read_hold t); destruct (write_hold t);
      (contradiction || reflexivity).
Qed.

(** X15. Function codes without a handler: for 0x07 (read exception
    status), 0x11 (report slave id) and every code the dispatcher does not
    know, [modbus_slave_pdu_deal] leaves the PDU, the instance and the user
    state as they are and calls no callback, so that the response is built
    from the request PDU. *)
Theorem slave_undispatched_unchanged :
  forall (hinst : mb_inst_t W) (pdu : mb_pdu_t) (w : W),
    ~ In (pdu_fc pdu) dispatched ->
    modbus_slave_pdu_deal W union_overlay union_overlay_ptr hinst pdu w
    = (pdu, hinst, w).
Proof.
  intros hinst pdu w Hfc. unfold modbus_slave_pdu_deal.
  unfold dispatched in Hfc. cbn [In] in Hfc.
  repeat match goal with
         | |- context [pdu_fc pdu =? ?c] =>
             let H := fresh "Hc" in
             destruct (pdu_fc pdu =? c) eqn:H;
             [apply Z.eqb_eq in H; exfalso; apply Hfc; rewrite H; tauto|]
         end.
  destruct (pdu_fc pdu =? MODBUS_FC_READ_EXCEPTION_STATUS); [reflexivity|].
  destruct (pdu_fc pdu =? MODBUS_FC_REPORT_SLAVE_ID); reflexivity.
Qed.

End SlaveDispatch.

Section SlaveRegisters.

Variable W : Type.
Variable union_overlay : mb_pdu_t -> pdu_field -> Z.
Variable union_overlay_ptr : mb_pdu_t -> pdu_ptr -> list Z.

(** X16. Write multiple registers (0x10), from the master's array to the
    slave's callback.  For the request PDU that [modbus_write_regs] builds
    from an array [regs] of at least [nb] registers, the handler calls
    [write_hold] for the addresses [addr], [addr + 1], ... (as [uint16_t])
    in this order, each with the corresponding element of [regs] as a
    16-bit value.  It stops at the first call that fails: the registers
    behind it are not written, those before it stay written, and the PDU
    becomes the exception for that failure.  When no call fails all [nb]
    registers were written and the PDU is left as it was. *)
Theorem write_regs_in_order :
  forall (hinst : mb_inst_t (W * list cb_call)) (t : mb_cb_table_t W)
         (wr : Z -> Z -> W -> Z * W) (addr nb : Z) (d regs : list Z) (w : W),
    cb hinst = Some (traced t) ->
    write_hold t = Some wr ->
    0 <= nb < 65536 ->
    (Z.to_nat nb <= length regs)%nat ->
    let request := pdu_wr_req MODBUS_FC_WRITE_MULTIPLE_REGISTERS addr
                              (u16 nb) (u8 (nb * 2)) (regs_put d nb regs) in
    exists (rsts : list Z) (pdu' : mb_pdu_t) (w' : W),
      modbus_slave_pdu_deal (W * list cb_call) union_overlay union_overlay_ptr
                            hinst request (w, [])
      = (pdu', hinst, (w', hold_writes addr regs 0 rsts)) /\
      (length rsts <= Z.to_nat nb)%nat /\
      (Forall (fun r => 0 <= r) rsts /\ length rsts = Z.to_nat nb /\
       pdu' = request
       \/
       exists ok rst,
         rsts = ok ++ [rst] /\ Forall (fun r => 0 <= r) ok /\ rst < 0 /\
         pdu' = pdu_exc (Z.lor MODBUS_FC_WRITE_MULTIPLE_REGISTERS 0x80)
                        (u8 (- rst))).
Proof.
  intros hinst t wr addr nb d regs w Hcb Hwr Hnb _ request. subst request.
  unfold modbus_slave_pdu_deal. cbn [pdu_fc]. decide_fc.
  unfold modbus_slave_pdu_deal_write_regs.
  rewrite Hcb. cbn [traced write_hold]. rewrite Hwr. cbn [option_map].
  unfold field, pointer. cbn [pdu_get pdu_pdata].
  rewrite (u16_id nb) by exact Hnb.
  destruct (write_regs_loop_traced W wr addr (regs_put d nb regs)
                                   (Z.to_nat nb) 0 w [])
    as (res & rsts & w1 & Hloop & Hres).
  rewrite Hloop. cbn [app].
  assert (Hlen : (length rsts <= Z.to_nat nb)%nat).
  { destruct res; [destruct Hres as (_ & H & _); exact H|].
    destruct Hres as (H & _). lia. }
  pose proof (write_calls_regs_put addr d nb regs rsts 0 Hlen) as Hcalls.
  cbn [Z.of_nat] in Hcalls. rewrite Hcalls.
  destruct res as [rst|].
  - destruct Hres as (Hneg & _ & ok & Hok & Hall).
    eexists rsts, _, w1. split; [reflexivity|]. split; [exact Hlen|].
    right. exists ok, rst. repeat split; assumption.
  - destruct Hres as (Hn & Hall).
    eexists rsts, _, w1. split; [reflexivity|]. split; [exact Hlen|].
    left. repeat split; assumption.
Qed.

(** X17. Read holding registers (0x03), from the slave's callback to the
    master's array.  The handler calls [read_hold] for the addresses
    [addr], [addr + 1], ... (as [uint16_t]) in this order and stops at the
    first call that fails, with the exception for that failure.  When none
    fails it made [nb] calls, the PDU becomes a read response with byte
    count [2 * nb] whose data are [hinst->datas], and decoding these data
    the way [modbus_read_regs] does, into an array of at least [nb]
    registers, gives the values the callbacks returned, in order. *)
Theorem read_holds_in_order :
  forall (hinst : mb_inst_t (W * list cb_call)) (t : mb_cb_table_t W)
         (rd : Z -> W -> Z * Z * W) (addr nb : Z) (out : list Z) (w : W),
    cb hinst = Some (traced t) ->
    read_hold t = Some rd ->
    0 <= nb <= 125 ->
    (Z.to_nat nb <= length out)%nat ->
    exists (rds : list (Z * Z)) (pdu' : mb_pdu_t)
           (hinst' : mb_inst_t (W * list cb_call)) (w' : W),
      modbus_slave_pdu_deal (W * list cb_call) union_overlay union_overlay_ptr
                            hinst
                            (pdu_rd_req MODBUS_FC_READ_HOLDING_REGISTERS
                                        addr nb)
                            (w, [])
      = (pdu', hinst', (w', read_calls addr 0 rds)) /\
      (length rds <= Z.to_nat nb)%nat /\
      (Forall (fun r => 0 <= fst r) rds /\ length rds = Z.to_nat nb /\
       pdu' = pdu_rd_rsp MODBUS_FC_READ_HOLDING_REGISTERS (2 * nb)
                         (datas hinst') /\
       regs_get (datas hinst') nb out
       = store out 0 (map (fun r => u16 (snd r)) rds)
       \/
       exists ok rst reg,
         rds = ok ++ [(rst, reg)] /\ Forall (fun r => 0 <= fst r) ok /\
         rst < 0 /\
         pdu' = pdu_exc (Z.lor MODBUS_FC_READ_HOLDING_REGISTERS 0x80)
                        (u8 (- rst))).
Proof.
  intros hinst t rd addr nb out w Hcb Hrd Hnb _.
  unfold modbus_slave_pdu_deal. cbn [pdu_fc]. decide_fc.
  unfold modbus_slave_pdu_deal_read_holds.
  rewrite Hcb. cbn [traced read_hold]. rewrite Hrd. cbn [option_map].
  unfold field. cbn [pdu_get].
  destruct (read_regs_loop_traced W rd addr (Z.to_nat nb) 0 []
                                  (datas hinst) w [])
    as (res & rds & d' & w1 & Hloop & Hres); [lia|reflexivity|].
  cbn [app] in Hloop. rewrite Hloop.
  destruct res as [rst|].
  - destruct Hres as (Hneg & Hlen & ok & reg & Hok & Hall).
    eexists rds, _, _, w1. split; [reflexivity|]. split; [exact Hlen|].
    right. exists ok, rst, reg. repeat split; assumption.
  - destruct Hres as (Hn & Hall & Hd). cbn [app] in Hd.
    eexists rds, _, _, w1. split; [reflexivity|]. split; [lia|].
    left. split; [exact Hall|]. split; [exact Hn|].
    cbn [set_datas datas]. split.
    + unfold pdu_set_rd_rsp. cbn [pdu_fc]. rewrite u8_id by lia.
      reflexivity.
    + unfold regs_get. f_equal. rewrite Hd, flat_map_comp.
      rewrite <- Hn, <- (length_map snd rds).
      rewrite <- (map_map snd u16 rds), <- map_seq_nth.
      apply map_ext_in. intros i Hi. apply in_seq in Hi.
      apply get16_flat_put. lia.
Qed.

(** X18. A coil written with [modbus_write_bit] reaches the slave's
    [write_coil] callback as 1 for a bit that is not 0 and as 0 otherwise.
    For the request PDU that [modbus_write_bit] builds, the 0x05 handler
    never answers with the illegal-data-value exception: it calls
    [write_coil] exactly once, at the request's address; the PDU is left as
    it was (the echo) when the callback succeeds and becomes the exception
    for its result when it fails.  The 0x06 handler calls [write_hold]
    exactly once with the address and value of the request, with the same
    two outcomes. *)
Theorem single_writes_call_once :
  forall (hinst : mb_inst_t (W * list cb_call)) (t : mb_cb_table_t W)
         (addr : Z) (w : W),
    cb hinst = Some (traced t) ->
    (forall (wr : Z -> Z -> W -> Z * W) (bit : Z),
        write_coil t = Some wr ->
        let request :=
          pdu_wr_single MODBUS_FC_WRITE_SINGLE_COIL addr
                        (if negb (bit =? 0) then 0xFF00 else 0x0000) in
        let level := if bit =? 0 then 0 else 1 in
        let rst := fst (wr addr level w) in
        modbus_slave_pdu_deal (W * list cb_call) union_overlay
                              union_overlay_ptr hinst request (w, [])
        = (if rst <? 0
           then pdu_exc (Z.lor MODBUS_FC_WRITE_SINGLE_COIL 0x80) (u8 (- rst))
           else request,
           hinst,
           (snd (wr addr level w), [Call_write_coil addr level rst]))) /\
    (forall (wr : Z -> Z -> W -> Z * W) (val : Z),
        write_hold t = Some wr ->
        let request :=
          pdu_wr_single MODBUS_FC_WRITE_SINGLE_REGISTER addr val in
        let rst := fst (wr addr val w) in
        modbus_slave_pdu_deal (W * list cb_call) union_overlay
                              union_overlay_ptr hinst request (w, [])
        = (if rst <? 0
           then pdu_exc (Z.lor MODBUS_FC_WRITE_SINGLE_REGISTER 0x80)
                        (u8 (- rst))
           else request,
           hinst,
           (snd (wr addr val w), [Call_write_hold addr val rst]))).
Proof.
  intros hinst t addr w Hcb. split.
  - intros wr bit Hwr. cbv zeta.
    unfold modbus_slave_pdu_deal. cbn [pdu_fc]. decide_fc.
    unfold modbus_slave_pdu_deal_write_coil.
    rewrite Hcb. cbn [traced write_coil]. rewrite Hwr. cbn [option_map].
    unfold field. cbn [pdu_get].
    destruct (bit =? 0); cbn [negb]; decide_fc; cbn [negb andb];
      unfold traced_write; cbn [fst snd app];
      destruct (wr addr _ w) as [rst w1]; cbn [fst snd];
      destruct (rst <? 0); reflexivity.
  - intros wr val Hwr. cbv zeta.
    unfold modbus_slave_pdu_deal. cbn [pdu_fc]. decide_fc.
    unfold modbus_slave_pdu_deal_write_reg.
    rewrite Hcb. cbn [traced write_hold]. rewrite Hwr. cbn [option_map].
    unfold field. cbn [pdu_get].
    unfold traced_write. cbn [fst snd app].
    destruct (wr addr val w) as [rst w1]. cbn [fst snd].
    destruct (rst <? 0); reflexivity.
Qed.

(** X19. Failures of the mask-write handler (0x16).  When [read_hold]
    fails the handler answers with the exception for its result and does not
    call [write_hold]: the register is not written.  When the read succeeds
    and [write_hold] fails, the answer is the exception for the result of
    the write. *)
Theorem mask_write_failures :
  forall (hinst : mb_inst_t (W * list cb_call)) (t : mb_cb_table_t W)
         (rd : Z -> W -> Z * Z * W) (wr : Z -> Z -> W -> Z * W)
         (addr val_and val_or : Z) (w : W) (rst cur : Z) (w1 : W),
    cb hinst = Some (traced t) ->
    read_hold t = Some rd ->
    write_hold t = Some wr ->
    rd addr w = (rst, cur, w1) ->
    let request :=
      pdu_mask_wr MODBUS_FC_MASK_WRITE_REGISTER addr val_and val_or in
    let new := u16 (Z.lor (Z.land (u16 cur) val_and)
                          (Z.land val_or (Z.lnot val_and))) in
    let res := modbus_slave_pdu_deal (W * list cb_call) union_overlay
                 union_overlay_ptr hinst request (w, []) in
    (rst < 0 ->
     res = (pdu_exc (Z.lor MODBUS_FC_MASK_WRITE_REGISTER 0x80) (u8 (- rst)),
            hinst, (w1, [Call_read_hold addr rst cur]))) /\
    (0 <= rst -> fst (wr addr new w1) < 0 ->
     res = (pdu_exc (Z.lor MODBUS_FC_MASK_WRITE_REGISTER 0x80)
                    (u8 (- fst (wr addr new w1))),
            hinst,
            (snd (wr addr new w1),
             [Call_read_hold addr rst cur;
              Call_write_hold addr new (fst (wr addr new w1))]))).
Proof.
  intros hinst t rd wr addr val_and val_or w rst cur w1 Hcb Hrd Hwr Hread.
  cbv zeta. unfold modbus_slave_pdu_deal. cbn [pdu_fc]. decide_fc.
  unfold modbus_slave_pdu_deal_mask_write_reg.
  rewrite Hcb. cbn [traced read_hold write_hold]. rewrite Hrd, Hwr.
  cbn [option_map]. unfold field. cbn [pdu_get].
  unfold traced_read, traced_write. cbn [fst snd app]. rewrite Hread.
  split.
  - intros Hneg. apply Z.ltb_lt in Hneg. rewrite Hneg. reflexivity.
  - intros Hok Hfail. apply Z.ltb_ge in Hok. rewrite Hok.
    cbn [fst snd app].
    destruct (wr addr _ w1) as [rst2 w2]. cbn [fst snd] in *.
    apply Z.ltb_lt in Hfail. rewrite Hfail. reflexivity.
Qed.

End SlaveRegisters.

(** ** The slave's receive path *)

Lemma cvt_u16_get_range :
  forall p off, 0 <= modbus_cvt_u16_get p off < 65536.
Proof.
  intros p off. unfold modbus_cvt_u16_get, byte_at.
  pose proof (u8_range (nth off p 0)). pose proof (u8_range (nth (S off) p 0)).
  lia.
Qed.

Section SlaveReceiveTcp.

Variable W : Type.
Variable MB_USING_ADDR_CHK : bool.
Variable MB_USING_MBAP_CHK : bool.
Variable union_overlay : mb_pdu_t -> pdu_field -> Z.
Variable union_overlay_ptr : mb_pdu_t -> pdu_ptr -> list Z.
Variable modbus_pdu_make : mb_pdu_t -> mb_pdu_type_t -> Z * list Z.
Variable modbus_pdu_parse :
  list Z -> Z -> mb_pdu_t -> mb_pdu_type_t -> Z * mb_pdu_t.
Variable modbus_send : mb_inst_t W -> list Z -> Z -> W -> Z * W.
Variable tcp_frm_indeterminate : mb_tcp_frm_t.

(** A frame that the parser did not reject as malformed has its header
    fields read from the first seven bytes. *)
Lemma tcp_frm_parse_mbap :
  forall b len frm type,
    fst (modbus_tcp_frm_parse modbus_pdu_parse b len frm type) <> 0 ->
    mbap (snd (modbus_tcp_frm_parse modbus_pdu_parse b len frm type))
    = {| mbap_tid := modbus_cvt_u16_get b 0;
         mbap_pid := modbus_cvt_u16_get b 2;
         mbap_dlen := modbus_cvt_u16_get b 4;
         mbap_did := modbus_cvt_u8_get b 6 |}.
Proof.
  intros b len frm type. unfold modbus_tcp_frm_parse.
  destruct (len <? MB_TCP_FRM_MIN); [cbn; congruence|].
  destruct (modbus_pdu_parse _ _ _ _) as [pdu_len p].
  destruct (pdu_len <=? 0); [reflexivity|].
  destruct (_ <? pdu_len); reflexivity.
Qed.

(** X20. The header of a response of the TCP slave.  For a request that is
    not dropped (not malformed; unit identifier 0xFF or the instance's
    address when addresses are checked; protocol identifier 0 when the MBAP
    header is checked), the frame left in [hinst->buf] and handed to
    [modbus_send] carries the transaction identifier, the protocol
    identifier and the unit identifier of the request, and the length field
    [pdu_len + 1] for the [pdu_len] response PDU bytes that follow; the
    length given to [modbus_send] is [7 + pdu_len]. *)
Theorem slave_tcp_response_header :
  forall (hinst : mb_inst_t W) (b : list Z) (len : Z) (w : W),
    fst (modbus_tcp_frm_parse modbus_pdu_parse b len tcp_frm_indeterminate
                              MB_PDU_TYPE_REQ) <> 0 ->
    (MB_USING_ADDR_CHK = true ->
     modbus_cvt_u8_get b 6 = 0xFF \/ modbus_cvt_u8_get b 6 = saddr hinst) ->
    (MB_USING_MBAP_CHK = true -> modbus_cvt_u16_get b 2 = MB_TCP_MBAP_PID) ->
    let res := modbus_slave_recv_deal_tcp W MB_USING_ADDR_CHK
                 MB_USING_MBAP_CHK union_overlay union_overlay_ptr
                 modbus_pdu_make modbus_pdu_parse modbus_send
                 tcp_frm_indeterminate hinst b len w in
    let frame := buf (fst res) in
    modbus_cvt_u16_get frame 0 = modbus_cvt_u16_get b 0 /\
    modbus_cvt_u16_get frame 2 = modbus_cvt_u16_get b 2 /\
    modbus_cvt_u8_get frame 6 = modbus_cvt_u8_get b 6 /\
    exists pdu_len w1,
      modbus_cvt_u16_get frame 4 = u16 (pdu_len + 1) /\
      snd res = snd (modbus_send (fst res) frame (7 + pdu_len) w1).
Proof.
  intros hinst b len w Hparse Haddr Hpid. cbv zeta.
  pose proof (tcp_frm_parse_mbap b len tcp_frm_indeterminate MB_PDU_TYPE_REQ
                                 Hparse) as Hmbap.
  unfold modbus_slave_recv_deal_tcp.
  destruct (modbus_tcp_frm_parse modbus_pdu_parse b len tcp_frm_indeterminate
                                 MB_PDU_TYPE_REQ) as [pdu_len frm].
  cbn [fst snd] in Hparse, Hmbap.
  apply Z.eqb_neq in Hparse. rewrite Hparse. rewrite Hmbap.
  cbn [mbap_tid mbap_pid mbap_dlen mbap_did].
  assert (H1 : MB_USING_ADDR_CHK
               && (negb (modbus_cvt_u8_get b 6 =? 255)
                   && negb (modbus_cvt_u8_get b 6 =? saddr hinst)) = false).
  { destruct MB_USING_ADDR_CHK; [|reflexivity].
    destruct (Haddr eq_refl) as [H|H]; rewrite H.
    - reflexivity.
    - rewrite Z.eqb_refl. apply andb_false_r. }
  rewrite H1.
  assert (H2 : MB_USING_MBAP_CHK
               && negb (modbus_cvt_u16_get b 2 =? MB_TCP_MBAP_PID) = false).
  { destruct MB_USING_MBAP_CHK; [|reflexivity].
    rewrite (Hpid eq_refl). reflexivity. }
  rewrite H2.
  destruct (if pdu_len <? 0
            then (pdu_set_exc (tcp_pdu frm) MODBUS_EC_ILLEGAL_FUNCTION,
                  hinst, w)
            else modbus_slave_pdu_deal W union_overlay union_overlay_ptr
                                       hinst (tcp_pdu frm) w)
    as [[pdu h1] w1].
  pose proof (tcp_frm_make_fields modbus_pdu_make (buf h1)
                {| mbap := {| mbap_tid := modbus_cvt_u16_get b 0;
                              mbap_pid := modbus_cvt_u16_get b 2;
                              mbap_dlen := modbus_cvt_u16_get b 4;
                              mbap_did := modbus_cvt_u8_get b 6 |};
                   tcp_pdu := pdu |} MB_PDU_TYPE_RSP) as Hmk.
  cbv zeta in Hmk. cbn [mbap tcp_pdu mbap_tid mbap_pid mbap_did] in Hmk.
  destruct (modbus_tcp_frm_make modbus_pdu_make (buf h1) _ MB_PDU_TYPE_RSP)
    as [flen b1].
  cbn [fst snd] in Hmk.
  destruct Hmk as (Hlen & Htid & Hp & Hdlen & Hdid & _).
  cbn [buf set_buf].
  destruct (modbus_send (set_buf h1 b1) b1 flen w1) as [slen w2] eqn:Hsend.
  cbn [fst snd buf set_buf].
  rewrite Htid, Hp, Hdid.
  rewrite !u16_id by apply cvt_u16_get_range.
  unfold modbus_cvt_u8_get, byte_at.
  rewrite u8_id by apply u8_range.
  repeat split.
  exists (fst (modbus_pdu_make pdu MB_PDU_TYPE_RSP)), w1.
  split; [exact Hdlen|]. rewrite <- Hlen, Hsend. reflexivity.
Qed.

(** X21. What the TCP slave drops.  A frame shorter than
    [MB_TCP_FRM_MIN], a frame that the parser finds malformed, a frame whose
    unit identifier is neither 0xFF nor the address of the instance (when
    addresses are checked) and a frame whose protocol identifier is not 0
    (when the MBAP header is checked) are dropped: the instance and the
    environment come back as they were, so that no callback ran and nothing
    was sent. *)
Theorem slave_tcp_dropped :
  forall (hinst : mb_inst_t W) (b : list Z) (len : Z) (w : W),
    let parsed := modbus_tcp_frm_parse modbus_pdu_parse b len
                    tcp_frm_indeterminate MB_PDU_TYPE_REQ in
    len < MB_TCP_FRM_MIN \/
    fst parsed = 0 \/
    (MB_USING_ADDR_CHK = true /\
     mbap_did (mbap (snd parsed)) <> 0xFF /\
     mbap_did (mbap (snd parsed)) <> saddr hinst) \/
    (MB_USING_MBAP_CHK = true /\
     mbap_pid (mbap (snd parsed)) <> MB_TCP_MBAP_PID) ->
    modbus_slave_recv_deal_tcp W MB_USING_ADDR_CHK MB_USING_MBAP_CHK
      union_overlay union_overlay_ptr modbus_pdu_make modbus_pdu_parse
      modbus_send tcp_frm_indeterminate hinst b len w
    = (hinst, w).
Proof.
  intros hinst b len w parsed H. subst parsed.
  unfold modbus_slave_recv_deal_tcp.
  assert (Hshort : len < MB_TCP_FRM_MIN ->
                   fst (modbus_tcp_frm_parse modbus_pdu_parse b len
                          tcp_frm_indeterminate MB_PDU_TYPE_REQ) = 0).
  { intros Hlt. unfold modbus_tcp_frm_parse.
    apply Z.ltb_lt in Hlt. rewrite Hlt. reflexivity. }
  destruct (modbus_tcp_frm_parse modbus_pdu_parse b len tcp_frm_indeterminate
                                 MB_PDU_TYPE_REQ) as [pdu_len frm].
  cbn [fst snd] in *.
  destruct (pdu_len =? 0) eqn:Hz; [reflexivity|].
  apply Z.eqb_neq in Hz.
  destruct H as [H|[H|[(Hchk & Hff & Hsa)|(Hchk & Hp)]]].
  - apply Hshort in H. contradiction.
  - contradiction.
  - rewrite Hchk. apply Z.eqb_neq in Hff, Hsa. rewrite Hff, Hsa. reflexivity.
  - rewrite Hchk. apply Z.eqb_neq in Hp. rewrite Hp.
    destruct (MB_USING_ADDR_CHK && _); reflexivity.
Qed.

End SlaveReceiveTcp.

Section SlaveUnsupported.

Variable W : Type.
Variable MB_USING_ADDR_CHK : bool.
Variable MB_USING_MBAP_CHK : bool.
Variable union_overlay : mb_pdu_t -> pdu_field -> Z.
Variable union_overlay_ptr : mb_pdu_t -> pdu_ptr -> list Z.
Variable modbus_pdu_make : mb_pdu_t -> mb_pdu_type_t -> Z * list Z.
Variable modbus_pdu_parse :
  list Z -> Z -> mb_pdu_t -> mb_pdu_type_t -> Z * mb_pdu_t.
Variable modbus_rtu_frame_make :
  list Z -> mb_rtu_frm_t -> mb_pdu_type_t -> Z * list Z.
Variable modbus_rtu_frame_parse :
  list Z -> Z -> mb_rtu_frm_t -> mb_pdu_type_t -> Z * mb_rtu_frm_t.
Variable modbus_send : mb_inst_t W -> list Z -> Z -> W -> Z * W.
Variable rtu_frm_indeterminate : mb_rtu_frm_t.
Variable tcp_frm_indeterminate : mb_tcp_frm_t.

(** X22. A function code that the parser does not support (result below
    0), in a frame addressed to the instance, is answered with the
    exception 0x01 (illegal function): the response frame is made from the
    request's function code with the high bit set and the code 1, under
    the address (RTU) or the MBAP header (TCP) of the request, and sent.  No
    handler and no callback runs: the environment reaches [modbus_send] as
    it was and of the instance only the frame buffer changes. *)
Theorem slave_unsupported_function :
  forall (hinst : mb_inst_t W) (b : list Z) (len : Z) (w : W),
    (forall pdu_len frm,
        modbus_rtu_frame_parse b len rtu_frm_indeterminate MB_PDU_TYPE_REQ
        = (pdu_len, frm) ->
        pdu_len < 0 ->
        (MB_USING_ADDR_CHK = true -> frm_saddr frm = saddr hinst) ->
        let rsp := {| frm_saddr := frm_saddr frm;
                      rtu_pdu := pdu_exc (u8 (Z.lor (pdu_fc (rtu_pdu frm))
                                                    0x80))
                                         MODBUS_EC_ILLEGAL_FUNCTION |} in
        let made := modbus_rtu_frame_make (buf hinst) rsp MB_PDU_TYPE_RSP in
        modbus_slave_recv_deal_rtu W MB_USING_ADDR_CHK union_overlay
          union_overlay_ptr modbus_rtu_frame_make modbus_rtu_frame_parse
          modbus_send rtu_frm_indeterminate hinst b len w
        = (set_buf hinst (snd made),
           snd (modbus_send (set_buf hinst (snd made)) (snd made) (fst made)
                            w))) /\
    (forall pdu_len frm,
        modbus_tcp_frm_parse modbus_pdu_parse b len tcp_frm_indeterminate
                             MB_PDU_TYPE_REQ
        = (pdu_len, frm) ->
        pdu_len < 0 ->
        (MB_USING_ADDR_CHK = true ->
         mbap_did (mbap frm) = 0xFF \/ mbap_did (mbap frm) = saddr hinst) ->
        (MB_USING_MBAP_CHK = true ->
         mbap_pid (mbap frm) = MB_TCP_MBAP_PID) ->
        let rsp := {| mbap := mbap frm;
                      tcp_pdu := pdu_exc (u8 (Z.lor (pdu_fc (tcp_pdu frm))
                                                    0x80))
                                         MODBUS_EC_ILLEGAL_FUNCTION |} in
        let made := modbus_tcp_frm_make modbus_pdu_make (buf hinst) rsp
                                        MB_PDU_TYPE_RSP in
        modbus_slave_recv_deal_tcp W MB_USING_ADDR_CHK MB_USING_MBAP_CHK
          union_overlay union_overlay_ptr modbus_pdu_make modbus_pdu_parse
          modbus_send tcp_frm_indeterminate hinst b len w
        = (set_buf hinst (snd made),
           snd (modbus_send (set_buf hinst (snd made)) (snd made) (fst made)
                            w))).
Proof.
  intros hinst b len w. split.
  - intros pdu_len frm Hparse Hneg Haddr. cbv zeta.
    unfold modbus_slave_recv_deal_rtu. rewrite Hparse.
    assert (Hz : (pdu_len =? 0) = false) by (apply Z.eqb_neq; lia).
    rewrite Hz.
    assert (H1 : MB_USING_ADDR_CHK && negb (frm_saddr frm =? saddr hinst)
                 = false).
    { destruct MB_USING_ADDR_CHK; [|reflexivity].
      rewrite (Haddr eq_refl), Z.eqb_refl. reflexivity. }
    rewrite H1. apply Z.ltb_lt in Hneg. rewrite Hneg.
    unfold pdu_set_exc, MODBUS_FC_EXCEPT_MAKE.
    change (u8 MODBUS_EC_ILLEGAL_FUNCTION) with MODBUS_EC_ILLEGAL_FUNCTION.
    destruct (modbus_rtu_frame_make (buf hinst) _ MB_PDU_TYPE_RSP)
      as [flen b1].
    cbn [fst snd buf set_buf].
    destruct (modbus_send (set_buf hinst b1) b1 flen w) as [slen w1].
    reflexivity.
  - intros pdu_len frm Hparse Hneg Haddr Hpid. cbv zeta.
    unfold modbus_slave_recv_deal_tcp. rewrite Hparse.
    assert (Hz : (pdu_len =? 0) = false) by (apply Z.eqb_neq; lia).
    rewrite Hz.
    assert (H1 : MB_USING_ADDR_CHK
                 && (negb (mbap_did (mbap frm) =? 255)
                     && negb (mbap_did (mbap frm) =? saddr hinst)) = false).
    { destruct MB_USING_ADDR_CHK; [|reflexivity].
      destruct (Haddr eq_refl) as [H|H]; rewrite H.
      - reflexivity.
      - rewrite Z.eqb_refl. apply andb_false_r. }
    rewrite H1.
    assert (H2 : MB_USING_MBAP_CHK
                 && negb (mbap_pid (mbap frm) =? MB_TCP_MBAP_PID) = false).
    { destruct MB_USING_MBAP_CHK; [|reflexivity].
      rewrite (Hpid eq_refl). reflexivity. }
    rewrite H2. apply Z.ltb_lt in Hneg. rewrite Hneg.
    unfold pdu_set_exc, MODBUS_FC_EXCEPT_MAKE.
    change (u8 MODBUS_EC_ILLEGAL_FUNCTION) with MODBUS_EC_ILLEGAL_FUNCTION.
    destruct (modbus_tcp_frm_make modbus_pdu_make (buf hinst) _
                                  MB_PDU_TYPE_RSP) as [flen b1].
    cbn [fst snd buf set_buf].
    destruct (modbus_send (set_buf hinst b1) b1 flen w) as [slen w1].
    reflexivity.
Qed.

End SlaveUnsupported.

(** ** Results of the master transactions on the RTU path *)

(** Turn the boolean tests met along a transaction into facts. *)
Ltac tests_to_facts :=
  repeat match goal with
         | H : (_ =? _) = true |- _ => apply Z.eqb_eq in H
         | H : (_ =? _) = false |- _ => apply Z.eqb_neq in H
         | H : (_ <? _) = true |- _ => apply Z.ltb_lt in H
         | H : (_ <? _) = false |- _ => apply Z.ltb_ge in H
         | H : (_ <=? _) = true |- _ => apply Z.leb_le in H
         | H : (_ <=? _) = false |- _ => apply Z.leb_gt in H
         | H : andb _ _ = true |- _ => apply andb_true_iff in H; destruct H
         | H : negb _ = true |- _ => apply negb_true_iff in H
         | H : negb _ = false |- _ => apply negb_false_iff in H
         end.

Section MasterRtuResults.

Variable W : Type.
Variable MB_USING_ADDR_CHK : bool.
Variable union_overlay : mb_pdu_t -> pdu_field -> Z.
Variable union_overlay_ptr : mb_pdu_t -> pdu_ptr -> list Z.
Variable modbus_rtu_frame_make :
  list Z -> mb_rtu_frm_t -> mb_pdu_type_t -> Z * list Z.
Variable modbus_rtu_frame_parse :
  list Z -> Z -> mb_rtu_frm_t -> mb_pdu_type_t -> Z * mb_rtu_frm_t.
Variable modbus_send : mb_inst_t W -> list Z -> Z -> W -> Z * W.
Variable modbus_recv : mb_inst_t W -> Z -> W -> Z * list Z * W.

(** The value returned by each of the five RTU transactions. *)
Definition run_rtu_op (op : tcp_op) (hinst : mb_inst_t W) (w : W) : Z :=
  match op with
  | Op_read_req func addr nb pdata =>
      fst (fst (fst (modbus_read_req_rtu W MB_USING_ADDR_CHK union_overlay
                       union_overlay_ptr modbus_rtu_frame_make
                       modbus_rtu_frame_parse modbus_send modbus_recv
                       hinst func addr nb pdata w)))
  | Op_write_req func addr nb pdata dlen =>
      fst (fst (modbus_write_req_rtu W MB_USING_ADDR_CHK union_overlay
                  modbus_rtu_frame_make modbus_rtu_frame_parse
                  modbus_send modbus_recv hinst func addr nb pdata dlen w))
  | Op_write_single func addr val =>
      fst (fst (modbus_write_single_rtu W MB_USING_ADDR_CHK union_overlay
                  modbus_rtu_frame_make modbus_rtu_frame_parse
                  modbus_send modbus_recv hinst func addr val w))
  | Op_mask_write addr val_and val_or =>
      fst (fst (modbus_mask_write_rtu W MB_USING_ADDR_CHK union_overlay
                  modbus_rtu_frame_make modbus_rtu_frame_parse
                  modbus_send modbus_recv hinst addr val_and val_or w))
  | Op_write_and_read_regs wr_addr wr_nb p_wr_regs rd_addr rd_nb p_rd_regs =>
      fst (fst (fst (modbus_write_and_read_regs_rtu W MB_USING_ADDR_CHK
                       union_overlay union_overlay_ptr modbus_rtu_frame_make
                       modbus_rtu_frame_parse modbus_send modbus_recv hinst
                       wr_addr wr_nb p_wr_regs rd_addr rd_nb p_rd_regs w)))
  end.

(** The instance as the transaction prepares it and the request PDU it
    builds. *)
Definition rtu_request (op : tcp_op) (hinst : mb_inst_t W)
  : mb_inst_t W * mb_pdu_t :=
  match op with
  | Op_read_req func addr nb _ => (hinst, pdu_rd_req func addr (u16 nb))
  | Op_write_req func addr nb pdata dlen =>
      (hinst, pdu_wr_req func addr (u16 nb) (u8 dlen) pdata)
  | Op_write_single func addr val => (hinst, pdu_wr_single func addr val)
  | Op_mask_write addr val_and val_or =>
      (hinst, pdu_mask_wr MODBUS_FC_MASK_WRITE_REGISTER addr val_and val_or)
  | Op_write_and_read_regs wr_addr wr_nb p_wr_regs rd_addr rd_nb _ =>
      let hinst' :=
        set_datas hinst (regs_put (datas hinst) wr_nb p_wr_regs) in
      (hinst',
       pdu_wr_rd_req MODBUS_FC_WRITE_AND_READ_REGISTERS rd_addr (u16 rd_nb)
                     wr_addr (u16 wr_nb) (u8 (wr_nb * 2)) (datas hinst'))
  end.

(** Whether the request went out whole and something came back. *)
Definition rtu_delivered (hinst : mb_inst_t W) (pdu : mb_pdu_t) (w : W)
  : bool :=
  let frm := {| frm_saddr := saddr hinst; rtu_pdu := pdu |} in
  let '(flen, b1) := modbus_rtu_frame_make (buf hinst) frm MB_PDU_TYPE_REQ in
  let hinst := set_buf hinst b1 in
  let '(slen, w) := modbus_send hinst (buf hinst) flen w in
  let '(rlen, _, _) := modbus_recv hinst (sizeof_buf hinst) w in
  (slen =? flen) && (0 <? rlen).

Ltac rtu_transaction :=
  unfold rtu_delivered, rtu_exchange;
  cbn [fst snd buf set_buf set_datas saddr datas];
  destruct (modbus_rtu_frame_make _ _ _) as [flen b1];
  cbn [buf set_buf];
  destruct (modbus_send _ _ _ _) as [slen w1];
  destruct (modbus_recv _ _ _) as [[rlen b2] w2];
  cbn [buf set_buf saddr];
  destruct (modbus_rtu_frame_parse _ _ _ _) as [pdu_len frm];
  cbn [fst snd].

(** X23. An RTU transaction without a valid response returns 0.  Each of
    the five transactions returns 0 when the request did not go out whole or
    nothing came back, when the frame parser rejects what came back or
    does not support it, and, with address checking, when the response
    carries the address of another slave. *)
Theorem rtu_no_valid_response_returns_0 :
  forall (op : tcp_op) (hinst : mb_inst_t W) (w : W),
    let h := fst (rtu_request op hinst) in
    let pdu := snd (rtu_request op hinst) in
    let r := rtu_exchange W modbus_rtu_frame_make modbus_rtu_frame_parse
                          modbus_send modbus_recv h pdu w in
    rtu_delivered h pdu w = false \/
    fst r <= 0 \/
    (MB_USING_ADDR_CHK = true /\ frm_saddr (snd r) <> saddr hinst) ->
    run_rtu_op op hinst w = 0.
Proof.
  intros op hinst w. cbv zeta.
  destruct op; unfold run_rtu_op, rtu_request;
    [unfold modbus_read_req_rtu|unfold modbus_write_req_rtu
    |unfold modbus_write_single_rtu|unfold modbus_mask_write_rtu
    |unfold modbus_write_and_read_regs_rtu];
    rtu_transaction;
    (destruct (slen =? flen) eqn:Hs; cbn [negb andb];
     [|intros _; reflexivity]);
    (destruct (rlen <=? 0) eqn:Hr; [intros _; reflexivity|]);
    (destruct (pdu_len <=? 0) eqn:Hp; [intros _; reflexivity|]);
    tests_to_facts;
    (intros [Hd|[Hd|(Hc & Hd)]];
     [apply Z.ltb_ge in Hd; lia|lia|]);
    rewrite Hc; apply Z.eqb_neq in Hd; rewrite Hd; reflexivity.
Qed.

(** X24. An exception response is returned as the negated exception
    code.  When the request went out whole, a frame came back that the
    parser accepts and that (with address checking) carries the address of
    the instance, and its function code has the high bit set, each of the
    five RTU transactions returns the negation of the exception code of
    the response. *)
Theorem rtu_exception_negated :
  forall (op : tcp_op) (hinst : mb_inst_t W) (w : W),
    let h := fst (rtu_request op hinst) in
    let pdu := snd (rtu_request op hinst) in
    let r := rtu_exchange W modbus_rtu_frame_make modbus_rtu_frame_parse
                          modbus_send modbus_recv h pdu w in
    rtu_delivered h pdu w = true ->
    0 < fst r ->
    (MB_USING_ADDR_CHK = true -> frm_saddr (snd r) = saddr hinst) ->
    MODBUS_FC_EXCEPT_CHK (pdu_fc (rtu_pdu (snd r))) = true ->
    run_rtu_op op hinst w
    = - pdu_get union_overlay (rtu_pdu (snd r)) F_exc_ec.
Proof.
  intros op hinst w. cbv zeta.
  destruct op; unfold run_rtu_op, rtu_request;
    [unfold modbus_read_req_rtu|unfold modbus_write_req_rtu
    |unfold modbus_write_single_rtu|unfold modbus_mask_write_rtu
    |unfold modbus_write_and_read_regs_rtu];
    rtu_transaction;
    intros Hd Hp Ha He; tests_to_facts;
    (assert (Hs : (slen =? flen) = true) by (apply Z.eqb_eq; assumption));
    (assert (Hr : (rlen <=? 0) = false) by (apply Z.leb_gt; assumption));
    (assert (Hq : (pdu_len <=? 0) = false) by (apply Z.leb_gt; assumption));
    rewrite Hs, Hr, Hq; cbn [negb];
    (assert (Hc : MB_USING_ADDR_CHK && negb (frm_saddr frm =? saddr hinst)
                  = false)
      by (destruct MB_USING_ADDR_CHK; [|reflexivity];
          rewrite (Ha eq_refl), Z.eqb_refl; reflexivity));
    rewrite Hc, He; reflexivity.
Qed.

(** X29. What an RTU transaction returns for a response that is accepted
    and is no exception.  The function code and the echoed fields of the
    response are not compared with the request: a single write and a mask
    write return 1, a multiple write returns the quantity field of the
    response, a read returns the byte count of the response, and a
    write-and-read returns [rd_nb] when that byte count is [2 * rd_nb] and 0
    otherwise. *)
Theorem rtu_success_results :
  forall (op : tcp_op) (hinst : mb_inst_t W) (w : W),
    let h := fst (rtu_request op hinst) in
    let pdu := snd (rtu_request op hinst) in
    let r := rtu_exchange W modbus_rtu_frame_make modbus_rtu_frame_parse
                          modbus_send modbus_recv h pdu w in
    rtu_delivered h pdu w = true ->
    0 < fst r ->
    (MB_USING_ADDR_CHK = true -> frm_saddr (snd r) = saddr hinst) ->
    MODBUS_FC_EXCEPT_CHK (pdu_fc (rtu_pdu (snd r))) = false ->
    run_rtu_op op hinst w
    = match op with
      | Op_read_req _ _ _ _ =>
          pdu_get union_overlay (rtu_pdu (snd r)) F_rd_rsp_dlen
      | Op_write_req _ _ _ _ _ =>
          pdu_get union_overlay (rtu_pdu (snd r)) F_wr_rsp_nb
      | Op_write_single _ _ _ => 1
      | Op_mask_write _ _ _ => 1
      | Op_write_and_read_regs _ _ _ _ rd_nb _ =>
          if pdu_get union_overlay (rtu_pdu (snd r)) F_rd_rsp_dlen
             =? rd_nb * 2
          then rd_nb else 0
      end.
Proof.
  intros op hinst w. cbv zeta.
  destruct op; unfold run_rtu_op, rtu_request;
    [unfold modbus_read_req_rtu|unfold modbus_write_req_rtu
    |unfold modbus_write_single_rtu|unfold modbus_mask_write_rtu
    |unfold modbus_write_and_read_regs_rtu];
    rtu_transaction;
    intros Hd Hp Ha He; tests_to_facts;
    (assert (Hs : (slen =? flen) = true) by (apply Z.eqb_eq; assumption));
    (assert (Hr : (rlen <=? 0) = false) by (apply Z.leb_gt; assumption));
    (assert (Hq : (pdu_len <=? 0) = false) by (apply Z.leb_gt; assumption));
    rewrite Hs, Hr, Hq; cbn [negb];
    (assert (Hc : MB_USING_ADDR_CHK && negb (frm_saddr frm =? saddr hinst)
                  = false)
      by (destruct MB_USING_ADDR_CHK; [|reflexivity];
          rewrite (Ha eq_refl), Z.eqb_refl; reflexivity));
    rewrite Hc, He; try reflexivity.
  unfold field. destruct (_ =? rd_nb * 2); reflexivity.
Qed.

End MasterRtuResults.

(** ** Results of the master transactions on the TCP path *)

Section MasterTcpResults.

Variable W : Type.
Variable MB_USING_ADDR_CHK : bool.
Variable MB_USING_MBAP_CHK : bool.
Variable union_overlay : mb_pdu_t -> pdu_field -> Z.
Variable union_overlay_ptr : mb_pdu_t -> pdu_ptr -> list Z.
Variable modbus_pdu_make : mb_pdu_t -> mb_pdu_type_t -> Z * list Z.
Variable modbus_pdu_parse :
  list Z -> Z -> mb_pdu_t -> mb_pdu_type_t -> Z * mb_pdu_t.
Variable modbus_send : mb_inst_t W -> list Z -> Z -> W -> Z * W.
Variable modbus_recv : mb_inst_t W -> Z -> W -> Z * list Z * W.
Variable indeterminate : Z.

(** The value returned by each of the five TCP transactions. *)
Definition tcp_result (op : tcp_op) (hinst : mb_inst_t W) (w : W) : Z :=
  match op with
  | Op_read_req func addr nb pdata =>
      fst (fst (fst (modbus_read_req_tcp W MB_USING_ADDR_CHK
                       MB_USING_MBAP_CHK union_overlay union_overlay_ptr
                       modbus_pdu_make modbus_pdu_parse modbus_send
                       modbus_recv indeterminate hinst func addr nb pdata w)))
  | Op_write_req func addr nb pdata dlen =>
      fst (fst (modbus_write_req_tcp W MB_USING_ADDR_CHK MB_USING_MBAP_CHK
                  union_overlay modbus_pdu_make modbus_pdu_parse modbus_send
                  modbus_recv indeterminate hinst func addr nb pdata dlen w))
  | Op_write_single func addr val =>
      fst (fst (modbus_write_single_tcp W MB_USING_ADDR_CHK MB_USING_MBAP_CHK
                  union_overlay modbus_pdu_make modbus_pdu_parse modbus_send
                  modbus_recv indeterminate hinst func addr val w))
  | Op_mask_write addr val_and val_or =>
      fst (fst (modbus_mask_write_tcp W MB_USING_ADDR_CHK MB_USING_MBAP_CHK
                  union_overlay modbus_pdu_make modbus_pdu_parse modbus_send
                  modbus_recv indeterminate hinst addr val_and val_or w))
  | Op_write_and_read_regs wr_addr wr_nb p_wr_regs rd_addr rd_nb p_rd_regs =>
      fst (fst (fst (modbus_write_and_read_regs_tcp W MB_USING_ADDR_CHK
                       MB_USING_MBAP_CHK union_overlay union_overlay_ptr
                       modbus_pdu_make modbus_pdu_parse modbus_send
                       modbus_recv indeterminate hinst wr_addr wr_nb
                       p_wr_regs rd_addr rd_nb p_rd_regs w)))
  end.

(** The instance as the transaction prepares it (registers encoded, counter
    advanced) and the request frame it builds. *)
Definition tcp_request (op : tcp_op) (hinst : mb_inst_t W)
  : mb_inst_t W * mb_tcp_frm_t :=
  let prepared :=
    match op with
    | Op_write_and_read_regs _ wr_nb p_wr_regs _ _ _ =>
        set_datas hinst (regs_put (datas hinst) wr_nb p_wr_regs)
    | _ => hinst
    end in
  let h := set_tsid prepared (u16 (tsid prepared + 1)) in
  (h,
   {| mbap := {| mbap_tid := tsid h; mbap_pid := MB_TCP_MBAP_PID;
                 mbap_dlen := indeterminate; mbap_did := saddr h |};
      tcp_pdu :=
        match op with
        | Op_read_req func addr nb _ => pdu_rd_req func addr (u16 nb)
        | Op_write_req func addr nb pdata dlen =>
            pdu_wr_req func addr (u16 nb) (u8 dlen) pdata
        | Op_write_single func addr val => pdu_wr_single func addr val
        | Op_mask_write addr val_and val_or =>
            pdu_mask_wr MODBUS_FC_MASK_WRITE_REGISTER addr val_and val_or
        | Op_write_and_read_regs wr_addr wr_nb _ rd_addr rd_nb _ =>
            pdu_wr_rd_req MODBUS_FC_WRITE_AND_READ_REGISTERS rd_addr
                          (u16 rd_nb) wr_addr (u16 wr_nb) (u8 (wr_nb * 2))
                          (datas h)
        end |}).

(** Whether the request went out whole and something came back, and the
    result of parsing what came back. *)
Definition tcp_delivered (h : mb_inst_t W) (frm : mb_tcp_frm_t) (w : W)
  : bool :=
  let '(flen, b1) :=
    modbus_tcp_frm_make modbus_pdu_make (buf h) frm MB_PDU_TYPE_REQ in
  let h := set_buf h b1 in
  let '(slen, w) := modbus_send h (buf h) flen w in
  let '(rlen, _, _) := modbus_recv h (sizeof_buf h) w in
  (slen =? flen) && (0 <? rlen).

Definition tcp_exchange (h : mb_inst_t W) (frm : mb_tcp_frm_t) (w : W)
  : Z * mb_tcp_frm_t :=
  let '(flen, b1) :=
    modbus_tcp_frm_make modbus_pdu_make (buf h) frm MB_PDU_TYPE_REQ in
  let h := set_buf h b1 in
  let '(_, w) := modbus_send h (buf h) flen w in
  let '(rlen, b2, _) := modbus_recv h (sizeof_buf h) w in
  modbus_tcp_frm_parse modbus_pdu_parse b2 rlen frm MB_PDU_TYPE_RSP.

Ltac tcp_transaction :=
  unfold tcp_delivered, tcp_exchange;
  cbn [fst snd buf set_buf set_datas set_tsid saddr datas tsid tid];
  destruct (modbus_tcp_frm_make _ _ _ _) as [flen b1];
  cbn [buf set_buf];
  destruct (modbus_send _ _ _ _) as [slen w1];
  destruct (modbus_recv _ _ _) as [[rlen b2] w2];
  cbn [buf set_buf saddr tid];
  destruct (modbus_tcp_frm_parse _ _ _ _ _) as [pdu_len frm];
  cbn [fst snd].

(** X25. A TCP transaction without a valid response returns 0.  Each of
    the five transactions returns 0 when the request did not go out whole or
    nothing came back, when the parser does not support the function code
    of what came back, with address checking when the unit identifier of
    the response is not the address of the instance, and with MBAP checking
    when the protocol identifier of the response is not 0 or its length
    field is not [pdu_len + 1]. *)
Theorem tcp_no_valid_response_returns_0 :
  forall (op : tcp_op) (hinst : mb_inst_t W) (w : W),
    let h := fst (tcp_request op hinst) in
    let frm := snd (tcp_request op hinst) in
    let r := tcp_exchange h frm w in
    tcp_delivered h frm w = false \/
    fst r < 0 \/
    (MB_USING_ADDR_CHK = true /\ mbap_did (mbap (snd r)) <> saddr hinst) \/
    (MB_USING_MBAP_CHK = true /\
     (mbap_pid (mbap (snd r)) <> MB_TCP_MBAP_PID \/
      mbap_dlen (mbap (snd r)) <> fst r + 1)) ->
    tcp_result op hinst w = 0.
Proof.
  intros op hinst w. cbv zeta.
  destruct op; unfold tcp_result, tcp_request;
    [unfold modbus_read_req_tcp|unfold modbus_write_req_tcp
    |unfold modbus_write_single_tcp|unfold modbus_mask_write_tcp
    |unfold modbus_write_and_read_regs_tcp];
    tcp_transaction;
    (destruct (slen =? flen) eqn:Hs; cbn [negb andb];
     [|intros _; reflexivity]);
    (destruct (rlen <=? 0) eqn:Hr; [intros _; reflexivity|]);
    (destruct (pdu_len <? 0) eqn:Hp; [intros _; reflexivity|]);
    tests_to_facts;
    (intros [Hd|[Hd|[(Hc & Hd)|(Hc & Hd)]]];
     [apply Z.ltb_ge in Hd; lia|lia| |]);
    rewrite Hc.
  all: try (apply Z.eqb_neq in Hd; rewrite Hd; reflexivity).
  all: destruct (MB_USING_ADDR_CHK
                 && negb (mbap_did (mbap frm) =? saddr hinst));
    [reflexivity|].
  all: destruct Hd as [Hd|Hd]; apply Z.eqb_neq in Hd; rewrite Hd;
    cbn [negb orb andb]; rewrite ?orb_true_r; reflexivity.
Qed.

End MasterTcpResults.

(** ** What the register readers return *)

Section MasterReadRegs.

Variable W : Type.
Variable MB_USING_RTU_PROTOCOL : bool.
Variable MB_USING_TCP_PROTOCOL : bool.
Variable MB_USING_ADDR_CHK : bool.
Variable MB_USING_MBAP_CHK : bool.
Variable union_overlay : mb_pdu_t -> pdu_field -> Z.
Variable union_overlay_ptr : mb_pdu_t -> pdu_ptr -> list Z.
Variable modbus_pdu_make : mb_pdu_t -> mb_pdu_type_t -> Z * list Z.
Variable modbus_pdu_parse :
  list Z -> Z -> mb_pdu_t -> mb_pdu_type_t -> Z * mb_pdu_t.
Variable modbus_rtu_frame_make :
  list Z -> mb_rtu_frm_t -> mb_pdu_type_t -> Z * list Z.
Variable modbus_rtu_frame_parse :
  list Z -> Z -> mb_rtu_frm_t -> mb_pdu_type_t -> Z * mb_rtu_frm_t.
Variable modbus_send : mb_inst_t W -> list Z -> Z -> W -> Z * W.
Variable modbus_recv : mb_inst_t W -> Z -> W -> Z * list Z * W.
Variable indeterminate : Z.

(** X26. [modbus_read_regs] and [modbus_read_input_regs] return either a
    value that is not positive, and then the caller's array is as it was, or
    exactly the number [nb] of registers asked for, which is then positive,
    and the array holds the [nb] registers decoded from [hinst->datas].  A
    caller that loops over the returned count, as the samples do, stays
    within the registers it asked for. *)
Theorem read_regs_returns_nb :
  forall (hinst : mb_inst_t W) (addr nb : Z) (pregs : list Z) (w : W),
    let outcome (res : Z * list Z * mb_inst_t W * W) :=
      let '(r, regs, hinst', _) := res in
      r <= 0 /\ regs = pregs \/
      r = nb /\ 0 < nb /\ regs = regs_get (datas hinst') nb pregs in
    outcome (modbus_read_regs W MB_USING_RTU_PROTOCOL MB_USING_TCP_PROTOCOL
               MB_USING_ADDR_CHK MB_USING_MBAP_CHK union_overlay
               union_overlay_ptr modbus_pdu_make modbus_pdu_parse
               modbus_rtu_frame_make modbus_rtu_frame_parse modbus_send
               modbus_recv indeterminate hinst addr nb pregs w) /\
    outcome (modbus_read_input_regs W MB_USING_RTU_PROTOCOL
               MB_USING_TCP_PROTOCOL MB_USING_ADDR_CHK MB_USING_MBAP_CHK
               union_overlay union_overlay_ptr modbus_pdu_make
               modbus_pdu_parse modbus_rtu_frame_make modbus_rtu_frame_parse
               modbus_send modbus_recv indeterminate hinst addr nb pregs w).
Proof.
  intros hinst addr nb pregs w. cbv zeta.
  unfold modbus_read_regs, modbus_read_input_regs.
  split.
  - destruct (modbus_read_req _ _ _ _ _ _ _ _ _ _ _ _ _ _ _ _ _ _ _ _)
      as [[[dlen d] h] w1].
    destruct (dlen <=? 0) eqn:Hle; [left; tests_to_facts; auto|].
    destruct (dlen =? nb * 2) eqn:Heq; cbn [negb].
    + right. tests_to_facts. repeat split. lia.
    + left. split; [lia|reflexivity].
  - destruct (modbus_read_req _ _ _ _ _ _ _ _ _ _ _ _ _ _ _ _ _ _ _ _)
      as [[[dlen d] h] w1].
    destruct (dlen <=? 0) eqn:Hle; [left; tests_to_facts; auto|].
    destruct (dlen =? nb * 2) eqn:Heq; cbn [negb].
    + right. tests_to_facts. repeat split. lia.
    + left. split; [lia|reflexivity].
Qed.

End MasterReadRegs.

(** ** The properties above on the bench *)

Definition no_tcp_frame : mb_tcp_frm_t :=
  {| mbap := {| mbap_tid := 0; mbap_pid := 0; mbap_dlen := 0;
                mbap_did := 0 |};
     tcp_pdu := pdu_exc 0 0 |}.

(** An RTU frame from slave 1 that refuses function 0x03 with the
    exception 0x02, and a request to slave 1 with a function code that the
    parser does not support. *)
Definition exception_response : list Z :=
  [1; 0x83; 2; u8 (modbus_crc_cal [1; 0x83; 2]);
   u8 (modbus_crc_cal [1; 0x83; 2] / 256)].

Definition unsupported_request : list Z :=
  [1; 0x2B; 0x0E; u8 (modbus_crc_cal [1; 0x2B; 0x0E]);
   u8 (modbus_crc_cal [1; 0x2B; 0x0E] / 256)].

Lemma slave_without_callbacks_witness :
  modbus_slave_pdu_deal link overlay overlay_ptr (instance MB_PROT_RTU 1 None)
    (pdu_rd_req MODBUS_FC_READ_HOLDING_REGISTERS 4000 2) (line [])
  = (pdu_exc 0x83 MODBUS_EC_SLAVE_OR_SERVER_FAILURE,
     instance MB_PROT_RTU 1 None, line []).
Proof.
  apply (slave_without_callbacks link overlay overlay_ptr
           (instance MB_PROT_RTU 1 None)
           (pdu_rd_req MODBUS_FC_READ_HOLDING_REGISTERS 4000 2) (line [])).
  - right. right. left. reflexivity.
  - left. reflexivity.
Defined.

Lemma slave_undispatched_unchanged_witness :
  modbus_slave_pdu_deal link overlay overlay_ptr
    (instance MB_PROT_RTU 1 (Some bank_cb))
    (pdu_exc MODBUS_FC_REPORT_SLAVE_ID 0) (line [])
  = (pdu_exc MODBUS_FC_REPORT_SLAVE_ID 0,
     instance MB_PROT_RTU 1 (Some bank_cb), line []).
Proof.
  apply (slave_undispatched_unchanged link overlay overlay_ptr
           (instance MB_PROT_RTU 1 (Some bank_cb))
           (pdu_exc MODBUS_FC_REPORT_SLAVE_ID 0) (line [])).
  cbn. intros H.
  repeat (destruct H as [H|H]; [discriminate H|]). exact H.
Defined.

(** Two registers written to 4000 and 4001 of the bank. *)
Lemma write_regs_in_order_witness :
  exists rsts pdu' w',
    modbus_slave_pdu_deal (link * list cb_call) overlay overlay_ptr
      (instance MB_PROT_RTU 1 (Some (traced bank_cb)))
      (pdu_wr_req MODBUS_FC_WRITE_MULTIPLE_REGISTERS 4000 (u16 2) (u8 (2 * 2))
                  (regs_put (repeat 0 256) 2 [7; 9]))
      (line [], [])
    = (pdu', instance MB_PROT_RTU 1 (Some (traced bank_cb)),
       (w', hold_writes 4000 [7; 9] 0 rsts)).
Proof.
  destruct (write_regs_in_order link overlay overlay_ptr
              (instance MB_PROT_RTU 1 (Some (traced bank_cb))) bank_cb
              bank_write_hold 4000 2 (repeat 0 256) [7; 9] (line []))
    as (rsts & pdu' & w' & H & _).
  - reflexivity.
  - reflexivity.
  - lia.
  - cbn. lia.
  - exists rsts, pdu', w'. exact H.
Defined.

(** Two registers read from 4000 and 4001 of the bank. *)
Lemma read_holds_in_order_witness :
  exists rds pdu' hinst' w',
    modbus_slave_pdu_deal (link * list cb_call) overlay overlay_ptr
      (instance MB_PROT_RTU 1 (Some (traced bank_cb)))
      (pdu_rd_req MODBUS_FC_READ_HOLDING_REGISTERS 4000 2) (line [], [])
    = (pdu', hinst', (w', read_calls 4000 0 rds)).
Proof.
  destruct (read_holds_in_order link overlay overlay_ptr
              (instance MB_PROT_RTU 1 (Some (traced bank_cb))) bank_cb
              bank_read_hold 4000 2 [0; 0] (line []))
    as (rds & pdu' & hinst' & w' & H & _).
  - reflexivity.
  - reflexivity.
  - lia.
  - cbn. lia.
  - exists rds, pdu', hinst', w'. exact H.
Defined.

(** Register 4005 of the bank written through function 0x06. *)
Lemma single_writes_call_once_witness :
  snd (snd (modbus_slave_pdu_deal (link * list cb_call) overlay overlay_ptr
              (instance MB_PROT_RTU 1 (Some (traced bank_cb)))
              (pdu_wr_single MODBUS_FC_WRITE_SINGLE_REGISTER 4005 996)
              (line [], [])))
  = [Call_write_hold 4005 996 0].
Proof.
  destruct (single_writes_call_once link overlay overlay_ptr
              (instance MB_PROT_RTU 1 (Some (traced bank_cb))) bank_cb
              4005 (line []) eq_refl) as [_ H].
  rewrite (H bank_write_hold 996 eq_refl). reflexivity.
Defined.

(** A mask write to an address outside the bank: the read is refused and
    nothing is written. *)
Lemma mask_write_failures_witness :
  modbus_slave_pdu_deal (link * list cb_call) overlay overlay_ptr
    (instance MB_PROT_RTU 1 (Some (traced bank_cb)))
    (pdu_mask_wr MODBUS_FC_MASK_WRITE_REGISTER 10 0xF2 0x25) (line [], [])
  = (pdu_exc (Z.lor MODBUS_FC_MASK_WRITE_REGISTER 0x80) (u8 (- -2)),
     instance MB_PROT_RTU 1 (Some (traced bank_cb)),
     (line [], [Call_read_hold 10 (-2) 0])).
Proof.
  apply (mask_write_failures link overlay overlay_ptr
           (instance MB_PROT_RTU 1 (Some (traced bank_cb))) bank_cb
           bank_read_hold bank_write_hold 10 0xF2 0x25 (line []) (-2) 0
           (line []) eq_refl eq_refl eq_refl eq_refl).
  lia.
Defined.

(** The request of scenario 4 at a TCP slave with address 0x11. *)
Lemma slave_tcp_response_header_witness :
  modbus_cvt_u16_get
    (buf (fst (modbus_slave_recv_deal_tcp link true true overlay overlay_ptr
                 modbus_pdu_make modbus_pdu_parse modbus_send no_tcp_frame
                 (instance MB_PROT_TCP 0x11 (Some bank_cb))
                 scenario_4_request 12 (line [])))) 0
  = modbus_cvt_u16_get scenario_4_request 0.
Proof.
  refine (proj1 (slave_tcp_response_header link true true overlay overlay_ptr
                   modbus_pdu_make modbus_pdu_parse modbus_send no_tcp_frame
                   (instance MB_PROT_TCP 0x11 (Some bank_cb))
                   scenario_4_request 12 (line []) _ _ _)).
  - vm_compute. discriminate.
  - intros _. right. reflexivity.
  - intros _. reflexivity.
Defined.

(** Five bytes are no TCP frame. *)
Lemma slave_tcp_dropped_witness :
  modbus_slave_recv_deal_tcp link true true overlay overlay_ptr
    modbus_pdu_make modbus_pdu_parse modbus_send no_tcp_frame
    (instance MB_PROT_TCP 0x11 (Some bank_cb)) [0; 1; 0; 0; 0] 5 (line [])
  = (instance MB_PROT_TCP 0x11 (Some bank_cb), line []).
Proof.
  apply (slave_tcp_dropped link true true overlay overlay_ptr
           modbus_pdu_make modbus_pdu_parse modbus_send no_tcp_frame
           (instance MB_PROT_TCP 0x11 (Some bank_cb)) [0; 1; 0; 0; 0] 5
           (line [])).
  left. reflexivity.
Defined.

Lemma slave_unsupported_function_witness :
  exists made,
    modbus_slave_recv_deal_rtu link true overlay overlay_ptr
      modbus_rtu_frame_make modbus_rtu_frame_parse modbus_send no_frame
      (instance MB_PROT_RTU 1 (Some bank_cb)) unsupported_request 5 (line [])
    = (set_buf (instance MB_PROT_RTU 1 (Some bank_cb)) (snd made),
       snd (modbus_send
              (set_buf (instance MB_PROT_RTU 1 (Some bank_cb)) (snd made))
              (snd made) (fst made) (line []))).
Proof.
  eexists.
  apply (proj1 (slave_unsupported_function link true true overlay overlay_ptr
                  modbus_pdu_make modbus_pdu_parse modbus_rtu_frame_make
                  modbus_rtu_frame_parse modbus_send no_frame no_tcp_frame
                  (instance MB_PROT_RTU 1 (Some bank_cb))
                  unsupported_request 5 (line []))
               (-1) {| frm_saddr := 1; rtu_pdu := pdu_exc 0x2B 0 |}).
  - vm_compute. reflexivity.
  - lia.
  - intros _. reflexivity.
Defined.

(** Nothing comes back for a read request. *)
Lemma rtu_no_valid_response_returns_0_witness :
  run_rtu_op link true overlay overlay_ptr modbus_rtu_frame_make
    modbus_rtu_frame_parse modbus_send modbus_recv
    (Op_read_req MODBUS_FC_READ_HOLDING_REGISTERS 4000 2 (repeat 0 4))
    (instance MB_PROT_RTU 1 None) (line [])
  = 0.
Proof.
  apply (rtu_no_valid_response_returns_0 link true overlay overlay_ptr
           modbus_rtu_frame_make modbus_rtu_frame_parse modbus_send
           modbus_recv
           (Op_read_req MODBUS_FC_READ_HOLDING_REGISTERS 4000 2 (repeat 0 4))
           (instance MB_PROT_RTU 1 None) (line [])).
  left. vm_compute. reflexivity.
Defined.

(** The slave refuses the read with the exception 0x02. *)
Lemma rtu_exception_negated_witness :
  run_rtu_op link true overlay overlay_ptr modbus_rtu_frame_make
    modbus_rtu_frame_parse modbus_send modbus_recv
    (Op_read_req MODBUS_FC_READ_HOLDING_REGISTERS 10 2 (repeat 0 4))
    (instance MB_PROT_RTU 1 None) (line [exception_response])
  = -2.
Proof.
  etransitivity.
  - apply (rtu_exception_negated link true overlay overlay_ptr
             modbus_rtu_frame_make modbus_rtu_frame_parse modbus_send
             modbus_recv
             (Op_read_req MODBUS_FC_READ_HOLDING_REGISTERS 10 2 (repeat 0 4))
             (instance MB_PROT_RTU 1 None) (line [exception_response])).
    + vm_compute. reflexivity.
    + vm_compute. reflexivity.
    + intros _. vm_compute. reflexivity.
    + vm_compute. reflexivity.
  - vm_compute. reflexivity.
Defined.

Lemma tcp_no_valid_response_returns_0_witness :
  tcp_result link true true overlay overlay_ptr modbus_pdu_make
    modbus_pdu_parse modbus_send modbus_recv 0
    (Op_read_req MODBUS_FC_READ_HOLDING_REGISTERS 4000 29 (repeat 0 64))
    (instance MB_PROT_TCP 1 None) (line [])
  = 0.
Proof.
  apply (tcp_no_valid_response_returns_0 link true true overlay overlay_ptr
           modbus_pdu_make modbus_pdu_parse modbus_send modbus_recv 0
           (Op_read_req MODBUS_FC_READ_HOLDING_REGISTERS 4000 29
                        (repeat 0 64))
           (instance MB_PROT_TCP 1 None) (line [])).
  left. vm_compute. reflexivity.
Defined.

(** ** The default callback table *)

(** Request PDUs that ask for something: the member that goes with the
    function code and at least one item to read or to write.  Values and
    masks are whatever the request carries. *)
Inductive request_pdu : mb_pdu_t -> Prop :=
| Req_read (fc addr nb : Z) :
    In fc [MODBUS_FC_READ_COILS; MODBUS_FC_READ_DISCRETE_INPUTS;
           MODBUS_FC_READ_HOLDING_REGISTERS; MODBUS_FC_READ_INPUT_REGISTERS] ->
    1 <= nb ->
    request_pdu (pdu_rd_req fc addr nb)
| Req_write_coil (addr val : Z) :
    request_pdu (pdu_wr_single MODBUS_FC_WRITE_SINGLE_COIL addr val)
| Req_write_reg (addr val : Z) :
    request_pdu (pdu_wr_single MODBUS_FC_WRITE_SINGLE_REGISTER addr val)
| Req_write (fc addr nb dlen : Z) (pdata : list Z) :
    In fc [MODBUS_FC_WRITE_MULTIPLE_COILS;
           MODBUS_FC_WRITE_MULTIPLE_REGISTERS] ->
    1 <= nb ->
    request_pdu (pdu_wr_req fc addr nb dlen pdata)
| Req_mask_write (addr val_and val_or : Z) :
    request_pdu (pdu_mask_wr MODBUS_FC_MASK_WRITE_REGISTER addr val_and
                             val_or)
| Req_write_and_read (rd_addr rd_nb wr_addr wr_nb dlen : Z)
                     (pdata : list Z) :
    1 <= rd_nb \/ 1 <= wr_nb ->
    request_pdu (pdu_wr_rd_req MODBUS_FC_WRITE_AND_READ_REGISTERS rd_addr
                               rd_nb wr_addr wr_nb dlen pdata).

(** A single-coil write whose value is neither 0xFF00 nor 0x0000. *)
Definition illegal_coil_value (pdu : mb_pdu_t) : bool :=
  match pdu with
  | pdu_wr_single fc _ val =>
      (fc =? MODBUS_FC_WRITE_SINGLE_COIL)
      && negb (val =? 0xFF00) && negb (val =? 0x0000)
  | _ => false
  end.

Section DefaultCallbacks.

Variable W : Type.
Variable union_overlay : mb_pdu_t -> pdu_field -> Z.
Variable union_overlay_ptr : mb_pdu_t -> pdu_ptr -> list Z.
Variable indeterminate : Z.

Lemma to_nat_succ : forall n, 1 <= n -> exists k, Z.to_nat n = S k.
Proof.
  intros n Hn. exists (Z.to_nat (n - 1)).
  rewrite <- Z2Nat.inj_succ by lia. f_equal. lia.
Qed.

(** X27. A slave left with the default callback table [mb_cb_table]
    refuses every request that has at least one item to read or to write:
    the response PDU is the function code with the high bit set and an
    exception code, and the user state is untouched.  The code is 0x02
    (illegal data address), what the default callbacks answer, for every
    request but one: a single-coil write whose value is neither 0xFF00 nor
    0x0000 is refused with 0x03 (illegal data value), before the callback
    is called. *)
Theorem default_callbacks_refuse :
  forall (hinst : mb_inst_t W) (pdu : mb_pdu_t) (w : W),
    cb hinst = Some (mb_cb_table W indeterminate) ->
    request_pdu pdu ->
    let res := modbus_slave_pdu_deal W union_overlay union_overlay_ptr
                                     hinst pdu w in
    fst (fst res)
    = pdu_exc (u8 (Z.lor (pdu_fc pdu) 0x80))
              (if illegal_coil_value pdu then MODBUS_EC_ILLEGAL_DATA_VALUE
               else MODBUS_EC_ILLEGAL_DATA_ADDRESS) /\
    snd res = w.
Proof.
  intros hinst pdu w Hcb Hreq. cbv zeta.
  unfold modbus_slave_pdu_deal.
  destruct Hreq as [fc addr nb Hfc Hnb|addr val|addr val
                   |fc addr nb dlen pdata Hfc Hnb|addr val_and val_or
                   |rd_addr rd_nb wr_addr wr_nb dlen pdata Hnb];
    cbn [pdu_fc illegal_coil_value].
  - destruct (to_nat_succ nb Hnb) as [k Hk].
    cbn [In] in Hfc.
    repeat (destruct Hfc as [Hfc|Hfc];
            [subst fc; decide_fc;
             unfold modbus_slave_pdu_deal_read_coils,
               modbus_slave_pdu_deal_read_discs,
               modbus_slave_pdu_deal_read_holds,
               modbus_slave_pdu_deal_read_inputs;
             rewrite Hcb; cbn [mb_cb_table read_coil read_disc read_hold
                                 read_input];
             unfold field; cbn [pdu_get]; rewrite Hk;
             cbn; split; reflexivity|]).
    contradiction.
  - decide_fc. unfold modbus_slave_pdu_deal_write_coil.
    rewrite Hcb. cbn [mb_cb_table write_coil]. unfold field. cbn [pdu_get].
    change (MODBUS_FC_WRITE_SINGLE_COIL =? MODBUS_FC_WRITE_SINGLE_COIL)
      with true. cbn [andb].
    destruct (negb (val =? 0xFF00) && negb (val =? 0x0000));
      cbn; split; reflexivity.
  - decide_fc. unfold modbus_slave_pdu_deal_write_reg.
    rewrite Hcb. cbn [mb_cb_table write_hold]. cbn. split; reflexivity.
  - destruct (to_nat_succ nb Hnb) as [k Hk].
    cbn [In] in Hfc.
    repeat (destruct Hfc as [Hfc|Hfc];
            [subst fc; decide_fc;
             unfold modbus_slave_pdu_deal_write_coils,
               modbus_slave_pdu_deal_write_regs;
             rewrite Hcb; cbn [mb_cb_table write_coil write_hold];
             unfold field, pointer; cbn [pdu_get pdu_pdata]; rewrite Hk;
             cbn; split; reflexivity|]).
    contradiction.
  - decide_fc. unfold modbus_slave_pdu_deal_mask_write_reg.
    rewrite Hcb. cbn [mb_cb_table read_hold write_hold]. cbn.
    split; reflexivity.
  - decide_fc. unfold modbus_slave_pdu_deal_write_and_read_regs.
    rewrite Hcb. cbn [mb_cb_table read_hold write_hold].
    unfold field, pointer. cbn [pdu_get pdu_pdata].
    destruct (Z.to_nat wr_nb) as [|k] eqn:Hk.
    + assert (Hrd : 1 <= rd_nb) by lia.
      destruct (to_nat_succ rd_nb Hrd) as [j Hj]. rewrite Hj.
      cbn. split; reflexivity.
    + cbn. split; reflexivity.
Qed.

End DefaultCallbacks.

(** With the default table a read of the 29 holding registers is refused
    with 0x02, and the write of 0x0100 to coil 10 with 0x03. *)
Lemma default_callbacks_refuse_witness :
  fst (fst (modbus_slave_pdu_deal link overlay overlay_ptr
              (instance MB_PROT_RTU 1 (Some (mb_cb_table link 0)))
              (pdu_rd_req MODBUS_FC_READ_HOLDING_REGISTERS 4000 29)
              (line [])))
  = pdu_exc 0x83 MODBUS_EC_ILLEGAL_DATA_ADDRESS
  /\ fst (fst (modbus_slave_pdu_deal link overlay overlay_ptr
                 (instance MB_PROT_RTU 1 (Some (mb_cb_table link 0)))
                 (pdu_wr_single MODBUS_FC_WRITE_SINGLE_COIL 10 0x0100)
                 (line [])))
     = pdu_exc 0x85 MODBUS_EC_ILLEGAL_DATA_VALUE.
Proof.
  split.
  - refine (proj1 (default_callbacks_refuse link overlay overlay_ptr 0
                     (instance MB_PROT_RTU 1 (Some (mb_cb_table link 0)))
                     (pdu_rd_req MODBUS_FC_READ_HOLDING_REGISTERS 4000 29)
                     (line []) eq_refl _)).
    apply Req_read; [right; right; left; reflexivity|lia].
  - refine (proj1 (default_callbacks_refuse link overlay overlay_ptr 0
                     (instance MB_PROT_RTU 1 (Some (mb_cb_table link 0)))
                     (pdu_wr_single MODBUS_FC_WRITE_SINGLE_COIL 10 0x0100)
                     (line []) eq_refl _)).
    apply Req_write_coil.
Defined.

(** ** Coils on the wire: the bitmap of a read response *)

Lemma nth_pad0 :
  forall (d : list Z) n k, nth k (d ++ repeat 0 n) 0 = nth k d 0.
Proof.
  intros d n k. destruct (Nat.lt_ge_cases k (length d)) as [Hlt|Hge].
  - apply app_nth1. exact Hlt.
  - rewrite app_nth2 by lia. rewrite (nth_overflow d) by lia.
    apply nth_repeat.
Qed.

Lemma byte_at_store_same :
  forall d k v, byte_at (store d k [v]) k = u8 v.
Proof.
  intros d k v. unfold byte_at, store.
  assert (Hlen : length (firstn k (d ++ repeat 0 (k - length d))) = k)
    by (rewrite length_firstn, length_app, repeat_length; lia).
  rewrite app_nth2 by lia. rewrite Hlen, Nat.sub_diag. reflexivity.
Qed.

Lemma byte_at_store_other :
  forall d k v k', k' <> k -> byte_at (store d k [v]) k' = byte_at d k'.
Proof.
  intros d k v k' Hk. unfold byte_at, store. f_equal.
  assert (Hlen : length (firstn k (d ++ repeat 0 (k - length d))) = k)
    by (rewrite length_firstn, length_app, repeat_length; lia).
  destruct (Nat.lt_ge_cases k' k) as [Hlt|Hge].
  - rewrite app_nth1 by lia. rewrite nth_firstn.
    apply Nat.ltb_lt in Hlt. rewrite Hlt. apply nth_pad0.
  - rewrite app_nth2 by lia. rewrite Hlen.
    destruct (k' - k)%nat as [|m] eqn:Hm; [lia|].
    cbn [app nth length]. rewrite nth_skipn. f_equal. lia.
Qed.

(** Reading a bit of a bitmap after one bit was set. *)
Lemma bitmap_get_set :
  forall d i b j,
    0 <= i -> 0 <= j ->
    modbus_bitmap_get (modbus_bitmap_set d i b) j
    = if j =? i then (if b =? 0 then 0 else 1) else modbus_bitmap_get d j.
Proof.
  intros d i b j Hi Hj. unfold modbus_bitmap_get, modbus_bitmap_set.
  pose proof (Z.mod_pos_bound i 8 ltac:(lia)) as Hm.
  pose proof (Z.mod_pos_bound j 8 ltac:(lia)) as Hm'.
  pose proof (Z.div_pos i 8 Hi ltac:(lia)) as Hq.
  pose proof (Z.div_pos j 8 Hj ltac:(lia)) as Hq'.
  pose proof (Z.div_mod i 8 ltac:(lia)) as Hdi.
  pose proof (Z.div_mod j 8 ltac:(lia)) as Hdj.
  destruct (Nat.eq_dec (Z.to_nat (j / 8)) (Z.to_nat (i / 8))) as [Hk|Hk].
  - rewrite Hk, byte_at_store_same.
    assert (Hsame : j / 8 = i / 8) by (apply Z2Nat.inj; assumption).
    unfold u8 at 1. change 256 with (2 ^ 8).
    rewrite Z.mod_pow2_bits_low by lia.
    assert (Hbit : (i mod 8 =? j mod 8) = (j =? i)).
    { destruct (j =? i) eqn:Hji.
      - apply Z.eqb_eq in Hji. subst j. apply Z.eqb_refl.
      - apply Z.eqb_neq in Hji. apply Z.eqb_neq. lia. }
    destruct (b =? 0).
    + rewrite Z.land_spec, Z.lxor_spec, Z.shiftl_1_l.
      rewrite Z.pow2_bits_eqb by lia.
      change 255 with (Z.ones 8). rewrite Z.ones_spec_low by lia.
      rewrite Hbit. destruct (j =? i); cbn [xorb].
      * rewrite andb_false_r. reflexivity.
      * rewrite andb_true_r. reflexivity.
    + rewrite Z.lor_spec, Z.shiftl_1_l.
      rewrite Z.pow2_bits_eqb by lia.
      rewrite Hbit. destruct (j =? i).
      * rewrite orb_true_r. reflexivity.
      * rewrite orb_false_r. reflexivity.
  - rewrite byte_at_store_other by exact Hk.
    assert (Hji : (j =? i) = false) by (apply Z.eqb_neq; intros ->; auto).
    rewrite Hji. reflexivity.
Qed.

Lemma bitmap_get_zeros :
  forall n j, modbus_bitmap_get (repeat 0 n) j = 0.
Proof.
  intros n j. unfold modbus_bitmap_get, byte_at.
  rewrite nth_repeat. change (u8 0) with 0. rewrite Z.bits_0. reflexivity.
Qed.

(** The calls that read the bits [i], [i+1], ... with their results. *)
Fixpoint bit_reads (mk : Z -> Z -> Z -> cb_call) (addr : Z) (i : Z)
         (res : list (Z * Z)) : list cb_call :=
  match res with
  | [] => []
  | (rst, bit) :: tl =>
      mk (u16 (addr + i)) rst bit :: bit_reads mk addr (i + 1) tl
  end.

(** The bit stored for a value that a callback wrote into a [uint8_t]. *)
Definition stored_bit (r : Z * Z) : Z := if u8 (snd r) =? 0 then 0 else 1.

Section ReadBits.

Variable W : Type.

Lemma read_bits_loop_traced :
  forall (mk : Z -> Z -> Z -> cb_call) (rd : Z -> W -> Z * Z * W)
         addr n i d w log,
    0 <= i ->
  exists res rds d' w',
    read_bits_loop (W * list cb_call) (traced_read mk rd) addr n i d (w, log)
    = (res, d', (w', log ++ bit_reads mk addr i rds))
    /\ match res with
       | None =>
           length rds = n /\ Forall (fun r => 0 <= fst r) rds /\
           forall j, 0 <= j ->
             modbus_bitmap_get d' j
             = if (i <=? j) && (j <? i + Z.of_nat n)
               then stored_bit (nth (Z.to_nat (j - i)) rds (0, 0))
               else modbus_bitmap_get d j
       | Some rst =>
           rst < 0 /\ (length rds <= n)%nat /\
           exists ok bit, rds = ok ++ [(rst, bit)] /\
                          Forall (fun r => 0 <= fst r) ok
       end.
Proof.
  intros mk rd addr. induction n as [|n IH]; intros i d w log Hi.
  - exists None, [], d, w. cbn [read_bits_loop bit_reads].
    rewrite app_nil_r. split; [reflexivity|].
    split; [reflexivity|]. split; [constructor|].
    intros j Hj.
    assert (Hc : (i <=? j) && (j <? i + Z.of_nat 0) = false).
    { destruct (i <=? j) eqn:H1; [|reflexivity].
      apply Z.leb_le in H1. cbn [andb]. apply Z.ltb_ge. lia. }
    rewrite Hc. reflexivity.
  - cbn [read_bits_loop]. unfold traced_read at 1. cbn [fst snd].
    destruct (rd (u16 (addr + i)) w) as [[rst bit] w1] eqn:Hrd.
    destruct (rst <? 0) eqn:Hneg.
    + apply Z.ltb_lt in Hneg.
      exists (Some rst), [(rst, bit)], d, w1. cbn [bit_reads].
      split; [reflexivity|]. split; [exact Hneg|]. split; [cbn; lia|].
      exists [], bit. split; [reflexivity|constructor].
    + apply Z.ltb_ge in Hneg.
      destruct (IH (i + 1) (modbus_bitmap_set d i (u8 bit)) w1
                   (log ++ [mk (u16 (addr + i)) rst bit]) ltac:(lia))
        as (res & rds & d' & w' & Hloop & Hres).
      exists res, ((rst, bit) :: rds), d', w'.
      split.
      { rewrite Hloop. cbn [bit_reads]. rewrite <- app_assoc. reflexivity. }
      destruct res as [r|].
      * destruct Hres as (Hr & Hlen & ok & bit' & Hok & Hall).
        split; [exact Hr|]. split; [cbn; lia|].
        exists ((rst, bit) :: ok), bit'. subst rds. split; [reflexivity|].
        constructor; [exact Hneg|exact Hall].
      * destruct Hres as (Hlen & Hall & Hbits).
        split; [cbn; lia|]. split; [constructor; [exact Hneg|exact Hall]|].
        intros j Hj. rewrite (Hbits j Hj).
        rewrite bitmap_get_set by lia.
        destruct (j =? i) eqn:Hji.
        -- apply Z.eqb_eq in Hji. subst j.
           assert (H1 : (i + 1 <=? i) = false) by (apply Z.leb_gt; lia).
           assert (H2 : (i <=? i) && (i <? i + Z.of_nat (S n)) = true).
           { apply andb_true_iff. split; [apply Z.leb_le|apply Z.ltb_lt]; lia. }
           rewrite H1, H2. cbn [andb]. rewrite Z.sub_diag. reflexivity.
        -- apply Z.eqb_neq in Hji.
           destruct ((i + 1 <=? j) && (j <? i + 1 + Z.of_nat n)) eqn:Hin.
           ++ apply andb_true_iff in Hin. destruct Hin as (H1 & H2).
              apply Z.leb_le in H1. apply Z.ltb_lt in H2.
              assert (H3 : (i <=? j) && (j <? i + Z.of_nat (S n)) = true).
              { apply andb_true_iff.
                split; [apply Z.leb_le|apply Z.ltb_lt]; lia. }
              rewrite H3.
              replace (Z.to_nat (j - i)) with (S (Z.to_nat (j - (i + 1))))
                by lia.
              reflexivity.
           ++ assert (H3 : (i <=? j) && (j <? i + Z.of_nat (S n)) = false).
              { apply andb_false_iff in Hin. apply andb_false_iff.
                destruct Hin as [H|H]; [left; apply Z.leb_gt in H;
                                        apply Z.leb_gt; lia
                                       |right; apply Z.ltb_ge in H;
                                        apply Z.ltb_ge; lia]. }
              rewrite H3. reflexivity.
Qed.

End ReadBits.

Section SlaveReadBits.

Variable W : Type.
Variable union_overlay : mb_pdu_t -> pdu_field -> Z.
Variable union_overlay_ptr : mb_pdu_t -> pdu_ptr -> list Z.

(** What a read of [nb] bits from [addr] with function code [fc] leaves:
    the calls made, in order, and either the exception for the first call
    that failed or the response over the bitmap in [hinst->datas]. *)
Definition bits_outcome (mk : Z -> Z -> Z -> cb_call) (fc addr nb : Z)
           (res : mb_pdu_t * mb_inst_t (W * list cb_call)
                  * (W * list cb_call)) : Prop :=
  exists (rds : list (Z * Z)),
    snd (snd res) = bit_reads mk addr 0 rds /\
    (length rds <= Z.to_nat nb)%nat /\
    (Forall (fun r => 0 <= fst r) rds /\ length rds = Z.to_nat nb /\
     fst (fst res) = pdu_rd_rsp fc ((nb + 7) / 8) (datas (snd (fst res))) /\
     (forall j, 0 <= j ->
        modbus_bitmap_get (datas (snd (fst res))) j
        = if j <? nb then stored_bit (nth (Z.to_nat j) rds (0, 0)) else 0)
     \/
     exists ok rst bit,
       rds = ok ++ [(rst, bit)] /\ Forall (fun r => 0 <= fst r) ok /\
       rst < 0 /\
       fst (fst res) = pdu_exc (u8 (Z.lor fc 0x80)) (u8 (- rst))).

(** X28. The bitmap of a read-coils (0x01) or read-discrete-inputs (0x02)
    response.  The handler calls the callback for the addresses [addr],
    [addr + 1], ... (as [uint16_t]) in order and stops at the first call
    that fails, with the exception for that failure.  When none fails it
    made [nb] calls and the PDU becomes a read response with byte count
    [(nb + 7) / 8] over [hinst->datas], in which bit [j] (bit [j % 8] of
    byte [j / 8]) is 1 exactly when the [j]-th callback stored a value that
    is not 0, for [j < nb], and every other bit is 0: the unused bits of
    the last byte and all bytes behind it are clear. *)
Theorem read_bits_bitmap :
  forall (hinst : mb_inst_t (W * list cb_call)) (t : mb_cb_table_t W)
         (rd : Z -> W -> Z * Z * W) (addr nb : Z) (w : W),
    cb hinst = Some (traced t) ->
    0 <= nb <= 2000 ->
    (read_coil t = Some rd ->
     bits_outcome Call_read_coil MODBUS_FC_READ_COILS addr nb
       (modbus_slave_pdu_deal (W * list cb_call) union_overlay
          union_overlay_ptr hinst
          (pdu_rd_req MODBUS_FC_READ_COILS addr nb) (w, []))) /\
    (read_disc t = Some rd ->
     bits_outcome Call_read_disc MODBUS_FC_READ_DISCRETE_INPUTS addr nb
       (modbus_slave_pdu_deal (W * list cb_call) union_overlay
          union_overlay_ptr hinst
          (pdu_rd_req MODBUS_FC_READ_DISCRETE_INPUTS addr nb) (w, []))).
Proof.
  intros hinst t rd addr nb w Hcb Hnb.
  assert (Hdlen : u8 (Z.quot (nb + 7) 8) = (nb + 7) / 8).
  { rewrite Z.quot_div_nonneg by lia. apply u8_id.
    split; [apply Z.div_pos; lia|apply Z.div_lt_upper_bound; lia]. }
  assert (Hgen : forall mk fc,
             bits_outcome mk fc addr nb
               (match read_bits_loop (W * list cb_call) (traced_read mk rd)
                        addr (Z.to_nat nb) 0
                        (repeat 0 (length (datas hinst))) (w, []) with
                | (Some rst, d, w') =>
                    (pdu_set_exc (pdu_rd_req fc addr nb) (- rst),
                     set_datas hinst d, w')
                | (None, d, w') =>
                    (pdu_set_rd_rsp (pdu_rd_req fc addr nb)
                                    (Z.quot (nb + 7) 8) d,
                     set_datas hinst d, w')
                end)).
  { intros mk fc.
    destruct (read_bits_loop_traced W mk rd addr (Z.to_nat nb) 0
                (repeat 0 (length (datas hinst))) w [] ltac:(lia))
      as (res & rds & d' & w' & Hloop & Hres).
    rewrite Hloop. cbn [app]. exists rds.
    destruct res as [rst|].
    - destruct Hres as (Hneg & Hlen & ok & bit & Hok & Hall).
      cbn [fst snd]. split; [reflexivity|]. split; [exact Hlen|].
      right. exists ok, rst, bit. repeat split; assumption || reflexivity.
    - destruct Hres as (Hlen & Hall & Hbits).
      cbn [fst snd set_datas datas]. split; [reflexivity|]. split; [lia|].
      left. split; [exact Hall|]. split; [exact Hlen|]. split.
      + unfold pdu_set_rd_rsp. cbn [pdu_fc]. rewrite Hdlen. reflexivity.
      + intros j Hj. rewrite (Hbits j Hj). rewrite bitmap_get_zeros.
        assert (H0 : (0 <=? j) = true) by (apply Z.leb_le; exact Hj).
        rewrite H0. cbn [andb].
        rewrite Z.add_0_l, Z2Nat.id, Z.sub_0_r by lia. reflexivity. }
  split; intros Hrd.
  - unfold modbus_slave_pdu_deal. cbn [pdu_fc]. decide_fc.
    unfold modbus_slave_pdu_deal_read_coils.
    rewrite Hcb. cbn [traced read_coil]. rewrite Hrd. cbn [option_map].
    unfold field. cbn [pdu_get]. apply Hgen.
  - unfold modbus_slave_pdu_deal. cbn [pdu_fc]. decide_fc.
    unfold modbus_slave_pdu_deal_read_discs.
    rewrite Hcb. cbn [traced read_disc]. rewrite Hrd. cbn [option_map].
    unfold field. cbn [pdu_get]. apply Hgen.
Qed.

End SlaveReadBits.

(** A bank of coils for the bench: coil [a] is on when [a] is odd. *)
Definition odd_coils : mb_cb_table_t link :=
  {| read_disc := None;
     read_coil := Some (fun addr w => (0, if Z.odd addr then 1 else 0, w));
     write_coil := None; read_input := None; read_hold := None;
     write_hold := None |}.

Lemma read_bits_bitmap_witness :
  bits_outcome link Call_read_coil MODBUS_FC_READ_COILS 19 10
    (modbus_slave_pdu_deal (link * list cb_call) overlay overlay_ptr
       (instance MB_PROT_RTU 1 (Some (traced odd_coils)))
       (pdu_rd_req MODBUS_FC_READ_COILS 19 10) (line [], [])).
Proof.
  refine (proj1 (read_bits_bitmap link overlay overlay_ptr
                   (instance MB_PROT_RTU 1 (Some (traced odd_coils)))
                   odd_coils
                   (fun addr w => (0, if Z.odd addr then 1 else 0, w))
                   19 10 (line []) eq_refl _) eq_refl).
  lia.
Defined.

(** ** The TCP port under the reader *)

Section TcpTransport.

Variable W : Type.
Variable modbus_port_get_ms : W -> Z * W.
Variable modbus_port_delay_ms : Z -> W -> W.
Variable recv : Z -> Z -> W -> Z * list Z * W.

(** X30. How the socket shows through [modbus_backend_read] on a backend
    whose [read] is [modbus_port_tcp_read].  After [n] rounds that went back
    to the loop head, with room left in the buffer: when [recv] returns 0
    (the peer closed the connection) the call returns -1, whatever was
    received before; when [recv] returns a negative value (nothing pending)
    the round counts as a silent poll, subject to the timeouts; a positive
    count is the number of bytes of the round.  [modbus_port_tcp_flush]
    reports the closed connection with -1 as well. *)
Theorem tcp_transport_through_reader :
  forall (bk : Backend.mb_backend_t W) (o : Backend.mb_backend_ops_t W)
         (sock bufsize : Z) (buf : Backend.memory) (w0 : W) (n k : nat)
         (hist : list (Z * Z)) (pos told : Z) (buf' : Backend.memory) (w : W),
    Backend.ops W bk = Some o ->
    Backend.read W o = Some (Lifecycle.modbus_port_tcp_read W recv) ->
    Backend.hinst W bk = Some sock ->
    0 < bufsize ->
    Backend.poll_rounds W modbus_port_get_ms modbus_port_delay_ms n
      (Lifecycle.modbus_port_tcp_read W recv) bk sock bufsize 0
      (fst (modbus_port_get_ms w0)) buf (snd (modbus_port_get_ms w0))
    = Some (hist, (pos, told, buf', w)) ->
    pos < bufsize ->
    let len := fst (fst (recv sock (bufsize - pos) w)) in
    let seen := fst (Backend.observe W modbus_port_get_ms
                       (Lifecycle.modbus_port_tcp_read W recv)
                       sock bufsize pos w) in
    (len = 0 ->
     exists b e,
       Backend.modbus_backend_read W modbus_port_get_ms modbus_port_delay_ms
         (n + S k) (Some bk) (Some buf) bufsize w0 = Some (-1, b, e)) /\
    (len < 0 -> seen = 0) /\
    (0 < len -> seen = len) /\
    (forall fuel w',
        fst (fst (recv sock 1 w')) = 0 ->
        exists e, Lifecycle.modbus_port_tcp_flush W recv (S fuel) sock w'
                  = Some (-1, e)).
Proof.
  intros bk o sock bufsize buf w0 n k hist pos told buf' w
         Hops Hread Hh Hsize Hrounds Hroom. cbv zeta.
  split; [|split; [|split]].
  - intros Hlen. unfold Backend.modbus_backend_read.
    apply Z.leb_gt in Hsize. rewrite Hsize, Hh, Hops, Hread.
    destruct (modbus_port_get_ms w0) as [t0 w1]. cbn [fst snd] in Hrounds.
    erewrite Backend.read_loop_after_rounds by exact Hrounds.
    cbn [Backend.read_loop]. apply Z.ltb_lt in Hroom. rewrite Hroom.
    unfold Backend.read_round, Lifecycle.modbus_port_tcp_read.
    destruct (recv sock (bufsize - pos) w) as [[len data] w2].
    cbn [fst] in Hlen. subst len. cbn. eauto.
  - intros Hlen. unfold Backend.observe, Lifecycle.modbus_port_tcp_read.
    destruct (recv sock (bufsize - pos) w) as [[len data] w2].
    cbn [fst] in Hlen.
    assert (H0 : (len =? 0) = false) by (apply Z.eqb_neq; lia).
    apply Z.ltb_lt in Hlen. rewrite H0, Hlen. reflexivity.
  - intros Hlen. unfold Backend.observe, Lifecycle.modbus_port_tcp_read.
    destruct (recv sock (bufsize - pos) w) as [[len data] w2].
    cbn [fst] in Hlen |- *.
    assert (H0 : (len =? 0) = false) by (apply Z.eqb_neq; lia).
    assert (H1 : (len <? 0) = false) by (apply Z.ltb_ge; lia).
    rewrite H0, H1. reflexivity.
  - intros fuel w' Hlen. cbn [Lifecycle.modbus_port_tcp_flush].
    destruct (recv sock 1 w') as [[len data] w2].
    cbn [fst] in Hlen. subst len. cbn. eauto.
Qed.

End TcpTransport.

(** A socket whose peer closes once the script is used up. *)
Definition closing_recv (sock size : Z) (w : Backend.script)
  : Z * list Z * Backend.script :=
  match Backend.rx w with
  | [] => (0, [], w)
  | _ :: _ => Backend.script_read sock size w
  end.

Definition closing_backend : Backend.mb_backend_t Backend.script :=
  {| Backend.ops :=
       Some {| Backend.open := None; Backend.close := None;
               Backend.read :=
                 Some (Lifecycle.modbus_port_tcp_read Backend.script
                         closing_recv);
               Backend.write := None; Backend.flush := None |};
     Backend.ack_tmo_ms := 300; Backend.byte_tmo_ms := 32;
     Backend.hinst := Some 3 |}.

(** Two bytes arrive, then the peer closes. *)
Lemma tcp_transport_through_reader_witness :
  exists b e,
    Backend.modbus_backend_read Backend.script Backend.script_get_ms
      Backend.script_delay_ms (1 + 1) (Some closing_backend)
      (Some (fun _ => 0)) 8 {| Backend.clock := 0; Backend.rx := [[1; 3]] |}
    = Some (-1, b, e).
Proof.
  refine (proj1 (tcp_transport_through_reader Backend.script
                   Backend.script_get_ms Backend.script_delay_ms
                   closing_recv closing_backend _ 3 8 (fun _ => 0)
                   {| Backend.clock := 0; Backend.rx := [[1; 3]] |} 1 0
                   _ _ _ _ _ eq_refl eq_refl eq_refl _ eq_refl _) _).
  - lia.
  - vm_compute. reflexivity.
  - vm_compute. reflexivity.
Defined.

(** Slave 1 echoes a write of 996 to register 4005. *)
Definition echo_response : list Z :=
  [1; 6; 0x0F; 0xA5; 0x03; 0xE4;
   u8 (modbus_crc_cal [1; 6; 0x0F; 0xA5; 0x03; 0xE4]);
   u8 (modbus_crc_cal [1; 6; 0x0F; 0xA5; 0x03; 0xE4] / 256)].

Lemma rtu_success_results_witness :
  run_rtu_op link true overlay overlay_ptr modbus_rtu_frame_make
    modbus_rtu_frame_parse modbus_send modbus_recv
    (Op_write_single MODBUS_FC_WRITE_SINGLE_REGISTER 4005 996)
    (instance MB_PROT_RTU 1 None) (line [echo_response])
  = 1.
Proof.
  apply (rtu_success_results link true overlay overlay_ptr
           modbus_rtu_frame_make modbus_rtu_frame_parse modbus_send
           modbus_recv
           (Op_write_single MODBUS_FC_WRITE_SINGLE_REGISTER 4005 996)
           (instance MB_PROT_RTU 1 None) (line [echo_response])).
  - vm_compute. reflexivity.
  - vm_compute. reflexivity.
  - intros _. vm_compute. reflexivity.
  - vm_compute. reflexivity.
Defined.
